(** * CookieCraft: consent state machine and script gate

    A shallow embedding of the core of the CookieCraft consent widget
    (ConsentManager, StorageManager, EventEmitter, CategoryManager,
    ScriptBlocker, the Google Consent Mode integration and the
    CookieConsent orchestrator) and of the decisions its banner and
    preference centre submit, together with the properties its
    specification states about it and further properties read off the
    code.

    The first part of the file holds the model, one module per source
    class, preceded by what the classes use of the platform (property
    lists, Date, JSON, localStorage, script elements); the second part
    holds the lemmas and theorems.

    Out of the model: the banner, preference centre and widget markup
    (each is a flag of the orchestrator), what subscribers outside the
    core do with the events published to them (the events are recorded
    in [emitted]), and a [gtag] function of the page: the orchestrator
    is modelled on a page that defines none, [DataLayerManager] has the
    general case. *)

From Stdlib Require Import List String Ascii ZArith Lia Bool Arith.
From Stdlib Require Import DecimalString DecimalZ DecimalPos.
Import ListNotations.
Open Scope string_scope.

Ltac Zify.zify_post_hook ::= Z.to_euclidean_division_equations.

(* ================================================================== *)
(** * Part I: the model                                                 *)
(* ================================================================== *)

(** ** Exceptions

    Every JavaScript operation that can throw returns a [result]; a
    [try { ... } catch (e) { ... }] statement is [try_catch]. *)

Inductive exn : Type :=
| Error (message : string)       (* [new Error(message)] *)
| TypeError (message : string)
| SyntaxError (message : string) (* [JSON.parse] on malformed text *)
| DOMException (name : string).  (* QuotaExceededError, SecurityError *)

Inductive result (A : Type) : Type :=
| Ok (a : A)
| Throw (e : exn).
Arguments Ok {A} a.
Arguments Throw {A} e.

(** Code that changes a state [S] and may throw answers with the
    outcome and the state it leaves; what was done before a throw stays
    done. *)
Definition try_catch {S A : Type} (body : result A * S)
  (handler : exn -> S -> result A * S) : result A * S :=
  match body with
  | (Ok a, s) => (Ok a, s)
  | (Throw e, s) => handler e s
  end.

(** ** JavaScript objects as ordered property lists *)

Module JS.

(** Own enumerable string-keyed properties, in enumeration order. *)
Definition object (V : Type) : Type := list (string * V).

Fixpoint get {V : Type} (key : string) (o : object V) : option V :=
  match o with
  | [] => None
  | (k, v) :: rest => if String.eqb k key then Some v else get key rest
  end.

Definition hasOwn {V : Type} (key : string) (o : object V) : bool :=
  match get key o with Some _ => true | None => false end.

(** [Object.keys(o)]. *)
Definition keys {V : Type} (o : object V) : list string := map fst o.

(** [o[key] = v]: an existing property keeps its place. *)
Fixpoint set {V : Type} (key : string) (v : V) (o : object V) : object V :=
  match o with
  | [] => [(key, v)]
  | (k, w) :: rest =>
      if String.eqb k key then (k, v) :: rest else (k, w) :: set key v rest
  end.

(** Property names every ordinary object inherits from
    [Object.prototype]. *)
Definition ObjectPrototype_keys : list string :=
  [ "constructor"; "__defineGetter__"; "__defineSetter__";
    "hasOwnProperty"; "__lookupGetter__"; "__lookupSetter__";
    "isPrototypeOf"; "propertyIsEnumerable"; "toString"; "valueOf";
    "__proto__"; "toLocaleString" ].

Definition inherited (key : string) : bool :=
  existsb (String.eqb key) ObjectPrototype_keys.

(** The [in] operator on an ordinary object (an object literal or a
    [JSON.parse] result): own properties, then the prototype chain. *)
Definition has_property {V : Type} (key : string) (o : object V) : bool :=
  hasOwn key o || inherited key.

(** Truthiness of a [string | null]: [null] and the empty string are
    falsy. *)
Definition truthy (s : option string) : bool :=
  match s with
  | Some v => negb (String.eqb v EmptyString)
  | None => false
  end.

(** [a || d] on strings. *)
Definition or_default (a : option string) (d : string) : string :=
  match a with
  | Some v => if String.eqb v EmptyString then d else v
  | None => d
  end.

(** [s.includes(p)]. *)
Fixpoint includes (s p : string) : bool :=
  String.prefix p s ||
  match s with
  | EmptyString => false
  | String _ s' => includes s' p
  end.

(** Decimal rendering of an integral number, as [String(n)] and
    [JSON.stringify(n)] write it. *)
Definition Z_to_string (z : Z) : string :=
  NilZero.string_of_int (Z.to_int z).

Definition string_to_Z (s : string) : option Z :=
  option_map Z.of_int (NilZero.int_of_string s).

End JS.

(** ** Date: the ECMAScript time-value arithmetic used by the program *)

Module Date.
Open Scope Z_scope.

Definition msPerDay : Z := 86400000.
Definition msPerHour : Z := 3600000.
Definition msPerMinute : Z := 60000.
Definition msPerSecond : Z := 1000.

Definition Day (t : Z) : Z := t / msPerDay.
Definition TimeWithinDay (t : Z) : Z := t mod msPerDay.

Definition DaysInYear (y : Z) : Z :=
  if negb (y mod 4 =? 0) then 365
  else if negb (y mod 100 =? 0) then 366
  else if negb (y mod 400 =? 0) then 365
  else 366.

Definition DayFromYear (y : Z) : Z :=
  365 * (y - 1970) + (y - 1969) / 4 - (y - 1901) / 100 + (y - 1601) / 400.

(** The year [y] with [DayFromYear y <= d < DayFromYear (y + 1)],
    searched from a starting year. *)
Fixpoint find_year (fuel : nat) (y d : Z) : Z :=
  match fuel with
  | O => y
  | S fuel' =>
      if d <? DayFromYear y then find_year fuel' (y - 1) d
      else if DayFromYear (y + 1) <=? d then find_year fuel' (y + 1) d
      else y
  end.

Definition YearFromDay (d : Z) : Z :=
  find_year (S (Z.to_nat (Z.abs d))) 1970 d.

Definition YearFromTime (t : Z) : Z := YearFromDay (Day t).
Definition InLeapYear (t : Z) : Z :=
  if DaysInYear (YearFromTime t) =? 366 then 1 else 0.
Definition DayWithinYear (t : Z) : Z := Day t - DayFromYear (YearFromTime t).

(** Number of days before month [m] (0-based) in a year. *)
Definition month_start (m leap : Z) : Z :=
  match m with
  | 0 => 0
  | 1 => 31
  | 2 => 59 + leap
  | 3 => 90 + leap
  | 4 => 120 + leap
  | 5 => 151 + leap
  | 6 => 181 + leap
  | 7 => 212 + leap
  | 8 => 243 + leap
  | 9 => 273 + leap
  | 10 => 304 + leap
  | 11 => 334 + leap
  | _ => 365 + leap
  end.

Definition month_of_day (dwy leap : Z) : Z :=
  if dwy <? 31 then 0
  else if dwy <? 59 + leap then 1
  else if dwy <? 90 + leap then 2
  else if dwy <? 120 + leap then 3
  else if dwy <? 151 + leap then 4
  else if dwy <? 181 + leap then 5
  else if dwy <? 212 + leap then 6
  else if dwy <? 243 + leap then 7
  else if dwy <? 273 + leap then 8
  else if dwy <? 304 + leap then 9
  else if dwy <? 334 + leap then 10
  else 11.

Definition MonthFromTime (t : Z) : Z :=
  month_of_day (DayWithinYear t) (InLeapYear t).

Definition DateFromTime (t : Z) : Z :=
  DayWithinYear t - month_start (MonthFromTime t) (InLeapYear t) + 1.

Definition HourFromTime (t : Z) : Z := (t / msPerHour) mod 24.
Definition MinFromTime (t : Z) : Z := (t / msPerMinute) mod 60.
Definition SecFromTime (t : Z) : Z := (t / msPerSecond) mod 60.
Definition msFromTime (t : Z) : Z := t mod msPerSecond.

Definition MakeTime (h m s ms : Z) : Z :=
  h * msPerHour + m * msPerMinute + s * msPerSecond + ms.

Definition MakeDay (year month date : Z) : Z :=
  let ym := year + month / 12 in
  let mn := month mod 12 in
  DayFromYear ym
  + month_start mn (if DaysInYear ym =? 366 then 1 else 0)
  + date - 1.

Definition MakeDate (day time : Z) : Z := day * msPerDay + time.

(** Local time.  A [zone] is the LocalTZA of the standard: [tza t true]
    is the zone's offset from UTC, in milliseconds, at the instant [t],
    and [tza t false] its offset at the local time [t].  The offset
    changes with [t] where the zone keeps daylight saving time. *)
Definition zone : Type := Z -> bool -> Z.

Definition LocalTime (tza : zone) (t : Z) : Z := t + tza t true.
Definition UTC (tza : zone) (t : Z) : Z := t - tza t false.

(** [d.getMonth()]. *)
Definition getMonth (tza : zone) (t : Z) : Z := MonthFromTime (LocalTime tza t).

(** [d.setMonth(month)]: the new time value of [d]. *)
Definition setMonth (tza : zone) (t month : Z) : Z :=
  let lt := LocalTime tza t in
  UTC tza
    (MakeDate (MakeDay (YearFromTime lt) month (DateFromTime lt))
              (TimeWithinDay lt)).

(** *** ISO-8601 rendering and parsing *)

Definition digit (d : Z) : ascii := ascii_of_nat (48 + Z.to_nat d).

(** The [w] low-order decimal digits of [n], most significant first. *)
Fixpoint digits (w : nat) (n : Z) : string :=
  match w with
  | O => EmptyString
  | S w' => String (digit ((n / 10 ^ Z.of_nat w') mod 10)) (digits w' n)
  end.

Definition digit_val (c : ascii) : option Z :=
  let n := nat_of_ascii c in
  if (48 <=? n)%nat && (n <=? 57)%nat then Some (Z.of_nat (n - 48))
  else None.

Fixpoint read_digits (w : nat) (acc : Z) (s : string) : option (Z * string) :=
  match w with
  | O => Some (acc, s)
  | S w' =>
      match s with
      | String c s' =>
          match digit_val c with
          | Some d => read_digits w' (acc * 10 + d) s'
          | None => None
          end
      | EmptyString => None
      end
  end.

Definition expect (c : ascii) (s : string) : option string :=
  match s with
  | String c' s' => if Ascii.eqb c c' then Some s' else None
  | EmptyString => None
  end.

Definition year_string (y : Z) : string :=
  if (0 <=? y) && (y <=? 9999) then digits 4 y
  else if y <? 0 then String "-" (digits 6 (- y))
  else String "+" (digits 6 y).

(** [d.toISOString()] for the time value [t]. *)
Definition toISOString (t : Z) : string :=
  year_string (YearFromTime t) ++ "-" ++ digits 2 (MonthFromTime t + 1)
    ++ "-" ++ digits 2 (DateFromTime t)
    ++ "T" ++ digits 2 (HourFromTime t)
    ++ ":" ++ digits 2 (MinFromTime t)
    ++ ":" ++ digits 2 (SecFromTime t)
    ++ "." ++ digits 3 (msFromTime t) ++ "Z".

Definition read_year (s : string) : option (Z * string) :=
  match s with
  | String "+" s' => read_digits 6 0 s'
  | String "-" s' =>
      match read_digits 6 0 s' with
      | Some (y, r) => if y =? 0 then None else Some (- y, r)
      | None => None
      end
  | _ => read_digits 4 0 s
  end.

Definition opt_bind {A B : Type} (o : option A) (k : A -> option B)
  : option B :=
  match o with Some a => k a | None => None end.

(** Days of the month [m] (from 0) of the year [y]. *)
Definition DaysInMonth (y m : Z) : Z :=
  let leap := if DaysInYear y =? 366 then 1 else 0 in
  month_start (m + 1) leap - month_start m leap.

(** The day number of the date [y]-[mo]-[d] ([mo] from 1), when the
    calendar has it. *)
Definition read_date (y mo d : Z) : option Z :=
  if (1 <=? mo) && (mo <=? 12) && (1 <=? d) && (d <=? DaysInMonth y (mo - 1))
  then Some (MakeDay y (mo - 1) d)
  else None.

(** What ends a date-time string: [Z], an offset [+HH:mm] or [-HH:mm]
    (the milliseconds to take off), or nothing ([None]). *)
Definition read_offset (s : string) : option (option Z) :=
  match s with
  | EmptyString => Some None
  | String c s' =>
      if Ascii.eqb c "Z" then
        match s' with
        | EmptyString => Some (Some 0)
        | _ => None
        end
      else if Ascii.eqb c "+" || Ascii.eqb c "-" then
        opt_bind (read_digits 2 0 s') (fun '(h, s) =>
        opt_bind (expect ":" s) (fun s =>
        opt_bind (read_digits 2 0 s) (fun '(m, s) =>
        match s with
        | EmptyString =>
            if (h <=? 23) && (m <=? 59) then
              let o := h * msPerHour + m * msPerMinute in
              Some (Some (if Ascii.eqb c "-" then - o else o))
            else None
        | _ => None
        end)))
      else None
  end.

(** The time of a date-time string, after its [T]: [HH:mm], [HH:mm:ss]
    or [HH:mm:ss.sss], then the offset.  The hour 24 is midnight at the
    end of the day. *)
Definition read_time (s : string) : option (Z * option Z) :=
  opt_bind (read_digits 2 0 s) (fun '(h, s) =>
  opt_bind (expect ":" s) (fun s =>
  opt_bind (read_digits 2 0 s) (fun '(mi, s) =>
  let finish (se ms : Z) (rest : string) :=
    if (h <=? 23) && (mi <=? 59) && (se <=? 59)
       || (h =? 24) && (mi =? 0) && (se =? 0) && (ms =? 0)
    then opt_bind (read_offset rest) (fun o => Some (MakeTime h mi se ms, o))
    else None in
  match s with
  | String ":" s1 =>
      opt_bind (read_digits 2 0 s1) (fun '(se, s) =>
      match s with
      | String "." s2 =>
          opt_bind (read_digits 3 0 s2) (fun '(ms, s) => finish se ms s)
      | _ => finish se 0 s
      end)
  | _ => finish 0 0 s
  end))).

(** The Date Time String Format of the standard: a date [YYYY],
    [YYYY-MM] or [YYYY-MM-DD], alone (UTC) or followed by [T] and a
    time, which is local time unless an offset follows.  A year is four
    digits, or six with a sign.  Field values the calendar does not
    have are not read here. *)
Definition read_standard (tza : zone) (s : string) : option Z :=
  let finish (y mo d : Z) (s : string) :=
    match s with
    | EmptyString =>
        opt_bind (read_date y mo d) (fun day => Some (MakeDate day 0))
    | _ =>
        opt_bind (expect "T" s) (fun s =>
        opt_bind (read_time s) (fun '(time, offset) =>
        opt_bind (read_date y mo d) (fun day =>
        let t := MakeDate day time in
        Some (match offset with
              | Some o => t - o
              | None => UTC tza t
              end))))
    end in
  opt_bind (read_year s) (fun '(y, s) =>
  match s with
  | String "-" s1 =>
      opt_bind (read_digits 2 0 s1) (fun '(mo, s) =>
      match s with
      | String "-" s2 =>
          opt_bind (read_digits 2 0 s2) (fun '(d, s) => finish y mo d s)
      | _ => finish y mo 1 s
      end)
  | _ => finish y 1 1 s
  end).

(** [new Date(s).getTime()]; [None] is the Invalid Date (time value
    NaN).  A string in the standard format is read as the standard
    prescribes, and is invalid beyond the range of time values.  What a
    browser makes of any other string is its own business: [other]. *)
Definition parse (tza : zone) (other : string -> option Z) (s : string)
  : option Z :=
  match read_standard tza s with
  | Some t => if Z.abs t <=? 8640000000000000 then Some t else None
  | None => other s
  end.

End Date.

(** ** Numbers: reading and writing a 64-bit float in decimal *)

Module Number.
Open Scope Z_scope.

(** A Number (a 64-bit float) other than NaN: an integer, [m * 2^e]
    with [m] odd and [e] negative, or an infinity.  The two zeros are
    one: nothing the program does tells them apart. *)
Inductive t : Type :=
| Integer (n : Z)
| Fraction (m e : Z)
| Infinite (negative : bool).

Definition signed (negative : bool) (n : Z) : Z := if negative then - n else n.

(** Halving an even significand as long as the exponent is negative. *)
Fixpoint reduce (p : positive) (e : Z) : positive * Z :=
  match p with
  | xO p' => if e <? 0 then reduce p' (e + 1) else (p, e)
  | _ => (p, e)
  end.

(** The Number [q * 2^e], for [0 <= q <= 2^53]. *)
Definition finite (negative : bool) (q e : Z) : t :=
  match q with
  | Zpos p =>
      if 0 <=? e then
        if 2 ^ 1024 <=? q * 2 ^ e then Infinite negative
        else Integer (signed negative (q * 2 ^ e))
      else
        let '(m, e') := reduce p e in
        if e' =? 0 then Integer (signed negative (Zpos m))
        else Fraction (signed negative (Zpos m)) e'
  | _ => Integer 0
  end.

(** The Number nearest to [n / d] ([n] and [d] positive), ties to the
    even significand: 53 bits, the exponent no lower than -1074. *)
Definition of_ratio (negative : bool) (n d : Z) : t :=
  let scaled (e : Z) : Z * Z :=
    if 0 <=? e then (n, d * 2 ^ e) else (n * 2 ^ (- e), d) in
  let e0 := Z.max (Z.log2 n - Z.log2 d - 53) (-1074) in
  let e := if 2 ^ 53 <=? fst (scaled e0) / snd (scaled e0) then e0 + 1 else e0 in
  let '(num, den) := scaled e in
  let q := num / den in
  let r := num mod den in
  let up := (den <? 2 * r) || ((den =? 2 * r) && Z.odd q) in
  finite negative (if up then q + 1 else q) e.

(** The Number a decimal literal [m * 10^e] denotes ([m] not negative). *)
Definition of_decimal (negative : bool) (m e : Z) : t :=
  if m =? 0 then Integer 0
  else if 400 <? e then Infinite negative
  else if e + Z.log2 m + 1 <? -400 then Integer 0
  else if 0 <=? e then of_ratio negative (m * 10 ^ e) 1
  else of_ratio negative m (10 ^ (- e)).

Definition eqb (x y : t) : bool :=
  match x, y with
  | Integer a, Integer b => a =? b
  | Fraction m e, Fraction m' e' => (m =? m') && (e =? e')
  | Infinite a, Infinite b => Bool.eqb a b
  | _, _ => false
  end.

(** [x < r] for an integer [r]. *)
Definition ltb_Z (x : t) (r : Z) : bool :=
  match x with
  | Integer n => n <? r
  | Fraction m e => Z.shiftr m (- e) <? r
  | Infinite negative => negative
  end.

(** *** Number::toString *)

(** The largest [p] with [10^p <= n / d], looked for around [p]. *)
Definition le_pow10 (p n d : Z) : bool :=
  if 0 <=? p then 10 ^ p * d <=? n else d <=? n * 10 ^ (- p).

Fixpoint floor_log10 (fuel : nat) (p n d : Z) : Z :=
  match fuel with
  | O => p
  | S fuel' =>
      if negb (le_pow10 p n d) then floor_log10 fuel' (p - 1) n d
      else if le_pow10 (p + 1) n d then floor_log10 fuel' (p + 1) n d
      else p
  end.

(** [s * 10^x] as a ratio. *)
Definition decimal_ratio (s x : Z) : Z * Z :=
  if 0 <=? x then (s * 10 ^ x, 1) else (s, 10 ^ (- x)).

(** Whether [s * 10^x] is read back as the positive Number [v]. *)
Definition reads_as (v : t) (s x : Z) : bool :=
  let '(n, d) := decimal_ratio s x in eqb (of_ratio false n d) v.

(** The digits [s] (an integer of [k] digits) and the exponent [n] of
    step 5 of Number::toString, for [v = a / b], positive: [k] as small
    as possible with [s * 10^(n-k)] read back as [v], and among such
    [s] the one nearest to [v], the even one on a tie. *)
Fixpoint shortest (fuel : nat) (k : Z) (v : t) (a b p : Z) : Z * Z * Z :=
  match fuel with
  | O => (0, k, p + 1)
  | S fuel' =>
      let x := p + 1 - k in                     (* [n - k] *)
      let '(num, den) :=
        if 0 <=? x then (a, b * 10 ^ x) else (a * 10 ^ (- x), b) in
      let lo := num / den in
      let r := num mod den in
      let near_lo := (2 * r <? den) || ((2 * r =? den) && Z.even lo) in
      let ok_lo := reads_as v lo x in
      let ok_hi := reads_as v (lo + 1) x in
      let pick (s : Z) :=
        if s =? 10 ^ k then (10 ^ (k - 1), k, p + 2) else (s, k, p + 1) in
      if ok_lo && (near_lo || negb ok_hi) then pick lo
      else if ok_hi then pick (lo + 1)
      else shortest fuel' (k + 1) v a b p
  end.

Definition digits_of (s : Z) : string := NilZero.string_of_uint (N.to_uint (Z.to_N s)).

Fixpoint zeros (n : nat) : string :=
  match n with O => EmptyString | S n' => String "0" (zeros n') end.

Definition exponent_part (n : Z) : string :=
  "e" ++ (if 0 <=? n - 1 then "+" else "-") ++ digits_of (Z.abs (n - 1)).

(** Steps 6 to 10 of Number::toString. *)
Definition layout (s k n : Z) : string :=
  let ds := digits_of s in
  if (k <=? n) && (n <=? 21) then ds ++ zeros (Z.to_nat (n - k))
  else if (0 <? n) && (n <=? 21) then
    String.substring 0 (Z.to_nat n) ds ++ "."
      ++ String.substring (Z.to_nat n) (Z.to_nat (k - n)) ds
  else if (-6 <? n) && (n <=? 0) then "0." ++ zeros (Z.to_nat (- n)) ++ ds
  else if k =? 1 then ds ++ exponent_part n
  else String.substring 0 1 ds ++ "."
         ++ String.substring 1 (Z.to_nat (k - 1)) ds ++ exponent_part n.

(** The positive Number [v = a / b] in decimal. *)
Definition positive_to_string (v : t) (a b : Z) : string :=
  let p := floor_log10 4 (((Z.log2 a - Z.log2 b) * 30103) / 100000) a b in
  let '(s, k, n) := shortest 17 1 v a b p in
  layout s k n.

(** [Number::toString(x)] in radix 10, for a Number in the form [of_ratio]
    gives it. *)
Definition to_string (x : t) : string :=
  match x with
  | Integer 0 => "0"
  | Integer n =>
      (if n <? 0 then "-" else "")
      ++ positive_to_string (Integer (Z.abs n)) (Z.abs n) 1
  | Fraction m e =>
      (if m <? 0 then "-" else "")
      ++ positive_to_string (Fraction (Z.abs m) e) (Z.abs m) (2 ^ (- e))
  | Infinite negative => if negative then "-Infinity" else "Infinity"
  end.

End Number.

(** ** JSON values, [JSON.stringify] and [JSON.parse]

    A [JSON.value] is also the shape of the JavaScript values the
    program reads back from storage.  A number that is an integer is
    held as that integer, and an integer is written and read in full,
    however long; any other number is the 64-bit float.  A browser
    keeps 53 bits of an integer, which is all of it up to 15 digits.
    Characters are 8-bit code units: an escape above code 255 has no
    counterpart and is refused by [parse].  On the texts [in_scope],
    whose escapes are narrow and whose runs of digits have at most 15,
    [parse] is the browser's [JSON.parse]; what is said of a text
    found in storage is said of those. *)

Module JSON.

#[warnings="-register-all"]
Inductive value : Type :=
| JNull
| JBool (b : bool)
| JNumber (n : Z)                   (* a number that is an integer *)
| JFraction (m e : Z)               (* [m * 2^e], no integer *)
| JInfinity (negative : bool)
| JString (s : string)
| JArray (l : list value)
| JObject (o : JS.object value).

Definition of_number (x : Number.t) : value :=
  match x with
  | Number.Integer n => JNumber n
  | Number.Fraction m e => JFraction m e
  | Number.Infinite negative => JInfinity negative
  end.

Definition dquote : ascii := "034"%char.
Definition backslash : ascii := "092"%char.

Definition hex_digit (n : nat) : ascii :=
  if (n <? 10)%nat then ascii_of_nat (48 + n) else ascii_of_nat (87 + n).

Definition hex_val (c : ascii) : option nat :=
  let n := nat_of_ascii c in
  if (48 <=? n)%nat && (n <=? 57)%nat then Some (n - 48)%nat
  else if (97 <=? n)%nat && (n <=? 102)%nat then Some (n - 87)%nat
  else if (65 <=? n)%nat && (n <=? 70)%nat then Some (n - 55)%nat
  else None.

Definition escape_char (c : ascii) : string :=
  let n := nat_of_ascii c in
  if Ascii.eqb c dquote then String backslash (String dquote EmptyString)
  else if Ascii.eqb c backslash then String backslash (String backslash EmptyString)
  else if (n =? 8)%nat then String backslash "b"
  else if (n =? 9)%nat then String backslash "t"
  else if (n =? 10)%nat then String backslash "n"
  else if (n =? 12)%nat then String backslash "f"
  else if (n =? 13)%nat then String backslash "r"
  else if (n <? 32)%nat then
    String backslash
      (String "u" (String "0" (String "0"
         (String (hex_digit (n / 16)) (String (hex_digit (n mod 16)) EmptyString)))))
  else String c EmptyString.

Fixpoint escape (s : string) : string :=
  match s with
  | EmptyString => EmptyString
  | String c s' => escape_char c ++ escape s'
  end.

Definition quote (s : string) : string :=
  String dquote (escape s ++ String dquote EmptyString).

Fixpoint members_string (f : value -> string) (o : JS.object value) : string :=
  match o with
  | [] => EmptyString
  | [(k, v)] => quote k ++ ":" ++ f v
  | (k, v) :: rest => quote k ++ ":" ++ f v ++ "," ++ members_string f rest
  end.

Fixpoint elements_string (f : value -> string) (l : list value) : string :=
  match l with
  | [] => EmptyString
  | [v] => f v
  | v :: rest => f v ++ "," ++ elements_string f rest
  end.

(** [JSON.stringify(v)]. *)
Fixpoint stringify (v : value) : string :=
  match v with
  | JNull => "null"
  | JBool true => "true"
  | JBool false => "false"
  | JNumber n => JS.Z_to_string n
  | JFraction m e => Number.to_string (Number.Fraction m e)
  | JInfinity _ => "null"
  | JString s => quote s
  | JArray l => "[" ++ elements_string stringify l ++ "]"
  | JObject o => "{" ++ members_string stringify o ++ "}"
  end.

Definition is_ws (c : ascii) : bool :=
  let n := nat_of_ascii c in
  (n =? 32)%nat || (n =? 9)%nat || (n =? 10)%nat || (n =? 13)%nat.

Fixpoint skip_ws (s : string) : string :=
  match s with
  | String c s' => if is_ws c then skip_ws s' else s
  | EmptyString => s
  end.

(** The characters of a string literal after its opening quote, up to
    and including the closing quote. *)
Fixpoint parse_string_body (s : string) : option (string * string) :=
  match s with
  | EmptyString => None
  | String c s' =>
      if Ascii.eqb c dquote then Some (EmptyString, s')
      else if Ascii.eqb c backslash then
        match s' with
        | String e s'' =>
            let unescaped (d : ascii) :=
              match parse_string_body s'' with
              | Some (body, rest) => Some (String d body, rest)
              | None => None
              end in
            if Ascii.eqb e dquote then unescaped dquote
            else if Ascii.eqb e backslash then unescaped backslash
            else if Ascii.eqb e "/" then unescaped "/"%char
            else if Ascii.eqb e "b" then unescaped "008"%char
            else if Ascii.eqb e "t" then unescaped "009"%char
            else if Ascii.eqb e "n" then unescaped "010"%char
            else if Ascii.eqb e "f" then unescaped "012"%char
            else if Ascii.eqb e "r" then unescaped "013"%char
            else if Ascii.eqb e "u" then
              match s'' with
              | String h1 (String h2 (String h3 (String h4 s5))) =>
                  match hex_val h1, hex_val h2, hex_val h3, hex_val h4 with
                  | Some 0%nat, Some 0%nat, Some a, Some b =>
                      match parse_string_body s5 with
                      | Some (body, rest) =>
                          Some (String (ascii_of_nat (16 * a + b)) body, rest)
                      | None => None
                      end
                  | _, _, _, _ => None
                  end
              | _ => None
              end
            else None
        | EmptyString => None
        end
      else if (nat_of_ascii c <? 32)%nat then None
      else
        match parse_string_body s' with
        | Some (body, rest) => Some (String c body, rest)
        | None => None
        end
  end.

Definition is_number_char (c : ascii) : bool :=
  let n := nat_of_ascii c in
  ((48 <=? n)%nat && (n <=? 57)%nat)
  || Ascii.eqb c "-" || Ascii.eqb c "+" || Ascii.eqb c "."
  || Ascii.eqb c "e" || Ascii.eqb c "E".

(** The characters a number token is made of, up to the first that is
    none. *)
Fixpoint span_number (s : string) : string * string :=
  match s with
  | String c s' =>
      if is_number_char c
      then let '(tok, rest) := span_number s' in (String c tok, rest)
      else (EmptyString, s)
  | EmptyString => (EmptyString, s)
  end.

Definition is_digit (c : ascii) : bool :=
  let n := nat_of_ascii c in (48 <=? n)%nat && (n <=? 57)%nat.

Definition digit_or_minus (c : ascii) : bool :=
  is_digit c || Ascii.eqb c "-".

Fixpoint span (p : ascii -> bool) (s : string) : string * string :=
  match s with
  | String c s' =>
      if p c then let '(tok, rest) := span p s' in (String c tok, rest)
      else (EmptyString, s)
  | EmptyString => (EmptyString, s)
  end.

(** The digits [s] appended to the decimal numeral of [acc]. *)
Fixpoint decimal (acc : Z) (s : string) : Z :=
  match s with
  | EmptyString => acc
  | String c s' => decimal (acc * 10 + Z.of_nat (nat_of_ascii c - 48)) s'
  end.

(** The fraction of a number token: a point and its digits, or nothing. *)
Definition read_fraction (s : string) : option (string * string) :=
  match s with
  | String "." s' =>
      let '(ds, rest) := span is_digit s' in
      if String.eqb ds EmptyString then None else Some (ds, rest)
  | _ => Some (EmptyString, s)
  end.

(** The exponent that ends a number token: [e] or [E], a sign or none,
    and digits; or nothing. *)
Definition read_exponent (s : string) : option Z :=
  let all_digits (negative : bool) (ds : string) : option Z :=
    match span is_digit ds with
    | (String _ _, EmptyString) =>
        Some (Number.signed negative (decimal 0 ds))
    | _ => None
    end in
  match s with
  | EmptyString => Some 0%Z
  | String c s' =>
      if Ascii.eqb c "e" || Ascii.eqb c "E" then
        match s' with
        | String "+" ds => all_digits false ds
        | String "-" ds => all_digits true ds
        | _ => all_digits false s'
        end
      else None
  end.

(** The value of a number token.  The integer part is [0] or starts
    with a digit other than [0], after the sign if there is one. *)
Definition read_number (tok : string) : option value :=
  let '(int, rest) := span digit_or_minus tok in
  match JS.string_to_Z int with
  | Some z =>
      if String.eqb (JS.Z_to_string z) int || String.eqb int "-0" then
        match rest with
        | EmptyString => Some (JNumber z)
        | _ =>
            match read_fraction rest with
            | Some (frac, rest') =>
                match read_exponent rest' with
                | Some e =>
                    Some (of_number
                            (Number.of_decimal
                               (match int with String "-" _ => true | _ => false end)
                               (decimal (Z.abs z) frac)
                               (e - Z.of_nat (String.length frac))))
                | None => None
                end
            | None => None
            end
        end
      else None
  | None => None
  end.

(** A number token: the run of number characters, which has to be a
    number as a whole (no value is followed by a number character). *)
Definition parse_number (s : string) : option (value * string) :=
  let '(tok, rest) := span_number s in
  match read_number tok with
  | Some v => Some (v, rest)
  | None => None
  end.

Fixpoint strip_prefix (p s : string) : option string :=
  match p, s with
  | EmptyString, _ => Some s
  | String a p', String b s' =>
      if Ascii.eqb a b then strip_prefix p' s' else None
  | String _ _, EmptyString => None
  end.

Definition literal (lit : string) (v : value) (s : string)
  : option (value * string) :=
  match strip_prefix lit s with
  | Some rest => Some (v, rest)
  | None => None
  end.

Section loops.
Variable parse_value : string -> option (value * string).

(** Members of an object, from the first key to the closing brace. *)
Fixpoint parse_members (fuel : nat) (acc : JS.object value) (s : string)
  : option (JS.object value * string) :=
  match fuel with
  | O => None
  | S fuel' =>
      match skip_ws s with
      | String c s1 =>
          if Ascii.eqb c dquote then
            match parse_string_body s1 with
            | Some (k, s2) =>
                match skip_ws s2 with
                | String ":" s3 =>
                    match parse_value s3 with
                    | Some (v, s4) =>
                        let acc' := JS.set k v acc in
                        match skip_ws s4 with
                        | String "," s5 => parse_members fuel' acc' s5
                        | String "}" s5 => Some (acc', s5)
                        | _ => None
                        end
                    | None => None
                    end
                | _ => None
                end
            | None => None
            end
          else None
      | EmptyString => None
      end
  end.

Fixpoint parse_elements (fuel : nat) (acc : list value) (s : string)
  : option (list value * string) :=
  match fuel with
  | O => None
  | S fuel' =>
      match parse_value s with
      | Some (v, s1) =>
          match skip_ws s1 with
          | String "," s2 => parse_elements fuel' (acc ++ [v])%list s2
          | String "]" s2 => Some ((acc ++ [v])%list, s2)
          | _ => None
          end
      | None => None
      end
  end.
End loops.

Fixpoint parse_value (fuel : nat) (s : string) : option (value * string) :=
  match fuel with
  | O => None
  | S fuel' =>
      match skip_ws s with
      | EmptyString => None
      | String c s' as s0 =>
          if Ascii.eqb c "{" then
            match skip_ws s' with
            | String "}" s'' => Some (JObject [], s'')
            | _ =>
                match parse_members (parse_value fuel') (String.length s') [] s' with
                | Some (o, rest) => Some (JObject o, rest)
                | None => None
                end
            end
          else if Ascii.eqb c "[" then
            match skip_ws s' with
            | String "]" s'' => Some (JArray [], s'')
            | _ =>
                match parse_elements (parse_value fuel') (String.length s') [] s' with
                | Some (l, rest) => Some (JArray l, rest)
                | None => None
                end
            end
          else if Ascii.eqb c dquote then
            match parse_string_body s' with
            | Some (str, rest) => Some (JString str, rest)
            | None => None
            end
          else if Ascii.eqb c "t" then literal "true" (JBool true) s0
          else if Ascii.eqb c "f" then literal "false" (JBool false) s0
          else if Ascii.eqb c "n" then literal "null" JNull s0
          else
            parse_number s0
      end
  end.

(** [JSON.parse(text)]; [None] stands for the SyntaxError it throws. *)
Definition parse (text : string) : option value :=
  match parse_value (String.length text) text with
  | Some (v, rest) =>
      match skip_ws rest with
      | EmptyString => Some v
      | _ => None
      end
  | None => None
  end.

(** No escape of the text names a code unit above 255: after each
    backslash that starts an escape comes a character other than [u],
    or [u00]. *)
Fixpoint narrow_escapes (s : string) : bool :=
  match s with
  | EmptyString => true
  | String c s' =>
      if Ascii.eqb c backslash then
        match s' with
        | String "u" (String h1 (String h2 rest)) =>
            Ascii.eqb h1 "0" && Ascii.eqb h2 "0" && narrow_escapes rest
        | String "u" _ => true
        | String _ rest => narrow_escapes rest
        | EmptyString => true
        end
      else narrow_escapes s'
  end.

(** No run of digits of the text is longer than [limit]; [run] digits
    came just before. *)
Fixpoint digit_runs_within (limit run : nat) (s : string) : bool :=
  match s with
  | EmptyString => true
  | String c s' =>
      if is_digit c
      then (run <? limit)%nat && digit_runs_within limit (S run) s'
      else digit_runs_within limit 0 s'
  end.

Definition in_scope (text : string) : bool :=
  narrow_escapes text && digit_runs_within 15 0 text.

(** *** Reading parsed values the way the program does *)

(** Truthiness of a value. *)
Definition truthy (v : value) : bool :=
  match v with
  | JNull => false
  | JBool b => b
  | JNumber n => negb (Z.eqb n 0)
  | JFraction _ _ | JInfinity _ => true
  | JString s => negb (String.eqb s EmptyString)
  | JArray _ | JObject _ => true
  end.

(** [v.name] on a truthy value; [None] is [undefined].  None of the
    names the program reads is inherited from a prototype. *)
Definition get_property (name : string) (v : value) : option value :=
  match v with
  | JObject o => JS.get name o
  | _ => None
  end.

(** [typeof x]. *)
Definition typeof (x : option value) : string :=
  match x with
  | None => "undefined"
  | Some JNull => "object"
  | Some (JBool _) => "boolean"
  | Some (JNumber _) | Some (JFraction _ _) | Some (JInfinity _) => "number"
  | Some (JString _) => "string"
  | Some (JArray _) | Some (JObject _) => "object"
  end.

(** [v === true]. *)
Definition is_true (v : value) : bool :=
  match v with
  | JBool true => true
  | _ => false
  end.

End JSON.

(** ** Shared types (src/types) *)

Definition ConsentCategories : Type := JS.object bool.

Record CategoryConfig : Type := {
  enabled : bool;
  readOnly : bool;
  label : string;
  description : string;
}.

Record ConsentConfig : Type := {
  mode : string;
  autoShow : bool;
  revision : Z;
  config_categories : JS.object CategoryConfig; (* [config.categories] *)
  gtmConsentMode : bool;
  showWidget : bool;
}.

Record ConsentRecord : Type := {
  version : Z;
  timestamp : string;
  categories : ConsentCategories;
  userAgent : string;
  expiresAt : string;
}.

(** The record as the JavaScript object it is at run time. *)
Definition categories_to_json (c : ConsentCategories) : JSON.value :=
  JSON.JObject (map (fun kb => (fst kb, JSON.JBool (snd kb))) c).

Definition record_to_json (r : ConsentRecord) : JSON.value :=
  JSON.JObject
    [ ("version", JSON.JNumber (version r));
      ("timestamp", JSON.JString (timestamp r));
      ("categories", categories_to_json (categories r));
      ("userAgent", JSON.JString (userAgent r));
      ("expiresAt", JSON.JString (expiresAt r)) ].

(** Payloads carried on the notification bus. *)
Inductive payload : Type :=
| NoPayload
| CategoriesPayload (c : ConsentCategories)
| RecordPayload (r : JSON.value)
| ActivatedPayload (category : option string) (src : string).

(** ** The browser the program runs in *)

(** [localStorage]: one storage area, which may refuse access
    (SecurityError) or run out of room (QuotaExceededError). *)
Module Storage.

Record t : Type := {
  items : JS.object string;
  denied : bool;
  quota : nat;
}.

Definition size (o : JS.object string) : nat :=
  fold_right (fun kv n => String.length (fst kv) + String.length (snd kv) + n)
             0 o.

Definition getItem (key : string) (s : t) : result (option string) :=
  if denied s then Throw (DOMException "SecurityError")
  else Ok (JS.get key (items s)).

Definition setItem (key value : string) (s : t) : result t :=
  if denied s then Throw (DOMException "SecurityError")
  else
    let items' := JS.set key value (items s) in
    if (quota s <? size items')%nat then Throw (DOMException "QuotaExceededError")
    else Ok {| items := items'; denied := denied s; quota := quota s |}.

Definition removeItem (key : string) (s : t) : result t :=
  if denied s then Throw (DOMException "SecurityError")
  else Ok {| items := filter (fun kv => negb (String.eqb (fst kv) key)) (items s);
             denied := denied s; quota := quota s |}.

End Storage.

(** A script element: its content attributes in order and its text.
    The IDL attributes [type] and [src] reflect content attributes. *)
Module Script.

Record t : Type := {
  attributes : list (string * string);
  textContent : string;
}.

Definition getAttribute (name : string) (s : t) : option string :=
  JS.get name (attributes s).

Definition hasAttribute (name : string) (s : t) : bool :=
  JS.hasOwn name (attributes s).

Definition setAttribute (name value : string) (s : t) : t :=
  {| attributes := JS.set name value (attributes s);
     textContent := textContent s |}.

Definition set_textContent (text : string) (s : t) : t :=
  {| attributes := attributes s; textContent := text |}.

(** [script.type]. *)
Definition type (s : t) : string :=
  match getAttribute "type" s with
  | Some v => v
  | None => EmptyString
  end.

(** [script.type = v]. *)
Definition set_type (v : string) (s : t) : t := setAttribute "type" v s.

(** [script.src]: the attribute resolved against the document base. *)
Definition src (resolveURL : string -> string) (s : t) : string :=
  match getAttribute "src" s with
  | Some v => resolveURL v
  | None => EmptyString
  end.

(** [document.createElement('script')]. *)
Definition create : t := {| attributes := []; textContent := EmptyString |}.

End Script.

(** One entry pushed to [window.dataLayer]. *)
Record DataLayerEntry : Type := {
  dl_command : string;
  dl_action : string;
  dl_params : JS.object string;
}.

(** The state of the page outside the program's own objects.  Script
    elements live in [heap] and are named by their index; [attached]
    lists the script elements that have a parent node, in document
    order (other nodes of the tree play no part).  [emitted] is what the
    notification bus has delivered to subscribers outside the core. *)
Record Browser : Type := {
  now : Z;                          (* [Date.now()], [new Date()] *)
  LocalTZA : Date.zone;             (* the time zone of the browser *)
  Date_parse_other : string -> option Z;
                                    (* [Date.parse] outside the standard format *)
  navigator_userAgent : string;
  resolveURL : string -> string;
  random : nat -> string;           (* [String(Math.random())], per call *)
  ticks : nat;                      (* calls made to [Math.random] *)
  localStorage : Storage.t;
  console : list string;
  heap : list Script.t;
  attached : list nat;
  dataLayer : list DataLayerEntry;
  emitted : list (string * payload);
}.

Definition set_localStorage (s : Storage.t) (b : Browser) : Browser :=
  {| now := now b; LocalTZA := LocalTZA b;
     Date_parse_other := Date_parse_other b;
     navigator_userAgent := navigator_userAgent b;
     resolveURL := resolveURL b; random := random b; ticks := ticks b;
     localStorage := s; console := console b; heap := heap b;
     attached := attached b; dataLayer := dataLayer b; emitted := emitted b |}.

Definition set_console (c : list string) (b : Browser) : Browser :=
  {| now := now b; LocalTZA := LocalTZA b;
     Date_parse_other := Date_parse_other b;
     navigator_userAgent := navigator_userAgent b;
     resolveURL := resolveURL b; random := random b; ticks := ticks b;
     localStorage := localStorage b; console := c; heap := heap b;
     attached := attached b; dataLayer := dataLayer b; emitted := emitted b |}.

Definition set_ticks (n : nat) (b : Browser) : Browser :=
  {| now := now b; LocalTZA := LocalTZA b;
     Date_parse_other := Date_parse_other b;
     navigator_userAgent := navigator_userAgent b;
     resolveURL := resolveURL b; random := random b; ticks := n;
     localStorage := localStorage b; console := console b; heap := heap b;
     attached := attached b; dataLayer := dataLayer b; emitted := emitted b |}.

Definition set_heap (h : list Script.t) (b : Browser) : Browser :=
  {| now := now b; LocalTZA := LocalTZA b;
     Date_parse_other := Date_parse_other b;
     navigator_userAgent := navigator_userAgent b;
     resolveURL := resolveURL b; random := random b; ticks := ticks b;
     localStorage := localStorage b; console := console b; heap := h;
     attached := attached b; dataLayer := dataLayer b; emitted := emitted b |}.

Definition set_attached (a : list nat) (b : Browser) : Browser :=
  {| now := now b; LocalTZA := LocalTZA b;
     Date_parse_other := Date_parse_other b;
     navigator_userAgent := navigator_userAgent b;
     resolveURL := resolveURL b; random := random b; ticks := ticks b;
     localStorage := localStorage b; console := console b; heap := heap b;
     attached := a; dataLayer := dataLayer b; emitted := emitted b |}.

Definition set_dataLayer (d : list DataLayerEntry) (b : Browser) : Browser :=
  {| now := now b; LocalTZA := LocalTZA b;
     Date_parse_other := Date_parse_other b;
     navigator_userAgent := navigator_userAgent b;
     resolveURL := resolveURL b; random := random b; ticks := ticks b;
     localStorage := localStorage b; console := console b; heap := heap b;
     attached := attached b; dataLayer := d; emitted := emitted b |}.

Definition set_emitted (e : list (string * payload)) (b : Browser) : Browser :=
  {| now := now b; LocalTZA := LocalTZA b;
     Date_parse_other := Date_parse_other b;
     navigator_userAgent := navigator_userAgent b;
     resolveURL := resolveURL b; random := random b; ticks := ticks b;
     localStorage := localStorage b; console := console b; heap := heap b;
     attached := attached b; dataLayer := dataLayer b; emitted := e |}.

(** [console.error(message, e)] and [console.log(message)]. *)
Definition console_log (message : string) (b : Browser) : Browser :=
  set_console (console b ++ [message]) b.

(** Publishing an event whose only subscribers are outside the core. *)
Definition publish (event : string) (data : payload) (b : Browser) : Browser :=
  set_emitted (emitted b ++ [(event, data)]) b.

(** ** EventEmitter (core/EventEmitter)

    [Map<string, Set<Function>>].  A function value is known by its
    identity; what calling it does is given by [code], the functions of
    the page: a call acts on the emitter itself (a subscriber may
    subscribe, unsubscribe, clear) and on the state [W] of the page,
    and may throw.

    A Set keeps a slot for each function ever added, in insertion
    order; [delete] empties the slot, and [forEach] goes through the
    slots of the Set as it is at each step, so it skips a function
    deleted before its turn and reaches one added meanwhile.  The Map
    holds each Set by reference: [emit] goes on with the Set it has
    taken from the Map when a subscriber removes the Map's entry.
    [forEach] has fuel because subscribers that keep adding
    subscribers keep it going for ever.  [calls] is a ghost record of
    every invocation made by [emit], oldest first. *)

Module EventEmitter.

Definition SetData : Type := list (option nat).

Record t : Type := {
  events : JS.object nat;           (* event name to Set, by reference *)
  sets : list SetData;              (* the Sets created so far *)
}.

Definition empty : t := {| events := []; sets := [] |}.

Definition set_has (fn : nat) (s : SetData) : bool :=
  existsb (fun slot => match slot with
                       | Some f => Nat.eqb f fn
                       | None => false
                       end) s.

(** [Set.prototype.add] and [Set.prototype.delete]. *)
Definition set_add (fn : nat) (s : SetData) : SetData :=
  if set_has fn s then s else (s ++ [Some fn])%list.

Definition set_delete (fn : nat) (s : SetData) : SetData :=
  map (fun slot => match slot with
                   | Some f => if Nat.eqb f fn then None else Some f
                   | None => None
                   end) s.

(** The functions in a Set, in order. *)
Fixpoint members (s : SetData) : list nat :=
  match s with
  | [] => []
  | Some f :: rest => f :: members rest
  | None :: rest => members rest
  end.

Definition the_set (ref : nat) (this : t) : SetData := nth ref (sets this) [].

Fixpoint store {A : Type} (n : nat) (x : A) (l : list A) : list A :=
  match l, n with
  | [], _ => []
  | _ :: rest, O => x :: rest
  | y :: rest, S n' => y :: store n' x rest
  end.

Definition write_set (ref : nat) (s : SetData) (this : t) : t :=
  {| events := events this; sets := store ref s (sets this) |}.

(** The functions subscribed to [event], in subscription order. *)
Definition handlers (event : string) (this : t) : list nat :=
  match JS.get event (events this) with
  | Some ref => members (the_set ref this)
  | None => []
  end.

Definition on (event : string) (fn : nat) (this : t) : t :=
  let this1 :=
    if negb (JS.hasOwn event (events this))
    then {| events := JS.set event (List.length (sets this)) (events this);
            sets := (sets this ++ [[]])%list |}
    else this in
  match JS.get event (events this1) with
  | Some ref => write_set ref (set_add fn (the_set ref this1)) this1
  | None => this1
  end.

Definition off (event : string) (fn : nat) (this : t) : t :=
  match JS.get event (events this) with
  | Some ref => write_set ref (set_delete fn (the_set ref this)) this
  | None => this
  end.

Definition clear (this : t) : t := {| events := []; sets := sets this |}.

Definition clearEvent (event : string) (this : t) : t :=
  {| events := filter (fun kv => negb (String.eqb (fst kv) event)) (events this);
     sets := sets this |}.

(** The emitters a program can build. *)
Inductive reachable : t -> Prop :=
| reach_new : reachable empty
| reach_on event fn this : reachable this -> reachable (on event fn this)
| reach_off event fn this : reachable this -> reachable (off event fn this)
| reach_clear this : reachable this -> reachable (clear this)
| reach_clearEvent event this :
    reachable this -> reachable (clearEvent event this).

Section Emitter.
Variables Data W : Type.

Record world : Type := {
  bus : t;
  user : W;
  errors : list (string * exn);     (* what [console.error] was given *)
  calls : list (nat * Data);
}.

(** What calling each function does. *)
Variable code : nat -> Data -> t * W -> result unit * (t * W).

(** [callback(data)] inside the loop body. *)
Definition invoke (fn : nat) (data : Data) (w : world) : result unit * world :=
  let '(r, (bus', user')) := code fn data (bus w, user w) in
  (r, {| bus := bus'; user := user'; errors := errors w;
         calls := (calls w ++ [(fn, data)])%list |}).

(** [try { callback(data) } catch (e) { console.error(..., e) }]. *)
Definition guarded (event : string) (fn : nat) (data : Data) (w : world)
  : result unit * world :=
  try_catch (invoke fn data w)
    (fun e w' =>
       (Ok tt, {| bus := bus w'; user := user w';
                  errors := (errors w'
                             ++ [(("Error in event handler for " ++ event ++ ":")%string,
                                  e)])%list;
                  calls := calls w' |})).

(** [set.forEach(callback => ...)] from the slot [index] on; [set] is
    the reference of the Set.  An exception leaving the loop body would
    end the loop and leave [forEach]; [None] when the fuel runs out. *)
Fixpoint forEach (fuel : nat) (body : nat -> world -> result unit * world)
  (set index : nat) (w : world) : option (result unit * world) :=
  match fuel with
  | O => None
  | S fuel' =>
      match nth_error (the_set set (bus w)) index with
      | None => Some (Ok tt, w)
      | Some None => forEach fuel' body set (S index) w
      | Some (Some fn) =>
          match body fn w with
          | (Ok _, w') => forEach fuel' body set (S index) w'
          | (Throw e, w') => Some (Throw e, w')
          end
      end
  end.

Definition emit (fuel : nat) (event : string) (data : Data) (w : world)
  : option (result unit * world) :=
  match JS.get event (events (bus w)) with
  | Some set => forEach fuel (fun fn => guarded event fn data) set 0 w
  | None => Some (Ok tt, w)
  end.

End Emitter.
Arguments bus {Data W} _.
Arguments user {Data W} _.
Arguments errors {Data W} _.
Arguments calls {Data W} _.
Arguments invoke {Data W} code fn data w.
Arguments guarded {Data W} code event fn data w.
Arguments forEach {Data W} fuel body set index w.
Arguments emit {Data W} code fuel event data w.
End EventEmitter.

(** ** ConsentManager (core/ConsentManager) *)

Module ConsentManager.
Open Scope Z_scope.

Record t : Type := {
  consent : option ConsentRecord;   (* [undefined] until the first update *)
  config : ConsentConfig;
}.

Definition new (config : ConsentConfig) : t :=
  {| consent := None; config := config |}.

(** What [new Error('Invalid consent categories')] stands for in the
    specification. *)
Definition InvalidConsentError : exn := Error "Invalid consent categories".

(** Truthiness of a boolean-valued property read ([undefined] when the
    property is missing). *)
Definition truthy (v : option bool) : bool :=
  match v with
  | Some true => true
  | _ => false
  end.

Definition validateConsent (this : t) (categories : ConsentCategories) : bool :=
  if negb (truthy (JS.get "necessary" categories)) then false
  else
    forallb (fun key => JS.has_property key (config_categories (config this)))
            (JS.keys categories).

Definition createConsentRecord (this : t) (categories : ConsentCategories)
  (b : Browser) : ConsentRecord :=
  let now := now b in
  let expiryDate :=
    Date.setMonth (LocalTZA b) now (Date.getMonth (LocalTZA b) now + 13) in
  {| version := revision (config this);
     timestamp := Date.toISOString now;
     categories := categories;
     userAgent := navigator_userAgent b;
     expiresAt := Date.toISOString expiryDate |}.

Definition updateConsent (categories : ConsentCategories) (b : Browser)
  (this : t) : result ConsentRecord * t :=
  if negb (validateConsent this categories)
  then (Throw InvalidConsentError, this)
  else
    let r := createConsentRecord this categories b in
    (Ok r, {| consent := Some r; config := config this |}).

Definition needsConsent (this : t) : bool :=
  match consent this with
  | None => true
  | Some _ => false
  end.

(** [storedConsent.version < this.config.revision]; the stored consent
    is the value [StorageManager.load] returned, whose [version] is a
    number.  A relational comparison with [undefined] is false. *)
Definition needsUpdate (this : t) (storedConsent : JSON.value) : bool :=
  match JSON.get_property "version" storedConsent with
  | Some (JSON.JNumber v) => v <? revision (config this)
  | Some (JSON.JFraction m e) =>
      Number.ltb_Z (Number.Fraction m e) (revision (config this))
  | Some (JSON.JInfinity negative) => negative
  | _ => false
  end.

Definition getCurrentConsent (this : t) : option ConsentRecord := consent this.

End ConsentManager.

(** ** StorageManager (core/StorageManager) *)

Module StorageManager.
Open Scope Z_scope.

Definition STORAGE_KEY : string := "cookiecraft_consent".

(** [console.error(message, e)]; the console keeps the message. *)
Definition console_error (message : string) (e : exn) (b : Browser) : Browser :=
  console_log message b.

Definition save (consent : ConsentRecord) (b : Browser) : result unit * Browser :=
  try_catch
    match Storage.setItem STORAGE_KEY (JSON.stringify (record_to_json consent))
            (localStorage b) with
    | Ok s => (Ok tt, set_localStorage s b)
    | Throw e => (Throw e, b)
    end
    (fun e b' => (Ok tt, console_error "Failed to save consent:" e b')).

Definition validateSchema (data : JSON.value) : bool :=
  JSON.truthy data
  && String.eqb (JSON.typeof (JSON.get_property "version" data)) "number"
  && String.eqb (JSON.typeof (JSON.get_property "timestamp" data)) "string"
  && String.eqb (JSON.typeof (JSON.get_property "categories" data)) "object"
  && String.eqb (JSON.typeof (JSON.get_property "userAgent" data)) "string"
  && String.eqb (JSON.typeof (JSON.get_property "expiresAt" data)) "string".

Definition migrate (oldData : JSON.value) : option ConsentRecord := None.

(** The body of the [try] block of [load]. *)
Definition load_body (b : Browser) : result (option JSON.value) * Browser :=
  match Storage.getItem STORAGE_KEY (localStorage b) with
  | Throw e => (Throw e, b)
  | Ok None => (Ok None, b)
  | Ok (Some data) =>
      if String.eqb data EmptyString then (Ok None, b)
      else
        match JSON.parse data with
        | None => (Throw (SyntaxError "JSON.parse"), b)
        | Some parsed =>
            if negb (validateSchema parsed) then
              match migrate parsed with
              | Some migrated =>
                  let '(_, b') := save migrated b in
                  (Ok (Some (record_to_json migrated)), b')
              | None => (Ok None, b)
              end
            else (Ok (Some parsed), b)
        end
  end.

Definition load (b : Browser) : result (option JSON.value) * Browser :=
  try_catch (load_body b)
    (fun e b' => (Ok None, console_error "Failed to load consent:" e b')).

Definition clear (b : Browser) : result unit * Browser :=
  match Storage.removeItem STORAGE_KEY (localStorage b) with
  | Ok s => (Ok tt, set_localStorage s b)
  | Throw e => (Throw e, b)
  end.

(** [new Date(consent.expiresAt) < new Date()]; a comparison with the
    Invalid Date is false. *)
Definition isExpired (consent : JSON.value) (b : Browser) : bool :=
  match JSON.get_property "expiresAt" consent with
  | Some (JSON.JString s) =>
      match Date.parse (LocalTZA b) (Date_parse_other b) s with
      | Some expiry => expiry <? now b
      | None => false
      end
  | _ => false
  end.

End StorageManager.

(** ** CategoryManager (blocking/CategoryManager) *)

Module CategoryManager.

Definition t : Type := JS.object (list string). (* [Map<string, string[]>] *)

Definition initializeDefaultPatterns : t :=
  [ ("analytics",
     [ "google-analytics.com"; "googletagmanager.com"; "analytics.google.com";
       "plausible.io"; "matomo.org"; "hotjar.com"; "mixpanel.com";
       "segment.com"; "amplitude.com" ]);
    ("marketing",
     [ "facebook.net"; "facebook.com/tr"; "connect.facebook.net";
       "doubleclick.net"; "ads.google.com"; "linkedin.com/analytics";
       "twitter.com/i/adsct"; "pinterest.com/ct"; "adroll.com";
       "taboola.com"; "outbrain.com" ]);
    ("necessary", []) ].

Definition new : t := initializeDefaultPatterns.

Definition registerCategory (name : string) (patterns : list string) (this : t)
  : t :=
  JS.set name patterns this.

(** The first registered category one of whose patterns occurs in [src]. *)
Fixpoint match_patterns (src : string) (this : t) : option string :=
  match this with
  | [] => None
  | (category, patterns) :: rest =>
      if existsb (JS.includes src) patterns then Some category
      else match_patterns src rest
  end.

Definition getCategoryForScript (this : t) (resolveURL : string -> string)
  (script : Script.t) : option string :=
  let explicitCategory := Script.getAttribute "data-cookieconsent" script in
  if JS.truthy explicitCategory then explicitCategory
  else
    let src := Script.src resolveURL script in
    if negb (JS.truthy (Some src)) then None else match_patterns src this.

(** [consent[category] === true]: an inherited property is never [true]. *)
Definition isAllowed (category : string) (consent : ConsentCategories) : bool :=
  match JS.get category consent with
  | Some true => true
  | _ => false
  end.

End CategoryManager.

(** ** ScriptBlocker (blocking/ScriptBlocker) *)

Module ScriptBlocker.

Record t : Type := {
  observer : bool;                      (* a MutationObserver is connected *)
  blockedScripts : JS.object nat;       (* [Map<string, HTMLScriptElement>] *)
  categoryManager : CategoryManager.t;
  currentConsent : option ConsentCategories;
}.

Definition new (categoryManager : CategoryManager.t) : t :=
  {| observer := false; blockedScripts := [];
     categoryManager := categoryManager; currentConsent := None |}.

Definition set_blockedScripts (m : JS.object nat) (this : t) : t :=
  {| observer := observer this; blockedScripts := m;
     categoryManager := categoryManager this;
     currentConsent := currentConsent this |}.

Definition set_currentConsent (c : option ConsentCategories) (this : t) : t :=
  {| observer := observer this; blockedScripts := blockedScripts this;
     categoryManager := categoryManager this; currentConsent := c |}.

Definition set_observer (o : bool) (this : t) : t :=
  {| observer := o; blockedScripts := blockedScripts this;
     categoryManager := categoryManager this;
     currentConsent := currentConsent this |}.

Fixpoint update {A : Type} (n : nat) (x : A) (l : list A) : list A :=
  match l, n with
  | [], _ => []
  | _ :: rest, O => x :: rest
  | y :: rest, S n' => y :: update n' x rest
  end.

Definition category_of (this : t) (b : Browser) (script : nat) : option string :=
  match nth_error (heap b) script with
  | Some el =>
      CategoryManager.getCategoryForScript (categoryManager this) (resolveURL b) el
  | None => None
  end.

(** [script.src || `inline-${Date.now()}-${Math.random()}`]. *)
Definition generateScriptId (el : Script.t) (b : Browser) : string * Browser :=
  let src := Script.src (resolveURL b) el in
  if negb (String.eqb src EmptyString) then (src, b)
  else
    ("inline-" ++ JS.Z_to_string (now b) ++ "-" ++ random b (ticks b),
     set_ticks (S (ticks b)) b).

Definition processScript (script : nat) (st : t * Browser) : t * Browser :=
  let '(this, b) := st in
  match nth_error (heap b) script with
  | None => st
  | Some el =>
      match CategoryManager.getCategoryForScript
              (categoryManager this) (resolveURL b) el with
      | None => st                                 (* [if (!category) return] *)
      | Some category =>
          if String.eqb category EmptyString then st
          else if match currentConsent this with
                  | Some consent => CategoryManager.isAllowed category consent
                  | None => false
                  end
          then st
          else if negb (String.eqb (Script.type el) "text/plain") then
            let '(id, b1) := generateScriptId el b in
            let originalType := JS.or_default (Some (Script.type el)) "text/javascript" in
            let el1 := Script.setAttribute "data-original-type" originalType el in
            let el2 := Script.set_type "text/plain" el1 in
            (set_blockedScripts (JS.set id script (blockedScripts this)) this,
             set_heap (update script el2 (heap b1)) b1)
          else st
      end
  end.

(** [document.querySelectorAll('script[data-cookieconsent]')]. *)
Definition querySelectorAll_marked (b : Browser) : list nat :=
  filter (fun script =>
            match nth_error (heap b) script with
            | Some el => Script.hasAttribute "data-cookieconsent" el
            | None => false
            end)
         (attached b).

Definition blockExistingScripts (st : t * Browser) : t * Browser :=
  fold_left (fun st script => processScript script st)
            (querySelectorAll_marked (snd st)) st.

Definition observeDOM (st : t * Browser) : t * Browser :=
  (set_observer true (fst st), snd st).

(** The MutationObserver callback, given the script elements among the
    added nodes of the delivered records. *)
Definition mutation_callback (addedNodes : list nat) (st : t * Browser)
  : t * Browser :=
  if observer (fst st) then
    fold_left
      (fun st node =>
         match nth_error (heap (snd st)) node with
         | Some el =>
             if Script.hasAttribute "data-cookieconsent" el
             then processScript node st else st
         | None => st
         end)
      addedNodes st
  else st.

Definition init (st : t * Browser) : t * Browser :=
  observeDOM (blockExistingScripts st).

Definition block (st : t * Browser) : t * Browser :=
  blockExistingScripts (set_currentConsent None (fst st), snd st).

Definition destroy (st : t * Browser) : t * Browser :=
  (set_observer false (fst st), snd st).

(** The attributes copied onto the new element. *)
Definition copy_attributes (el : Script.t) (newScript : Script.t) : Script.t :=
  fold_left
    (fun acc attr =>
       if negb (String.eqb (fst attr) "type")
          && negb (String.eqb (fst attr) "data-original-type")
       then Script.setAttribute (fst attr) (snd attr) acc
       else acc)
    (Script.attributes el) newScript.

Definition clone_for_execution (resolveURL : string -> string) (el : Script.t)
  : Script.t :=
  let newScript := copy_attributes el Script.create in
  let originalType :=
    JS.or_default (Script.getAttribute "data-original-type" el) "text/javascript" in
  let newScript := Script.set_type originalType newScript in
  if negb (String.eqb (Script.src resolveURL el) EmptyString)
  then Script.setAttribute "src" (Script.src resolveURL el) newScript
  else Script.set_textContent (Script.textContent el) newScript.

(** [parent.insertBefore(newScript, script); parent.removeChild(script)]
    for a script that has a parent node. *)
Fixpoint replace_node (script newScript : nat) (doc : list nat) : list nat :=
  match doc with
  | [] => []
  | n :: rest =>
      if Nat.eqb n script then newScript :: rest
      else n :: replace_node script newScript rest
  end.

Definition reactivateScript (script : nat) (b : Browser) : Browser :=
  match nth_error (heap b) script with
  | None => b
  | Some el =>
      let newScript := List.length (heap b) in
      let b1 := set_heap (heap b ++ [clone_for_execution (resolveURL b) el])%list b in
      let b2 := set_attached (replace_node script newScript (attached b1)) b1 in
      publish "script:activated"
        (ActivatedPayload (Script.getAttribute "data-cookieconsent" el)
           (JS.or_default (Some (Script.src (resolveURL b) el)) "inline"))
        b2
  end.

(** [category && this.categoryManager.isAllowed(category, categories)]
    for the script of an entry. *)
Definition releasable (this : t) (categories : ConsentCategories)
  (b : Browser) (script : nat) : bool :=
  match category_of this b script with
  | Some category =>
      negb (String.eqb category EmptyString)
      && CategoryManager.isAllowed category categories
  | None => false
  end.

(** The loop of [unblock]: [blockedScripts.forEach] with the visited
    entry deleted when its script is reactivated.  Returns the entries
    that stay in the map. *)
Fixpoint unblock_entries (this : t) (categories : ConsentCategories)
  (entries : JS.object nat) (b : Browser) : JS.object nat * Browser :=
  match entries with
  | [] => ([], b)
  | (id, script) :: rest =>
      if releasable this categories b script
      then unblock_entries this categories rest (reactivateScript script b)
      else
        let '(kept, b') := unblock_entries this categories rest b in
        ((id, script) :: kept, b')
  end.

Definition unblock (categories : ConsentCategories) (st : t * Browser)
  : t * Browser :=
  let this := set_currentConsent (Some categories) (fst st) in
  let '(kept, b') :=
    unblock_entries this categories (blockedScripts this) (snd st) in
  (set_blockedScripts kept this, b').

(** [unblock(null)]: the first entry with a category makes
    [consent[category]] throw a TypeError. *)
Definition unblock_null (st : t * Browser) : result unit * (t * Browser) :=
  let this := set_currentConsent None (fst st) in
  if existsb (fun e => JS.truthy (category_of this (snd st) (snd e)))
             (blockedScripts this)
  then (Throw (TypeError "Cannot read properties of null"), (this, snd st))
  else (Ok tt, (this, snd st)).

(** What the page itself does between two calls: it appends a script
    element to the document.  (It does not edit withheld elements.) *)
Definition page_insert (el : Script.t) (b : Browser) : Browser :=
  set_attached (attached b ++ [List.length (heap b)])%list
    (set_heap (heap b ++ [el])%list b).

(** The states of a blocker and its page that a run can reach. *)
Inductive step : t * Browser -> t * Browser -> Prop :=
| step_init st : step st (init st)
| step_block st : step st (block st)
| step_unblock categories st : step st (unblock categories st)
| step_mutation addedNodes st : step st (mutation_callback addedNodes st)
| step_destroy st : step st (destroy st)
| step_page el st : step st (fst st, page_insert el (snd st)).

Inductive reachable : t * Browser -> Prop :=
| reach_new categoryManager b : reachable (new categoryManager, b)
| reach_step st st' : reachable st -> step st st' -> reachable st'.

End ScriptBlocker.

(** ** GTMConsentMode and DataLayerManager (integrations) *)

Module GTMConsentMode.

Definition grant (b : bool) : string := if b then "granted" else "denied".

Definition push (command action : string) (params : JS.object string)
  (b : Browser) : Browser :=
  set_dataLayer
    (dataLayer b
     ++ [{| dl_command := command; dl_action := action; dl_params := params |}])
    b.

Definition setDefaultConsent (b : Browser) : Browser :=
  push "consent" "default"
    [ ("ad_storage", "denied"); ("ad_user_data", "denied");
      ("ad_personalization", "denied"); ("analytics_storage", "denied");
      ("functionality_storage", "denied");
      ("personalization_storage", "denied");
      ("security_storage", "granted") ] b.

Definition mapCategoriesToGTM (categories : ConsentCategories)
  : JS.object string :=
  let on k := grant (ConsentManager.truthy (JS.get k categories)) in
  [ ("ad_storage", on "marketing"); ("ad_user_data", on "marketing");
    ("ad_personalization", on "marketing");
    ("analytics_storage", on "analytics");
    ("functionality_storage", on "preferences");
    ("personalization_storage", on "preferences");
    ("security_storage", "granted") ].

Definition updateConsent (categories : ConsentCategories) (b : Browser)
  : Browser :=
  push "consent" "update" (mapCategoriesToGTM categories) b.

End GTMConsentMode.

(** ** CookieConsent (core/CookieConsent) *)

Module CookieConsent.

(** The configuration as the caller passes it, before defaults. *)
Record RawConfig : Type := {
  raw_mode : option string;
  raw_autoShow : option bool;
  raw_revision : option Z;
  raw_categories : JS.object CategoryConfig;
  raw_gtmConsentMode : option bool;
  raw_showWidget : option bool;
}.

Definition validateConfig (config : RawConfig) : ConsentConfig :=
  {| mode := JS.or_default (raw_mode config) "opt-in";
     autoShow := match raw_autoShow config with Some a => a | None => true end;
     revision := match raw_revision config with
                 | Some r => if Z.eqb r 0 then 1%Z else r
                 | None => 1%Z
                 end;
     config_categories := raw_categories config;
     gtmConsentMode := match raw_gtmConsentMode config with
                       | Some g => g
                       | None => false
                       end;
     showWidget := match raw_showWidget config with Some s => s | None => true end |}.

Record t : Type := {
  config : ConsentConfig;
  consentManager : ConsentManager.t;
  scriptBlocker : ScriptBlocker.t;
  gtmIntegration : bool;               (* a GTMConsentMode was created *)
  banner : bool;                       (* the banner is shown *)
  floatingWidget : bool;               (* the widget is shown *)
  widgetTimer : bool;                  (* [setTimeout(showFloatingWidget)] pending *)
}.

Definition new (config : RawConfig) : t :=
  let config := validateConfig config in
  {| config := config;
     consentManager := ConsentManager.new config;
     scriptBlocker := ScriptBlocker.new CategoryManager.new;
     gtmIntegration := gtmConsentMode config;
     banner := false; floatingWidget := false; widgetTimer := false |}.

Definition set_consentManager (m : ConsentManager.t) (this : t) : t :=
  {| config := config this; consentManager := m;
     scriptBlocker := scriptBlocker this;
     gtmIntegration := gtmIntegration this; banner := banner this;
     floatingWidget := floatingWidget this; widgetTimer := widgetTimer this |}.

Definition set_scriptBlocker (s : ScriptBlocker.t) (this : t) : t :=
  {| config := config this; consentManager := consentManager this;
     scriptBlocker := s;
     gtmIntegration := gtmIntegration this; banner := banner this;
     floatingWidget := floatingWidget this; widgetTimer := widgetTimer this |}.

Definition set_banner (v : bool) (this : t) : t :=
  {| config := config this; consentManager := consentManager this;
     scriptBlocker := scriptBlocker this;
     gtmIntegration := gtmIntegration this; banner := v;
     floatingWidget := floatingWidget this; widgetTimer := widgetTimer this |}.

Definition set_floatingWidget (v : bool) (this : t) : t :=
  {| config := config this; consentManager := consentManager this;
     scriptBlocker := scriptBlocker this;
     gtmIntegration := gtmIntegration this; banner := banner this;
     floatingWidget := v; widgetTimer := widgetTimer this |}.

Definition set_widgetTimer (v : bool) (this : t) : t :=
  {| config := config this; consentManager := consentManager this;
     scriptBlocker := scriptBlocker this;
     gtmIntegration := gtmIntegration this; banner := banner this;
     floatingWidget := floatingWidget this; widgetTimer := v |}.

Definition showBanner (st : t * Browser) : t * Browser :=
  (set_banner true (fst st), publish "consent:show" NoPayload (snd st)).

Definition showFloatingWidget (st : t * Browser) : t * Browser :=
  (set_floatingWidget true (fst st), snd st).

Definition applyConsent (categories : ConsentCategories) (st : t * Browser)
  : t * Browser :=
  let '(sb, b) := ScriptBlocker.unblock categories (scriptBlocker (fst st), snd st) in
  (set_scriptBlocker sb (fst st), b).

(** [storedConsent.categories] as the blocker reads it: all it asks of
    a property is whether it is [true].  [None] is [null]. *)
Definition stored_categories (storedConsent : JSON.value)
  : option ConsentCategories :=
  match JSON.get_property "categories" storedConsent with
  | Some (JSON.JObject o) =>
      Some (map (fun kv => (fst kv, JSON.is_true (snd kv))) o)
  | Some (JSON.JArray l) =>
      Some (map (fun iv => (JS.Z_to_string (Z.of_nat (fst iv)),
                            JSON.is_true (snd iv)))
                (combine (seq 0 (List.length l)) l))
  | _ => None
  end.

Definition init (st : t * Browser) : result unit * (t * Browser) :=
  let '(this, b) := st in
  (* 1. Start blocking scripts immediately *)
  let '(sb, b) := ScriptBlocker.init (scriptBlocker this, b) in
  let this := set_scriptBlocker sb this in
  (* 2. Set GTM default consent BEFORE checking storage *)
  let b := if gtmIntegration this then GTMConsentMode.setDefaultConsent b else b in
  (* 3. Check for existing consent *)
  let '(loaded, b) := StorageManager.load b in
  let finish (st : t * Browser) :=
    (Ok tt, (fst st, publish "consent:init" NoPayload (snd st))) in
  match loaded with
  | Throw e => (Throw e, (this, b))
  | Ok (Some storedConsent) =>
      if JSON.truthy storedConsent
         && negb (StorageManager.isExpired storedConsent b) then
        if ConsentManager.needsUpdate (consentManager this) storedConsent then
          finish (if autoShow (config this) then showBanner (this, b)
                  else (this, b))
        else
          match stored_categories storedConsent with
          | Some categories =>
              let '(this, b) := applyConsent categories (this, b) in
              let b := publish "consent:load" (RecordPayload storedConsent) b in
              finish (if showWidget (config this)
                      then showFloatingWidget (this, b) else (this, b))
          | None =>
              match ScriptBlocker.unblock_null (scriptBlocker this, b) with
              | (Ok _, (sb, b)) =>
                  let this := set_scriptBlocker sb this in
                  let b := publish "consent:load" (RecordPayload storedConsent) b in
                  finish (if showWidget (config this)
                          then showFloatingWidget (this, b) else (this, b))
              | (Throw e, (sb, b)) => (Throw e, (set_scriptBlocker sb this, b))
              end
          end
      else
        finish (if autoShow (config this) then showBanner (this, b) else (this, b))
  | Ok None =>
      finish (if autoShow (config this) then showBanner (this, b) else (this, b))
  end.

Definition updateConsent (categories : ConsentCategories) (st : t * Browser)
  : result unit * (t * Browser) :=
  let '(this, b) := st in
  match ConsentManager.updateConsent categories b (consentManager this) with
  | (Throw e, cm) => (Throw e, (set_consentManager cm this, b))
  | (Ok consentRecord, cm) =>
      let this := set_consentManager cm this in
      let '(_, b) := StorageManager.save consentRecord b in
      let '(this, b) := applyConsent categories (this, b) in
      let b := if gtmIntegration this
               then GTMConsentMode.updateConsent categories b else b in
      if showWidget (config this)
      then (Ok tt, (set_widgetTimer true this,
                    console_log "Widget will show in 400ms..." b))
      else (Ok tt, (this, console_log "Widget disabled in config" b))
  end.

(** The subscriber the constructor registers for [consent:accept],
    [consent:reject] and [consent:update], as [EventEmitter.emit] runs
    it: inside the emitter's [try ... catch]. *)
Definition on_consent_event (event : string) (categories : ConsentCategories)
  (st : t * Browser) : result unit * (t * Browser) :=
  try_catch (updateConsent categories st)
    (fun e st' =>
       (Ok tt, (fst st',
                console_log ("Error in event handler for " ++ event ++ ":")
                  (snd st')))).

Definition getConsent (b : Browser) : result (option JSON.value) * Browser :=
  StorageManager.load b.

Definition reset (st : t * Browser) : result unit * (t * Browser) :=
  match StorageManager.clear (snd st) with
  | (Throw e, b) => (Throw e, (fst st, b))
  | (Ok _, b) =>
      let '(sb, b) := ScriptBlocker.block (scriptBlocker (fst st), b) in
      (Ok tt, showBanner (set_scriptBlocker sb (fst st), b))
  end.

Definition destroy (st : t * Browser) : t * Browser :=
  let '(sb, b) := ScriptBlocker.destroy (scriptBlocker (fst st), snd st) in
  (set_floatingWidget false (set_banner false (set_scriptBlocker sb (fst st))), b).

End CookieConsent.

(** ** DataLayerManager (integrations/DataLayerManager), with [window.gtag]

    [GTMConsentMode.push] above is [push] on a page that defines no
    [gtag] function, with each pushed object kept as a
    [DataLayerEntry].  Here the page may define one: a function that is
    given the three arguments, may change the [dataLayer] array (the
    usual definition pushes its arguments to it) and may throw.
    [window.dataLayer], when the page has defined it, is an array with
    the built-in [push]. *)

Module DataLayerManager.

Record Window : Type := {
  w_dataLayer : option (list JSON.value);     (* [undefined] until created *)
  w_gtag : option (string -> string -> JSON.value -> list JSON.value
                   -> result unit * list JSON.value);
}.

(** [{ event: 'consent_update', [command]: { [action]: params } }]. *)
Definition entry (command action : string) (params : JSON.value) : JSON.value :=
  JSON.JObject
    (JS.set command (JSON.JObject [(action, params)])
       [("event", JSON.JString "consent_update")]).

Definition push (command action : string) (params : JSON.value) (w : Window)
  : result unit * Window :=
  (* window.dataLayer = window.dataLayer || [] *)
  let dataLayer := match w_dataLayer w with Some l => l | None => [] end in
  let dataLayer := (dataLayer ++ [entry command action params])%list in
  (* typeof window.gtag === 'function' *)
  match w_gtag w with
  | Some gtag =>
      let '(r, dataLayer') := gtag command action params dataLayer in
      (r, {| w_dataLayer := Some dataLayer'; w_gtag := w_gtag w |})
  | None => (Ok tt, {| w_dataLayer := Some dataLayer; w_gtag := w_gtag w |})
  end.

(** The object a [DataLayerEntry] stands for. *)
Definition entry_of (e : DataLayerEntry) : JSON.value :=
  entry (dl_command e) (dl_action e)
    (JSON.JObject (map (fun kv => (fst kv, JSON.JString (snd kv))) (dl_params e))).

(** The window of a browser whose page defines no [gtag]. *)
Definition window_of (b : Browser) : Window :=
  {| w_dataLayer := Some (map entry_of (dataLayer b)); w_gtag := None |}.

End DataLayerManager.

(** ** Banner (ui/Banner): the decisions its buttons submit *)

Module Banner.

(** The handlers are those of a configuration that sets none of the
    callbacks [onAccept], [onReject] and [onChange], which
    [ConsentConfig] does not carry. *)

(** [this.config.categories.preferences] as a condition: a category
    configuration object, or [undefined]. *)
Definition preferences_configured (config : ConsentConfig) : bool :=
  JS.hasOwn "preferences" (config_categories config).

Definition allCategories (config : ConsentConfig) : ConsentCategories :=
  let allCategories :=
    [ ("necessary", true); ("analytics", true); ("marketing", true) ] in
  if preferences_configured config
  then JS.set "preferences" true allCategories
  else allCategories.

Definition necessaryOnly (config : ConsentConfig) : ConsentCategories :=
  let necessaryOnly :=
    [ ("necessary", true); ("analytics", false); ("marketing", false) ] in
  if preferences_configured config
  then JS.set "preferences" false necessaryOnly
  else necessaryOnly.

(** [hide()]: the banner leaves the page. *)
Definition hide (st : CookieConsent.t * Browser) : CookieConsent.t * Browser :=
  (CookieConsent.set_banner false (fst st), snd st).

(** [emit(event, categories)]: the orchestrator's subscriber runs
    first, inside the emitter's [try]; the event then reaches the
    subscribers outside the core. *)
Definition emit_decision (event : string) (categories : ConsentCategories)
  (st : CookieConsent.t * Browser) : CookieConsent.t * Browser :=
  let '(_, (app, b)) := CookieConsent.on_consent_event event categories st in
  (app, publish event (CategoriesPayload categories) b).

Definition handleAcceptAll (st : CookieConsent.t * Browser)
  : CookieConsent.t * Browser :=
  let allCategories := allCategories (CookieConsent.config (fst st)) in
  hide (emit_decision "consent:accept" allCategories st).

Definition handleRejectAll (st : CookieConsent.t * Browser)
  : CookieConsent.t * Browser :=
  let necessaryOnly := necessaryOnly (CookieConsent.config (fst st)) in
  hide (emit_decision "consent:reject" necessaryOnly st).

End Banner.

(** ** PreferenceCenter (ui/PreferenceCenter): toggles, saved decision
    and the hover colour *)

Module PreferenceCenter.
Open Scope Z_scope.

(** One [input[data-category]] of the modal, as [handleSave] finds it. *)
Record checkbox : Type := {
  data_category : option string;    (* [getAttribute('data-category')] *)
  checked : bool;
}.

(** [categories[category] = checkbox.checked] on the object literal
    [handleSave] starts from: an own property is written or added,
    except under the name [__proto__], where the assignment reaches the
    accessor every object inherits, which ignores a boolean. *)
Definition assign (category : string) (v : bool) (categories : ConsentCategories)
  : ConsentCategories :=
  if String.eqb category "__proto__" then categories
  else JS.set category v categories.

(** The decision [handleSave] reads off the toggles, taken in document
    order. *)
Definition handleSave_categories (checkboxes : list checkbox) : ConsentCategories :=
  fold_left
    (fun categories box =>
       match data_category box with
       | Some category =>
           if negb (String.eqb category EmptyString)
           then assign category (checked box) categories
           else categories
       | None => categories
       end)
    checkboxes
    [ ("necessary", true); ("analytics", false); ("marketing", false) ].

(** [handleSave()]: the decision is emitted as [consent:update].  The
    modal that closes afterwards is not part of the orchestrator's
    state. *)
Definition handleSave (checkboxes : list checkbox) (st : CookieConsent.t * Browser)
  : CookieConsent.t * Browser :=
  Banner.emit_decision "consent:update" (handleSave_categories checkboxes) st.

(** *** [adjustColorBrightness]

    Numbers are integers or NaN ([None]); the brightness percentage is
    an integer, as at the only call ([-15]).  For such a percentage the
    sum [value + value * percent / 100] is a whole number of hundredths,
    and rounding its double to the nearest integer, ties upwards, gives
    what the exact arithmetic below gives (as long as [value * percent]
    is far below 2^53). *)

(** [s.replace(c, '')] for a one-character pattern. *)
Fixpoint replace_first (c : ascii) (s : string) : string :=
  match s with
  | EmptyString => EmptyString
  | String a s' => if Ascii.eqb a c then s' else String a (replace_first c s')
  end.

(** [s.substring(from, to)] for [from <= to]. *)
Definition substring (from to : nat) (s : string) : string :=
  String.substring from (to - from) s.

(** White space that [parseInt] skips (code units below 256). *)
Definition is_StrWhiteSpaceChar (c : ascii) : bool :=
  let n := nat_of_ascii c in
  ((9 <=? n) && (n <=? 13))%nat || (n =? 32)%nat || (n =? 160)%nat.

Fixpoint trim_start (s : string) : string :=
  match s with
  | String c s' => if is_StrWhiteSpaceChar c then trim_start s' else s
  | EmptyString => s
  end.

(** The value of the longest prefix of radix-16 digits, and whether
    there was a digit. *)
Fixpoint digits16 (acc : Z) (seen : bool) (s : string) : Z * bool :=
  match s with
  | String c s' =>
      match JSON.hex_val c with
      | Some d => digits16 (16 * acc + Z.of_nat d) true s'
      | None => (acc, seen)
      end
  | EmptyString => (acc, seen)
  end.

(** [parseInt(s, 16)]. *)
Definition parseInt16 (s : string) : option Z :=
  let s := trim_start s in
  let '(sign, s) :=
    match s with
    | String "-" s' => (-1, s')
    | String "+" s' => (1, s')
    | _ => (1, s)
    end in
  let s :=
    match s with
    | String "0" (String "x" s') => s'
    | String "0" (String "X" s') => s'
    | _ => s
    end in
  match digits16 0 false s with
  | (n, true) => Some (sign * n)
  | (_, false) => None
  end.

(** [Math.max(0, Math.min(255, Math.round(value + value * percent / 100)))]. *)
Definition adjust (percent : Z) (value : option Z) : option Z :=
  match value with
  | Some value =>
      let hundredths := 100 * value + value * percent in
      let rounded := (hundredths + 50) / 100 in
      Some (Z.max 0 (Z.min 255 rounded))
  | None => None
  end.

Fixpoint toString16_digits (fuel : nat) (n : Z) (acc : string) : string :=
  match fuel with
  | O => acc
  | S fuel' =>
      let acc := String (JSON.hex_digit (Z.to_nat (n mod 16))) acc in
      if n / 16 =? 0 then acc else toString16_digits fuel' (n / 16) acc
  end.

(** [value.toString(16)]. *)
Definition toString16 (value : option Z) : string :=
  match value with
  | Some n =>
      if n <? 0
      then String "-" (toString16_digits (S (Z.to_nat (- n))) (- n) EmptyString)
      else toString16_digits (S (Z.to_nat n)) n EmptyString
  | None => "NaN"
  end.

Definition toHex (value : option Z) : string :=
  let hex := toString16 value in
  if (String.length hex =? 1)%nat then String "0" hex else hex.

Definition adjustColorBrightness (color : string) (percent : Z) : string :=
  let hex := replace_first "#" color in
  let r := parseInt16 (substring 0 2 hex) in
  let g := parseInt16 (substring 2 4 hex) in
  let b := parseInt16 (substring 4 6 hex) in
  String "#" (toHex (adjust percent r) ++ toHex (adjust percent g)
              ++ toHex (adjust percent b)).

End PreferenceCenter.

(** ** Concrete pages and policies used to exercise the model *)

Module Examples.
Open Scope Z_scope.

Definition ga : Script.t :=
  {| Script.attributes :=
       [ ("src", "https://www.google-analytics.com/analytics.js");
         ("data-cookieconsent", "analytics") ];
     Script.textContent := EmptyString |}.

Definition pixel : Script.t :=
  {| Script.attributes :=
       [ ("data-cookieconsent", "marketing");
         ("src", "https://connect.facebook.net/en_US/fbevents.js") ];
     Script.textContent := EmptyString |}.

(** Marked for gating, but with no category value and no source. *)
Definition unclassified : Script.t :=
  {| Script.attributes := [ ("data-cookieconsent", EmptyString) ];
     Script.textContent := "trackVisit()" |}.

Definition storage0 : Storage.t :=
  {| Storage.items := []; Storage.denied := false; Storage.quota := 4096 |}.

(** A storage with no room left, and one holding text that is no JSON. *)
Definition full_storage : Storage.t :=
  {| Storage.items := []; Storage.denied := false; Storage.quota := 10 |}.

Definition garbage_storage : Storage.t :=
  {| Storage.items := [ ("cookiecraft_consent", "{not json") ];
     Storage.denied := false; Storage.quota := 4096 |}.

(** A page loaded at time [t] in a UTC browser that reads dates in the
    standard format only. *)
Definition page_at (t : Z) (scripts : list Script.t) : Browser :=
  {| now := t;
     LocalTZA := fun _ _ => 0;
     Date_parse_other := fun _ => None;
     navigator_userAgent := "Mozilla/5.0";
     resolveURL := fun url => url;
     random := fun n => "0." ++ JS.Z_to_string (Z.of_nat (S n));
     ticks := 0;
     localStorage := storage0;
     console := [];
     heap := scripts;
     attached := seq 0 (List.length scripts);
     dataLayer := [];
     emitted := [] |}.

(** A page loaded at 2024-01-31T12:00:00.000Z. *)
Definition page (scripts : list Script.t) : Browser :=
  page_at 1706702400000 scripts.

(** A withheld inline script whose category attribute the page has
    since emptied, and the gate that still holds it. *)
Definition emptied : Script.t :=
  {| Script.attributes :=
       [ ("data-cookieconsent", EmptyString);
         ("data-original-type", "text/javascript");
         ("type", "text/plain") ];
     Script.textContent := "trackVisit()" |}.

Definition gate_holding_emptied : ScriptBlocker.t :=
  {| ScriptBlocker.observer := true;
     ScriptBlocker.blockedScripts := [ ("inline-1706702400000-0.1", 0%nat) ];
     ScriptBlocker.categoryManager := CategoryManager.new;
     ScriptBlocker.currentConsent := None |}.

Definition accept_all : ConsentCategories :=
  [ ("necessary", true); ("analytics", true); ("marketing", true) ].

(** The functions of a page, which act on a counter: function 1
    throws, function 2 counts the call, every other function does
    nothing. *)
Definition functions (fn : nat) (_ : payload) (st : EventEmitter.t * nat)
  : result unit * (EventEmitter.t * nat) :=
  match fn with
  | 1%nat => (Throw (Error "subscriber failed"), st)
  | 2%nat => (Ok tt, (fst st, S (snd st)))
  | _ => (Ok tt, st)
  end.

Definition bus : EventEmitter.t :=
  EventEmitter.on "consent:accept" 2
    (EventEmitter.on "consent:accept" 1 EventEmitter.empty).

(** The page with the counter at 0 and nothing logged. *)
Definition quiet (this : EventEmitter.t) : EventEmitter.world payload nat :=
  {| EventEmitter.bus := this; EventEmitter.user := 0%nat;
     EventEmitter.errors := []; EventEmitter.calls := [] |}.

Definition category (l : string) : CategoryConfig :=
  {| enabled := true; readOnly := false; label := l;
     description := EmptyString |}.

Definition policy (rev : Z) : CookieConsent.RawConfig :=
  {| CookieConsent.raw_mode := None;
     CookieConsent.raw_autoShow := None;
     CookieConsent.raw_revision := Some rev;
     CookieConsent.raw_categories :=
       [ ("necessary", category "Necessary");
         ("analytics", category "Analytics");
         ("marketing", category "Marketing") ];
     CookieConsent.raw_gtmConsentMode := None;
     CookieConsent.raw_showWidget := None |}.

Definition analytics_only : ConsentCategories :=
  [ ("analytics", true); ("marketing", false); ("necessary", true) ].

(** A visit under revision 1 that accepted analytics only. *)
Definition first_visit : result unit * (CookieConsent.t * Browser) :=
  CookieConsent.updateConsent analytics_only
    (CookieConsent.new (policy 1), page []).

Definition first_record : ConsentRecord :=
  ConsentManager.createConsentRecord
    (ConsentManager.new (CookieConsent.validateConfig (policy 1)))
    analytics_only (page []).

(** The next page load, with what the first visit left in storage. *)
Definition second_visit : Browser :=
  set_localStorage (localStorage (snd (snd first_visit)))
    (page [ga; pixel]).

End Examples.

(** ** Further pages and records used to exercise the model *)

Module Scenarios.
Open Scope Z_scope.





(** A script the page author wrote with the withheld type. *)
Definition authored_withheld : Script.t :=
  {| Script.attributes :=
       [ ("type", "text/plain"); ("data-cookieconsent", "analytics") ];
     Script.textContent := "trackVisit()" |}.

(** A script with a source and no category of its own. *)
Definition widgets : Script.t :=
  {| Script.attributes := [ ("src", "https://platform.twitter.com/widgets.js") ];
     Script.textContent := EmptyString |}.

(** A module script marked for analytics. *)
Definition tracker : Script.t :=
  {| Script.attributes :=
       [ ("type", "module"); ("src", "/js/tracker.js");
         ("data-cookieconsent", "analytics"); ("async", EmptyString) ];
     Script.textContent := EmptyString |}.

(** The application of a site at policy revision 1. *)
Definition site : CookieConsent.t := CookieConsent.new (Examples.policy 1).

(** A policy without a marketing category. *)
Definition analytics_policy : CookieConsent.RawConfig :=
  {| CookieConsent.raw_mode := None;
     CookieConsent.raw_autoShow := None;
     CookieConsent.raw_revision := Some 1;
     CookieConsent.raw_categories :=
       [ ("necessary", Examples.category "Necessary");
         ("analytics", Examples.category "Analytics") ];
     CookieConsent.raw_gtmConsentMode := None;
     CookieConsent.raw_showWidget := None |}.

(** A storage holding a record whose categories are [null]. *)
Definition null_categories_storage : Storage.t :=
  {| Storage.items :=
       [ ("cookiecraft_consent",
          "{" ++ JSON.quote "version" ++ ":1,"
              ++ JSON.quote "timestamp" ++ ":" ++ JSON.quote "2024-01-31T12:00:00.000Z" ++ ","
              ++ JSON.quote "categories" ++ ":null,"
              ++ JSON.quote "userAgent" ++ ":" ++ JSON.quote "Mozilla/5.0" ++ ","
              ++ JSON.quote "expiresAt" ++ ":" ++ JSON.quote "2025-03-03T12:00:00.000Z"
              ++ "}") ];
     Storage.denied := false; Storage.quota := 4096 |}.

(** A storage holding a record written by hand: the revision with a
    fraction part, the expiry as a date alone, 1 January 2020. *)
Definition lapsed_storage : Storage.t :=
  {| Storage.items :=
       [ ("cookiecraft_consent",
          "{" ++ JSON.quote "version" ++ ":1.0,"
              ++ JSON.quote "timestamp" ++ ":" ++ JSON.quote "2018-12-01" ++ ","
              ++ JSON.quote "categories" ++ ":{" ++ JSON.quote "necessary" ++ ":true},"
              ++ JSON.quote "userAgent" ++ ":" ++ JSON.quote "Mozilla/5.0" ++ ","
              ++ JSON.quote "expiresAt" ++ ":" ++ JSON.quote "2020-01-01"
              ++ "}") ];
     Storage.denied := false; Storage.quota := 4096 |}.

End Scenarios.

(** ** Vocabulary of the properties

    Predicates and auxiliary functions the statements and proofs of
    Part II are written with. *)

Module DateProps.
Open Scope Z_scope.

(** 1 in a leap year. *)
Definition leap (y : Z) : Z := if Date.DaysInYear y =? 366 then 1 else 0.

End DateProps.

Module JSONProps.
Import JSON.

(** What follows a number token: nothing, or a character no number
    continues with. *)
Definition delimited (rest : string) : Prop :=
  match rest with
  | EmptyString => True
  | String c _ => is_number_char c = false
  end.

(** Every character of [s] satisfies [p]. *)
Fixpoint all_chars (p : ascii -> bool) (s : string) : bool :=
  match s with
  | EmptyString => true
  | String c s' => p c && all_chars p s'
  end.

(** One category as a member of the JSON object. *)
Definition enc (kb : string * bool) : string * value := (fst kb, JBool (snd kb)).

(** The object the parser has built after reading the members [cats]. *)
Definition set_all (cats : ConsentCategories) (acc : JS.object value)
  : JS.object value :=
  fold_left (fun a kb => JS.set (fst kb) (JBool (snd kb)) a) cats acc.

(** A record is well formed when its categories are those of a
    JavaScript object: no key twice. *)
Definition wf_record (r : ConsentRecord) : Prop :=
  NoDup (JS.keys (categories r)).

End JSONProps.

Module BusProps.
Import EventEmitter.

Section Bus.
Context {Data W : Type}.
Variable code : nat -> Data -> EventEmitter.t * W
                -> result unit * (EventEmitter.t * W).

(** The world after the function [fn] has been called with [data]
    inside the emitter's [try]: what the call did is done, and what it
    threw is on the console. *)
Definition delivered (event : string) (data : Data) (w : world Data W) (fn : nat)
  : world Data W :=
  let out := code fn data (bus w, user w) in
  {| bus := fst (snd out);
     user := snd (snd out);
     errors := match fst out with
               | Ok _ => errors w
               | Throw e =>
                   (errors w
                    ++ [(("Error in event handler for " ++ event ++ ":")%string, e)])%list
               end;
     calls := (calls w ++ [(fn, data)])%list |}.

(** The functions [fns] called in turn, each once. *)
Definition deliver (event : string) (data : Data) (fns : list nat)
  (w : world Data W) : world Data W :=
  fold_left (delivered event data) fns w.

(** No call of a function of [fns] with [data] changes the Set the Map
    has for [event]. *)
Definition undisturbed (event : string) (data : Data) (this : EventEmitter.t)
  (fns : list nat) : Prop :=
  forall set fn this' u,
    JS.get event (events this) = Some set ->
    In fn fns ->
    the_set set (fst (snd (code fn data (this', u)))) = the_set set this'.

(** The functions do not touch the emitter: what a call does is what
    it does to the state of the page. *)
Definition detached : Prop :=
  forall fn data this u,
    code fn data (this, u)
    = (fst (code fn data (empty, u)), (this, snd (snd (code fn data (empty, u))))).

End Bus.

(** The slots of the Set of [event]: the functions subscribed and the
    slots left by unsubscribed ones. *)
Definition slots (event : string) (this : EventEmitter.t) : nat :=
  match JS.get event (events this) with
  | Some set => List.length (the_set set this)
  | None => 0
  end.

(** The world that has the emitter [this] and is otherwise [w]. *)
Definition with_bus {Data W : Type} (this : EventEmitter.t) (w : world Data W)
  : world Data W :=
  {| bus := this; user := user w; errors := errors w; calls := calls w |}.

(** What an [emit] leaves, the emitter apart. *)
Definition outcome {Data W : Type} (out : option (result unit * world Data W))
  : option (result unit * (W * list (string * exn) * list (nat * Data))) :=
  match out with
  | Some (r, w) => Some (r, (user w, errors w, calls w))
  | None => None
  end.


(** Every entry of the Map names a Set. *)
Definition refs_ok (this : EventEmitter.t) : Prop :=
  forall event set,
    JS.get event (events this) = Some set -> set < List.length (sets this).

(** No two events share a Set. *)
Definition refs_distinct (this : EventEmitter.t) : Prop :=
  forall e e' set,
    JS.get e (events this) = Some set -> JS.get e' (events this) = Some set ->
    e = e'.



End BusProps.

Module GateProps.
Import ScriptBlocker.

(** The script [script] would be withheld by [processScript] now. *)
Definition blockable (script : nat) (st : t * Browser) : bool :=
  match nth_error (heap (snd st)) script with
  | None => false
  | Some el =>
      match CategoryManager.getCategoryForScript
              (categoryManager (fst st)) (resolveURL (snd st)) el with
      | None => false
      | Some category =>
          negb (String.eqb category EmptyString)
          && negb (match currentConsent (fst st) with
                   | Some consent => CategoryManager.isAllowed category consent
                   | None => false
                   end)
          && negb (String.eqb (Script.type el) "text/plain")
      end
  end.

(** The element as [processScript] leaves it when it withholds it. *)
Definition withheld_form (el : Script.t) : Script.t :=
  Script.set_type "text/plain"
    (Script.setAttribute "data-original-type"
       (JS.or_default (Some (Script.type el)) "text/javascript") el).

(** [processScript] over a list of scripts, in order. *)
Definition pass (scripts : list nat) (st : t * Browser) : t * Browser :=
  fold_left (fun st script => processScript script st) scripts st.

(** The element carries the gating marker attribute. *)
Definition marked (b : Browser) (script : nat) : bool :=
  match nth_error (heap b) script with
  | Some el => Script.hasAttribute "data-cookieconsent" el
  | None => false
  end.

(** Every entry names an element of the page. *)
Definition refs_valid (entries : JS.object nat) (b : Browser) : Prop :=
  forall id script, In (id, script) entries -> script < List.length (heap b).

(** The document lists elements of the page, each once. *)
Definition document_ok (b : Browser) : Prop :=
  NoDup (attached b)
  /\ forall script, In script (attached b) -> script < List.length (heap b).

(** The page [b] is the page [b0] with elements added and elements of
    the document replaced. *)
Definition running (b0 b : Browser) : Prop :=
  resolveURL b = resolveURL b0
  /\ (forall i el, nth_error (heap b0) i = Some el -> nth_error (heap b) i = Some el)
  /\ List.length (heap b0) <= List.length (heap b)
  /\ document_ok b.

(** The browser after the scripts of [entries] that are releasable in
    [b0] have been reactivated in turn. *)
Fixpoint reactivate_all (rel : nat -> bool) (entries : JS.object nat)
  (b : Browser) : Browser :=
  match entries with
  | [] => b
  | (id, script) :: rest =>
      if rel script
      then reactivate_all rel rest (reactivateScript script b)
      else reactivate_all rel rest b
  end.

(** What one reactivation adds to the page. *)
Definition clone_of (b0 : Browser) (script : nat) : list Script.t :=
  match nth_error (heap b0) script with
  | Some el => [clone_for_execution (resolveURL b0) el]
  | None => []
  end.

(** What one reactivation publishes. *)
Definition event_of (b0 : Browser) (script : nat) : list (string * payload) :=
  match nth_error (heap b0) script with
  | Some el =>
      [("script:activated",
        ActivatedPayload (Script.getAttribute "data-cookieconsent" el)
          (JS.or_default (Some (Script.src (resolveURL b0) el)) "inline"))]
  | None => []
  end.

(** The scripts of the entries that [unblock] lets go. *)
Definition released (this : t) (c : ConsentCategories) (b0 : Browser)
  (entries : JS.object nat) : list nat :=
  map snd (filter (fun e => releasable this c b0 (snd e)) entries).

(** Every entry of the withheld-set names an element that carries the
    withheld type and remembers a type other than the withheld one. *)
Definition withheld_ok (st : t * Browser) : Prop :=
  forall id script,
    In (id, script) (blockedScripts (fst st)) ->
    exists el ty,
      nth_error (heap (snd st)) script = Some el
      /\ Script.type el = "text/plain"
      /\ Script.getAttribute "data-original-type" el = Some ty
      /\ ty <> "text/plain".

(** The statement of claim C1 as the specification words it: a marked
    script whose category resolves to null enters the withheld-set when
    it is processed. *)
Definition unclassified_is_withheld : Prop :=
  forall (st : t * Browser) (script : nat) (el : Script.t),
    nth_error (heap (snd st)) script = Some el ->
    Script.hasAttribute "data-cookieconsent" el = true ->
    CategoryManager.getCategoryForScript
      (categoryManager (fst st)) (resolveURL (snd st)) el = None ->
    In script (map snd (blockedScripts (fst (processScript script st)))).

End GateProps.

Module EvaluatorProps.

(** A decision naming [toString] beside the policy's categories. *)
Definition decision_with_inherited_key : ConsentCategories :=
  [ ("necessary", true); ("analytics", true); ("marketing", false);
    ("toString", true) ].

End EvaluatorProps.

Module ExpiryProps.
Import Date.
Open Scope Z_scope.

(** Months since year 0 of the calendar month the clock reading [t]
    falls in. *)
Definition month_index (t : Z) : Z := 12 * YearFromTime t + MonthFromTime t.

(** The clock reading [t'] is the same day of the month and time of day
    as [t], [n] calendar months later. *)
Definition months_later (n t t' : Z) : Prop :=
  month_index t' = month_index t + n
  /\ DateFromTime t' = DateFromTime t
  /\ TimeWithinDay t' = TimeWithinDay t.

(** The instant [t'] is, on the clocks of the zone, [n] calendar months
    after the instant [t]. *)
Definition months_apart (n : Z) (tza : zone) (t t' : Z) : Prop :=
  months_later n (LocalTime tza t) (LocalTime tza t').


(** Claim C4 as the specification words it. *)
Definition expiry_is_always_13_months_later : Prop :=
  forall (this : ConsentManager.t) (categories : ConsentCategories) (b : Browser),
    let r := ConsentManager.createConsentRecord this categories b in
    exists t e,
      Date.parse (LocalTZA b) (Date_parse_other b) (timestamp r) = Some t
      /\ Date.parse (LocalTZA b) (Date_parse_other b) (expiresAt r) = Some e
      /\ months_apart 13 (LocalTZA b) t e.

End ExpiryProps.

Module OrchestratorProps.
Open Scope Z_scope.

(** Claim C2 as the specification words it: with a current record of
    revision 1 in storage and the policy at revision 2, [needsConsent]
    answers false and [needsUpdate] answers true. *)
Definition stale_record_needs_no_consent : Prop :=
  forall (raw : CookieConsent.RawConfig) (b : Browser) (r : ConsentRecord),
    NoDup (JS.keys (categories r)) ->
    version r = 1 ->
    revision (CookieConsent.validateConfig raw) = 2 ->
    Storage.getItem StorageManager.STORAGE_KEY (localStorage b)
    = Ok (Some (JSON.stringify (record_to_json r))) ->
    StorageManager.isExpired (record_to_json r) b = false ->
    let app' := fst (snd (CookieConsent.init (CookieConsent.new raw, b))) in
    ConsentManager.needsConsent (CookieConsent.consentManager app') = false
    /\ ConsentManager.needsUpdate (CookieConsent.consentManager app')
         (record_to_json r) = true.

End OrchestratorProps.

Module RegistryProps.

(** The text [p] occurs in [s]. *)
Definition occurs (p s : string) : Prop := exists a z, s = a ++ p ++ z.

(** A script that names no category of its own and has a source. *)
Definition classified_by_url (resolveURL : string -> string) (script : Script.t)
  : Prop :=
  JS.truthy (Script.getAttribute "data-cookieconsent" script) = false
  /\ Script.src resolveURL script <> EmptyString.

End RegistryProps.

Module RunProps.
Import ScriptBlocker.

(** Every marked script of the document that has a category the
    remembered approval does not allow carries the withheld type. *)
Definition gated (st : t * Browser) : Prop :=
  forall script el category,
    In script (attached (snd st)) ->
    nth_error (heap (snd st)) script = Some el ->
    Script.hasAttribute "data-cookieconsent" el = true ->
    CategoryManager.getCategoryForScript
      (categoryManager (fst st)) (resolveURL (snd st)) el = Some category ->
    category <> EmptyString ->
    (forall consent,
        currentConsent (fst st) = Some consent ->
        CategoryManager.isAllowed category consent = false) ->
    Script.type el = "text/plain".

(** A run of the gate: any number of steps. *)
Inductive steps : t * Browser -> t * Browser -> Prop :=
| steps_refl st : steps st st
| steps_step st st' st'' : steps st st' -> step st' st'' -> steps st st''.

(** The element [el] is the script [script], it is in the document and
    no entry of the withheld-set names it. *)
Definition untracked (script : nat) (el : Script.t) (st : t * Browser) : Prop :=
  nth_error (heap (snd st)) script = Some el
  /\ In script (attached (snd st))
  /\ ~ In script (map snd (blockedScripts (fst st))).

End RunProps.

Module SessionProps.

(** The parts of the browser that the gate never writes: [b'] differs
    from [b] in the page (elements, document, published events) and in
    the count of random numbers drawn only. *)
Definition same_outside_page (b b' : Browser) : Prop :=
  localStorage b' = localStorage b
  /\ dataLayer b' = dataLayer b
  /\ console b' = console b
  /\ now b' = now b
  /\ resolveURL b' = resolveURL b.

(** [b'] has the clock, the zone and the date reader of [b]. *)
Definition same_clock (b b' : Browser) : Prop :=
  now b' = now b
  /\ LocalTZA b' = LocalTZA b
  /\ Date_parse_other b' = Date_parse_other b.

(** The text stored under the key of the record, if any, is in the
    scope of the parser. *)
Definition stored_in_scope (b : Browser) : Prop :=
  forall data,
    Storage.getItem StorageManager.STORAGE_KEY (localStorage b) = Ok (Some data) ->
    JSON.in_scope data = true.

(** The entry [GTMConsentMode.setDefaultConsent] pushes. *)
Definition default_denied : DataLayerEntry :=
  {| dl_command := "consent"; dl_action := "default";
     dl_params :=
       [ ("ad_storage", "denied"); ("ad_user_data", "denied");
         ("ad_personalization", "denied"); ("analytics_storage", "denied");
         ("functionality_storage", "denied");
         ("personalization_storage", "denied");
         ("security_storage", "granted") ] |}.

End SessionProps.

Module ColourProps.
Open Scope Z_scope.

(** A channel value written as two lower-case hexadecimal digits. *)
Definition hex2 (v : Z) : string :=
  String (JSON.hex_digit (Z.to_nat (v / 16)))
    (String (JSON.hex_digit (Z.to_nat (v mod 16))) EmptyString).

(** The channel value [percent] per cent brighter, rounded to the
    nearest integer (ties upwards) and kept within a byte. *)
Definition brighter (percent v : Z) : Z :=
  Z.max 0 (Z.min 255 ((v * (100 + percent) + 50) / 100)).

End ColourProps.

Module DecisionProps.

(** [name in config.categories]. *)
Definition defines (config : ConsentConfig) (name : string) : bool :=
  JS.has_property name (config_categories config).

(** The policy defines the three categories every button submits. *)
Definition defines_fixed_categories (config : ConsentConfig) : bool :=
  defines config "necessary" && defines config "analytics"
  && defines config "marketing".

(** The toggle of the modal that carries the category [name]. *)
Definition toggle_of (name : string) (checkboxes : list PreferenceCenter.checkbox)
  : option PreferenceCenter.checkbox :=
  find (fun box =>
          match PreferenceCenter.data_category box with
          | Some category => String.eqb category name
          | None => false
          end)
       checkboxes.

(** What [handleSave] starts from. *)
Definition save_defaults : ConsentCategories :=
  [ ("necessary", true); ("analytics", false); ("marketing", false) ].

End DecisionProps.

Module SignalProps.

(** The entry [GTMConsentMode.updateConsent] pushes for a decision. *)
Definition update_for (decision : ConsentCategories) : DataLayerEntry :=
  {| dl_command := "consent"; dl_action := "update";
     dl_params := GTMConsentMode.mapCategoriesToGTM decision |}.

(** The decision has the category true. *)
Definition accepts (decision : ConsentCategories) (category : string) : Prop :=
  JS.get category decision = Some true.

End SignalProps.

(* ================================================================== *)
(** * Part II: properties                                               *)
(* ================================================================== *)

(** ** Property lists *)

Module JSFacts.

Lemma get_set_same {V : Type} (k : string) (v : V) (o : JS.object V) :
  JS.get k (JS.set k v o) = Some v.
Proof.
  induction o as [|[k' w] o IH]; cbn [JS.set JS.get].
  - now rewrite String.eqb_refl.
  - destruct (String.eqb k' k) eqn:E; cbn [JS.get]; rewrite E; auto.
Qed.

Lemma get_set_other {V : Type} (k k' : string) (v : V) (o : JS.object V) :
  k <> k' -> JS.get k (JS.set k' v o) = JS.get k o.
Proof.
  intros Hne. induction o as [|[k0 w] o IH]; cbn [JS.set JS.get].
  - destruct (String.eqb_spec k' k); [congruence | reflexivity].
  - destruct (String.eqb_spec k0 k'); cbn [JS.get].
    + subst k0. destruct (String.eqb_spec k' k); [congruence | reflexivity].
    + destruct (String.eqb k0 k); auto.
Qed.

Lemma get_set {V : Type} (k k' : string) (v : V) (o : JS.object V) :
  JS.get k (JS.set k' v o) = if String.eqb k' k then Some v else JS.get k o.
Proof.
  destruct (String.eqb_spec k' k).
  - subst. apply get_set_same.
  - apply get_set_other. congruence.
Qed.

Lemma get_absent {V : Type} (k : string) (o : JS.object V) :
  ~ In k (JS.keys o) -> JS.get k o = None.
Proof.
  induction o as [|[k' w] o IH]; cbn; [reflexivity|].
  intros H. destruct (String.eqb_spec k' k); [tauto|]. apply IH. tauto.
Qed.

Lemma set_absent {V : Type} (k : string) (v : V) (o : JS.object V) :
  JS.get k o = None -> JS.set k v o = (o ++ [(k, v)])%list.
Proof.
  induction o as [|[k' w] o IH]; cbn [JS.get JS.set app]; [reflexivity|].
  destruct (String.eqb k' k); [discriminate|].
  intros H. now rewrite IH.
Qed.

Lemma get_filter_other {V : Type} (k k' : string) (o : JS.object V) :
  k <> k' ->
  JS.get k (filter (fun kv => negb (String.eqb (fst kv) k')) o) = JS.get k o.
Proof.
  intros Hne. induction o as [|[a v] o IH]; cbn [filter JS.get fst]; [reflexivity|].
  destruct (String.eqb_spec a k') as [-> | Ha]; cbn [negb JS.get].
  - destruct (String.eqb_spec k' k); [congruence | exact IH].
  - now rewrite IH.
Qed.

Lemma get_filter_same {V : Type} (k : string) (o : JS.object V) :
  JS.get k (filter (fun kv => negb (String.eqb (fst kv) k)) o) = None.
Proof.
  induction o as [|[a v] o IH]; cbn [filter JS.get fst]; [reflexivity|].
  destruct (String.eqb_spec a k) as [-> | Ha]; cbn [negb JS.get]; [exact IH|].
  destruct (String.eqb_spec a k); [congruence | exact IH].
Qed.

End JSFacts.

(** ** Calendar arithmetic *)

Module DateFacts.
Import Date DateProps.
Open Scope Z_scope.

Lemma DayFromYear_succ (y : Z) :
  DayFromYear (y + 1) = DayFromYear y + DaysInYear y.
Proof.
  unfold DayFromYear, DaysInYear.
  destruct (Z.eqb_spec (y mod 4) 0), (Z.eqb_spec (y mod 100) 0),
    (Z.eqb_spec (y mod 400) 0); cbn [negb]; lia.
Qed.

Lemma DaysInYear_cases (y : Z) : DaysInYear y = 365 \/ DaysInYear y = 366.
Proof.
  unfold DaysInYear.
  destruct (negb _); [now left|].
  destruct (negb _); [now right|].
  destruct (negb _); [now left | now right].
Qed.

Lemma DayFromYear_mono (a b : Z) : a <= b -> DayFromYear a <= DayFromYear b.
Proof. unfold DayFromYear. lia. Qed.

Lemma find_year_down (d : Z) (fuel : nat) :
  forall y, d < DayFromYear (y + 1) ->
       DayFromYear y - d <= 365 * Z.of_nat fuel ->
       DayFromYear (find_year fuel y d) <= d < DayFromYear (find_year fuel y d + 1).
Proof.
  induction fuel as [|fuel IH]; intros y Hhi Hlo; cbn [find_year].
  - lia.
  - destruct (Z.ltb_spec d (DayFromYear y)).
    + apply IH.
      * replace (y - 1 + 1) with y by lia. assumption.
      * pose proof (DayFromYear_succ (y - 1)) as Hs.
        replace (y - 1 + 1) with y in Hs by lia.
        destruct (DaysInYear_cases (y - 1)); lia.
    + destruct (Z.leb_spec (DayFromYear (y + 1)) d); lia.
Qed.

Lemma find_year_up (d : Z) (fuel : nat) :
  forall y, DayFromYear y <= d ->
       d - DayFromYear (y + 1) < 365 * Z.of_nat fuel ->
       DayFromYear (find_year fuel y d) <= d < DayFromYear (find_year fuel y d + 1).
Proof.
  induction fuel as [|fuel IH]; intros y Hlo Hhi; cbn [find_year].
  - lia.
  - destruct (Z.ltb_spec d (DayFromYear y)); [lia|].
    destruct (Z.leb_spec (DayFromYear (y + 1)) d); [|lia].
    apply IH; [assumption|].
    pose proof (DayFromYear_succ (y + 1)) as Hs.
    destruct (DaysInYear_cases (y + 1)); lia.
Qed.

Lemma YearFromDay_bounds (d : Z) :
  DayFromYear (YearFromDay d) <= d < DayFromYear (YearFromDay d + 1).
Proof.
  unfold YearFromDay.
  assert (H70 : DayFromYear 1970 = 0) by reflexivity.
  assert (H71 : DayFromYear (1970 + 1) = 365) by reflexivity.
  destruct (Z.lt_ge_cases d 0).
  - apply find_year_down; lia.
  - apply find_year_up; lia.
Qed.

Lemma year_unique (d y y' : Z) :
  DayFromYear y <= d < DayFromYear (y + 1) ->
  DayFromYear y' <= d < DayFromYear (y' + 1) ->
  y = y'.
Proof.
  intros H H'.
  destruct (Z.lt_trichotomy y y') as [Hlt | [Heq | Hgt]]; [|assumption|].
  - pose proof (DayFromYear_mono (y + 1) y'). lia.
  - pose proof (DayFromYear_mono (y' + 1) y). lia.
Qed.

Lemma YearFromDay_eq (y r : Z) :
  0 <= r < DaysInYear y -> YearFromDay (DayFromYear y + r) = y.
Proof.
  intros Hr. symmetry.
  apply (year_unique (DayFromYear y + r)).
  - rewrite DayFromYear_succ. lia.
  - apply YearFromDay_bounds.
Qed.

Lemma Day_MakeDate (day time : Z) :
  0 <= time < msPerDay -> Day (MakeDate day time) = day.
Proof. unfold Day, MakeDate, msPerDay. lia. Qed.

Lemma TimeWithinDay_MakeDate (day time : Z) :
  0 <= time < msPerDay -> TimeWithinDay (MakeDate day time) = time.
Proof. unfold TimeWithinDay, MakeDate, msPerDay. lia. Qed.



Lemma leap_cases (y : Z) :
  (leap y = 0 /\ DaysInYear y = 365) \/ (leap y = 1 /\ DaysInYear y = 366).
Proof.
  unfold leap. destruct (DaysInYear_cases y) as [-> | ->]; simpl; auto.
Qed.



Lemma month_of_day_start (m l d : Z) :
  0 <= m <= 11 -> 0 <= l <= 1 -> 1 <= d <= 28 ->
  month_of_day (month_start m l + d - 1) l = m.
Proof.
  intros Hm Hl Hd.
  assert (Hc : m = 0 \/ m = 1 \/ m = 2 \/ m = 3 \/ m = 4 \/ m = 5 \/ m = 6
               \/ m = 7 \/ m = 8 \/ m = 9 \/ m = 10 \/ m = 11) by lia.
  unfold month_of_day.
  repeat (destruct Hc as [-> | Hc]); try subst m; cbn [month_start];
    repeat match goal with
      | |- context [?a <? ?b] => destruct (Z.ltb_spec a b); try lia
      end.
Qed.

Lemma month_start_bounds (m l d : Z) :
  0 <= m <= 11 -> 0 <= l <= 1 -> 1 <= d <= 28 ->
  0 <= month_start m l + d - 1 < 365 + l.
Proof.
  intros Hm Hl Hd.
  assert (Hc : m = 0 \/ m = 1 \/ m = 2 \/ m = 3 \/ m = 4 \/ m = 5 \/ m = 6
               \/ m = 7 \/ m = 8 \/ m = 9 \/ m = 10 \/ m = 11) by lia.
  repeat (destruct Hc as [-> | Hc]); try subst m; cbn [month_start]; lia.
Qed.

(** Fields of a date built by MakeDay/MakeDate from in-range components. *)
Lemma fields_of_MakeDate (y m d time : Z) :
  0 <= m <= 11 -> 1 <= d <= 28 -> 0 <= time < msPerDay ->
  let t := MakeDate (MakeDay y m d) time in
  YearFromTime t = y /\ MonthFromTime t = m /\ DateFromTime t = d
  /\ TimeWithinDay t = time.
Proof.
  intros Hm Hd Ht t.
  assert (Hday : Day t = DayFromYear y + (month_start m (leap y) + d - 1)).
  { unfold t. rewrite Day_MakeDate by assumption. unfold MakeDay.
    replace (m / 12) with 0 by lia. replace (m mod 12) with m by lia.
    replace (y + 0) with y by lia. fold (leap y). lia. }
  pose proof (leap_cases y) as Hl.
  pose proof (month_start_bounds m (leap y) d Hm ltac:(lia) Hd) as Hb.
  assert (Hy : YearFromTime t = y).
  { unfold YearFromTime. rewrite Hday. apply YearFromDay_eq. lia. }
  assert (Hdwy : DayWithinYear t = month_start m (leap y) + d - 1).
  { unfold DayWithinYear. rewrite Hy, Hday. lia. }
  assert (Hleap : InLeapYear t = leap y).
  { unfold InLeapYear. rewrite Hy. reflexivity. }
  assert (Hmo : MonthFromTime t = m).
  { unfold MonthFromTime. rewrite Hdwy, Hleap.
    apply month_of_day_start; lia. }
  repeat split; try assumption.
  - unfold DateFromTime. rewrite Hmo, Hdwy, Hleap. lia.
  - unfold t. apply TimeWithinDay_MakeDate. assumption.
Qed.












End DateFacts.

(** ** JSON round trip of a consent record *)

Module JSONFacts.
Import JSON JSONProps.

Lemma app_assoc_s (a b c : string) : (a ++ b) ++ c = a ++ (b ++ c).
Proof. induction a as [|x a IH]; cbn [append]; [reflexivity | now rewrite IH]. Qed.

Lemma parse_escape_char (c : ascii) (tail : string) :
  parse_string_body (escape_char c ++ tail)
  = match parse_string_body tail with
    | Some (body, rest) => Some (String c body, rest)
    | None => None
    end.
Proof.
  destruct c as [[] [] [] [] [] [] [] []]; reflexivity.
Qed.

Lemma parse_escape (s : string) (rest : string) :
  parse_string_body (escape s ++ String dquote rest) = Some (s, rest).
Proof.
  induction s as [|c s IH]; cbn [escape].
  - reflexivity.
  - rewrite app_assoc_s, parse_escape_char, IH. reflexivity.
Qed.

Lemma uint_chars (d : Decimal.uint) :
  all_chars digit_or_minus (NilEmpty.string_of_uint d) = true.
Proof. induction d; cbn [NilEmpty.string_of_uint all_chars]; auto. Qed.

Lemma Z_to_string_chars (z : Z) :
  all_chars digit_or_minus (JS.Z_to_string z) = true.
Proof.
  unfold JS.Z_to_string, NilZero.string_of_int, NilZero.string_of_uint.
  destruct (Z.to_int z) as [d | d]; destruct d; try reflexivity;
    try apply uint_chars;
    cbn [all_chars]; change (digit_or_minus "-") with true; cbn [andb];
    apply uint_chars.
Qed.

Lemma Z_to_string_nonempty (z : Z) :
  exists c tl, JS.Z_to_string z = String c tl.
Proof.
  unfold JS.Z_to_string, NilZero.string_of_int, NilZero.string_of_uint.
  destruct (Z.to_int z) as [d | d]; destruct d; cbn; eauto.
Qed.

Lemma digit_or_minus_number c :
  digit_or_minus c = true -> is_number_char c = true.
Proof.
  unfold digit_or_minus, is_digit, is_number_char. cbv zeta.
  intros H. apply orb_true_iff in H as [-> | ->]; cbn [orb];
    rewrite ?orb_true_r; reflexivity.
Qed.

Lemma span_all (p : ascii -> bool) (s : string) :
  all_chars p s = true -> span p s = (s, EmptyString).
Proof.
  induction s as [|c s IH]; cbn [all_chars span]; [reflexivity|].
  intros H. apply andb_true_iff in H as [-> H]. now rewrite IH.
Qed.

Lemma span_number_app (tok rest : string) :
  all_chars digit_or_minus tok = true -> delimited rest ->
  span_number (tok ++ rest) = (tok, rest).
Proof.
  intros Htok Hrest. induction tok as [|c tok IH]; cbn [append].
  - destruct rest as [|c r]; [reflexivity|]. cbn [span_number].
    cbn in Hrest. now rewrite Hrest.
  - cbn [all_chars] in Htok. apply andb_true_iff in Htok as [Hc Htok].
    cbn [span_number]. rewrite (digit_or_minus_number c Hc), (IH Htok).
    reflexivity.
Qed.

Lemma string_to_Z_to_string (z : Z) :
  JS.string_to_Z (JS.Z_to_string z) = Some z.
Proof.
  unfold JS.string_to_Z, JS.Z_to_string.
  rewrite NilZero.isi.
  - cbn [option_map]. now rewrite DecimalZ.of_to.
  - destruct z; cbn; try discriminate.
    intros [= H]. now apply (DecimalPos.Unsigned.to_uint_nonnil p).
  - destruct z; cbn; try discriminate.
    intros [= H]. now apply (DecimalPos.Unsigned.to_uint_nonnil p).
Qed.

(** A number as [JSON.stringify] writes an integer is read as that
    integer. *)
Lemma read_number_written (z : Z) :
  read_number (JS.Z_to_string z) = Some (JNumber z).
Proof.
  unfold read_number.
  rewrite span_all by apply Z_to_string_chars.
  now rewrite string_to_Z_to_string, String.eqb_refl.
Qed.

Lemma parse_number_app (z : Z) (rest : string) :
  delimited rest ->
  parse_number (JS.Z_to_string z ++ rest) = Some (JNumber z, rest).
Proof.
  intros Hrest. unfold parse_number.
  rewrite span_number_app by (auto using Z_to_string_chars).
  now rewrite read_number_written.
Qed.

Lemma parse_value_number_head (fuel : nat) (c : ascii) (tl : string) :
  digit_or_minus c = true ->
  parse_value (S fuel) (String c tl) = parse_number (String c tl).
Proof.
  destruct c as [[] [] [] [] [] [] [] []]; try discriminate; reflexivity.
Qed.

Lemma parse_value_number (fuel : nat) (z : Z) (rest : string) :
  delimited rest ->
  parse_value (S fuel) (JS.Z_to_string z ++ rest) = Some (JNumber z, rest).
Proof.
  intros Hrest.
  pose proof (parse_number_app z rest Hrest) as Hp.
  pose proof (Z_to_string_chars z) as Hc.
  destruct (Z_to_string_nonempty z) as (c & tl & E).
  rewrite E in *. cbn [append] in *. cbn [all_chars] in Hc.
  apply andb_true_iff in Hc as [Hc _].
  rewrite parse_value_number_head by assumption.
  exact Hp.
Qed.

Lemma parse_value_quote_head (fuel : nat) (body : string) :
  parse_value (S fuel) (String dquote body)
  = match parse_string_body body with
    | Some (str, rest) => Some (JString str, rest)
    | None => None
    end.
Proof. reflexivity. Qed.

Lemma parse_value_string (fuel : nat) (s rest : string) :
  parse_value (S fuel) (quote s ++ rest) = Some (JString s, rest).
Proof.
  unfold quote. cbn [append]. rewrite app_assoc_s. cbn [append].
  now rewrite parse_value_quote_head, parse_escape.
Qed.

Lemma parse_value_bool (fuel : nat) (b : bool) (rest : string) :
  parse_value (S fuel) (stringify (JBool b) ++ rest) = Some (JBool b, rest).
Proof. destruct b; reflexivity. Qed.

Lemma parse_members_more pv fuel acc k v sv more :
  pv (sv ++ String "," more) = Some (v, String "," more) ->
  parse_members pv (S fuel) acc (quote k ++ ":" ++ sv ++ "," ++ more)
  = parse_members pv fuel (JS.set k v acc) more.
Proof.
  intros Hpv. unfold quote. cbn [append parse_members].
  change (skip_ws (String dquote ?x)) with (String dquote x).
  rewrite app_assoc_s. cbn [append].
  change (Ascii.eqb dquote dquote) with true. cbv iota.
  rewrite parse_escape.
  change (skip_ws (String ":" ?x)) with (String ":" x). cbv iota beta.
  rewrite Hpv. reflexivity.
Qed.

Lemma parse_members_last pv fuel acc k v sv rest :
  pv (sv ++ String "}" rest) = Some (v, String "}" rest) ->
  parse_members pv (S fuel) acc (quote k ++ ":" ++ sv ++ "}" ++ rest)
  = Some (JS.set k v acc, rest).
Proof.
  intros Hpv. unfold quote. cbn [append parse_members].
  change (skip_ws (String dquote ?x)) with (String dquote x).
  rewrite app_assoc_s. cbn [append].
  change (Ascii.eqb dquote dquote) with true. cbv iota.
  rewrite parse_escape.
  change (skip_ws (String ":" ?x)) with (String ":" x). cbv iota beta.
  rewrite Hpv. reflexivity.
Qed.

Lemma members_string_cons f k v o (tail : string) :
  o <> [] ->
  members_string f ((k, v) :: o) ++ tail
  = quote k ++ ":" ++ f v ++ "," ++ (members_string f o ++ tail).
Proof.
  intros Ho. destruct o as [|m o]; [congruence|].
  cbn [members_string]. destruct m as [k' v'].
  now rewrite !app_assoc_s.
Qed.

Lemma members_string_one f k v (tail : string) :
  members_string f [(k, v)] ++ tail = quote k ++ ":" ++ f v ++ tail.
Proof. cbn [members_string]. now rewrite !app_assoc_s. Qed.

Lemma length_app_s (a b : string) :
  String.length (a ++ b) = (String.length a + String.length b)%nat.
Proof. induction a as [|x a IH]; cbn; [reflexivity | now rewrite IH]. Qed.

Lemma length_members_string f o (tail : string) :
  (List.length o <= String.length (members_string f o ++ tail))%nat.
Proof.
  induction o as [|[k v] o IH]; [cbn; lia|].
  destruct o as [|m o].
  - rewrite members_string_one. unfold quote. cbn. lia.
  - rewrite members_string_cons by discriminate.
    rewrite !length_app_s in *. cbn [List.length String.length] in *. lia.
Qed.

Lemma parse_members_bools (f : nat) (cats : ConsentCategories) :
  forall fuel acc rest,
    cats <> [] -> (List.length cats <= fuel)%nat ->
    parse_members (parse_value (S f)) fuel acc
      (members_string stringify (map enc cats) ++ String "}" rest)
    = Some (set_all cats acc, rest).
Proof.
  induction cats as [|[k b] cats IH]; intros fuel acc rest Hne Hlen;
    [congruence|].
  destruct fuel as [|fuel]; [cbn in Hlen; lia|].
  cbn [List.length] in Hlen.
  destruct cats as [|kb cats].
  - cbn [map]. change (enc (k, b)) with (k, JBool b).
    rewrite members_string_one.
    change (String "}" rest) with ("}" ++ rest).
    rewrite (parse_members_last _ fuel acc k (JBool b) (stringify (JBool b)) rest)
      by apply parse_value_bool.
    reflexivity.
  - cbn [map]. change (enc (k, b)) with (k, JBool b).
    rewrite members_string_cons by discriminate.
    rewrite (parse_members_more _ fuel acc k (JBool b) (stringify (JBool b)))
      by apply parse_value_bool.
    rewrite (IH fuel) by (try discriminate; cbn [List.length] in *; lia).
    reflexivity.
Qed.

Lemma set_all_fresh (cats : ConsentCategories) :
  forall acc, NoDup (JS.keys acc ++ JS.keys cats) ->
         set_all cats acc = (acc ++ map enc cats)%list.
Proof.
  unfold set_all.
  induction cats as [|[k b] cats IH]; intros acc Hnd; cbn [fold_left map].
  - now rewrite app_nil_r.
  - cbn [fst snd]. unfold JS.keys in *. cbn [map fst] in Hnd.
    rewrite JSFacts.set_absent.
    + rewrite IH.
      * rewrite <- app_assoc. reflexivity.
      * rewrite map_app. cbn [map fst]. rewrite <- app_assoc. exact Hnd.
    + apply JSFacts.get_absent. apply NoDup_remove_2 in Hnd.
      intros Hin. apply Hnd. apply in_or_app. now left.
Qed.

Lemma parse_value_object_head (fuel : nat) (tl : string) :
  parse_value (S fuel) (String "{" (String dquote tl))
  = match parse_members (parse_value fuel)
            (String.length (String dquote tl)) [] (String dquote tl) with
    | Some (o, rest) => Some (JObject o, rest)
    | None => None
    end.
Proof. reflexivity. Qed.

Lemma parse_value_categories (f : nat) (cats : ConsentCategories) (rest : string) :
  NoDup (JS.keys cats) ->
  parse_value (S (S f)) (stringify (categories_to_json cats) ++ rest)
  = Some (categories_to_json cats, rest).
Proof.
  intros Hnd. unfold categories_to_json. cbn [stringify].
  fold enc. destruct cats as [|kb cats].
  - reflexivity.
  - remember (kb :: cats) as l eqn:El.
    assert (Hne : l <> []) by (subst; discriminate).
    cbn [append]. rewrite app_assoc_s. cbn [append].
    assert (Hhead : exists c tl,
               members_string stringify (map enc l) ++ String "}" rest
               = String c tl /\ c = dquote).
    { subst l. destruct cats as [|kb' cats]; destruct kb as [k b].
      - cbn [map]. change (enc (k, b)) with (k, JBool b).
        rewrite members_string_one.
        unfold quote. cbn [append]. eauto.
      - cbn [map]. change (enc (k, b)) with (k, JBool b).
        rewrite members_string_cons by discriminate.
        unfold quote. cbn [append]. eauto. }
    destruct Hhead as (c & tl & Etl & ->).
    pose proof (length_members_string stringify (map enc l) (String "}" rest)) as Hlen.
    rewrite length_map in Hlen.
    pose proof (parse_members_bools f l
                  (String.length (members_string stringify (map enc l)
                                  ++ String "}" rest)) [] rest Hne Hlen) as Hp.
    rewrite Etl in *.
    rewrite parse_value_object_head.
    rewrite Hp. rewrite set_all_fresh by exact Hnd. reflexivity.
Qed.

Lemma parse_value_object_body (fuel : nat) (body : string) :
  (exists tl, body = String dquote tl) ->
  parse_value (S fuel) (String "{" body)
  = match parse_members (parse_value fuel) (String.length body) [] body with
    | Some (o, rest) => Some (JObject o, rest)
    | None => None
    end.
Proof. intros [tl ->]. reflexivity. Qed.

Lemma parse_value_record (fuel : nat) (r : ConsentRecord) (rest : string) :
  wf_record r ->
  parse_value (S (S (S fuel))) (stringify (record_to_json r) ++ rest)
  = Some (record_to_json r, rest).
Proof.
  intros Hwf. unfold record_to_json. cbn [stringify].
  set (ms := [("version", JNumber (version r));
              ("timestamp", JString (timestamp r));
              ("categories", categories_to_json (categories r));
              ("userAgent", JString (userAgent r));
              ("expiresAt", JString (expiresAt r))]).
  cbn [append]. rewrite app_assoc_s. cbn [append].
  pose proof (length_members_string stringify ms (String "}" rest)) as Hlen.
  assert (E : members_string stringify ms ++ String "}" rest
              = quote "version" ++ ":" ++ JS.Z_to_string (version r) ++ ","
                ++ quote "timestamp" ++ ":" ++ quote (timestamp r) ++ ","
                ++ quote "categories" ++ ":"
                ++ stringify (categories_to_json (categories r)) ++ ","
                ++ quote "userAgent" ++ ":" ++ quote (userAgent r) ++ ","
                ++ quote "expiresAt" ++ ":" ++ quote (expiresAt r) ++ "}"
                ++ rest).
  { unfold ms. rewrite !members_string_cons by discriminate.
    rewrite members_string_one. reflexivity. }
  rewrite E in *. clear E.
  rewrite parse_value_object_body by (unfold quote; cbn [append]; eauto).
  remember (String.length _) as n eqn:En in Hlen |- *. clear En.
  unfold ms in Hlen. cbn [List.length] in Hlen.
  destruct n as [|[|[|[|[|n]]]]]; try lia.
  rewrite (parse_members_more _ _ _ _ (JNumber (version r)))
    by (apply parse_value_number; reflexivity).
  rewrite (parse_members_more _ _ _ _ (JString (timestamp r)))
    by apply parse_value_string.
  rewrite (parse_members_more _ _ _ _ (categories_to_json (categories r)))
    by (apply parse_value_categories; exact Hwf).
  rewrite (parse_members_more _ _ _ _ (JString (userAgent r)))
    by apply parse_value_string.
  rewrite (parse_members_last _ _ _ _ (JString (expiresAt r)))
    by apply parse_value_string.
  reflexivity.
Qed.

Lemma stringify_record_length (r : ConsentRecord) :
  exists n, String.length (stringify (record_to_json r)) = S (S (S n)).
Proof.
  unfold record_to_json. cbn [stringify members_string].
  unfold quote at 1. cbn [append String.length]. rewrite length_app_s.
  cbn [String.length].
  match goal with |- exists n, S (S ?a) = _ => remember a as m eqn:Em end.
  destruct m as [|m]; [lia | eauto].
Qed.

(** [JSON.parse] reads back what [JSON.stringify] wrote for a record. *)
Lemma parse_stringify_record (r : ConsentRecord) :
  wf_record r ->
  parse (stringify (record_to_json r)) = Some (record_to_json r).
Proof.
  intros Hwf. unfold parse.
  destruct (stringify_record_length r) as (n & ->).
  pose proof (parse_value_record n r EmptyString Hwf) as H.
  assert (Hnil : forall s : string, s ++ EmptyString = s).
  { induction s as [|c s IH]; cbn; [reflexivity | now rewrite IH]. }
  rewrite Hnil in H. rewrite H. reflexivity.
Qed.

End JSONFacts.

(** ** The script gate *)

Module GateFacts.
Import ScriptBlocker JSFacts GateProps.

Lemma nth_error_update_same {A : Type} (l : list A) (n : nat) (x y : A) :
  nth_error l n = Some y -> nth_error (update n x l) n = Some x.
Proof.
  revert n. induction l as [|a l IH]; intros [|n]; cbn; try discriminate; auto.
Qed.

Lemma nth_error_update_other {A : Type} (l : list A) (n m : nat) (x : A) :
  n <> m -> nth_error (update n x l) m = nth_error l m.
Proof.
  revert n m. induction l as [|a l IH]; intros [|n] [|m] H; cbn; auto;
    try congruence.
Qed.

Lemma length_update {A : Type} (l : list A) (n : nat) (x : A) :
  List.length (update n x l) = List.length l.
Proof.
  revert n. induction l as [|a l IH]; intros [|n]; cbn; auto.
Qed.

Lemma processScript_unfold (script : nat) (st : t * Browser) :
  processScript script st
  = if blockable script st then
      match nth_error (heap (snd st)) script with
      | Some el =>
          let '(id, b1) := generateScriptId el (snd st) in
          (set_blockedScripts (JS.set id script (blockedScripts (fst st))) (fst st),
           set_heap (update script (withheld_form el) (heap b1)) b1)
      | None => st
      end
    else st.
Proof.
  destruct st as [this b]. unfold processScript, blockable. cbn [fst snd].
  destruct (nth_error (heap b) script) as [el|]; [|reflexivity].
  destruct (CategoryManager.getCategoryForScript _ _ el) as [c|]; [|reflexivity].
  destruct (String.eqb c EmptyString); [reflexivity|]. cbn [negb andb].
  destruct (match currentConsent this with Some _ => _ | None => _ end);
    [reflexivity|]. cbn [negb andb].
  destruct (String.eqb (Script.type el) "text/plain"); reflexivity.
Qed.

Lemma processScript_settled (script : nat) (st : t * Browser) :
  blockable script st = false -> processScript script st = st.
Proof. intros H. now rewrite processScript_unfold, H. Qed.

Lemma generateScriptId_frame (el : Script.t) (b : Browser) :
  let b1 := snd (generateScriptId el b) in
  heap b1 = heap b /\ resolveURL b1 = resolveURL b /\ attached b1 = attached b
  /\ emitted b1 = emitted b /\ localStorage b1 = localStorage b.
Proof.
  unfold generateScriptId. destruct (negb _); cbn; auto.
Qed.

Lemma type_withheld_form (el : Script.t) :
  Script.type (withheld_form el) = "text/plain".
Proof.
  unfold withheld_form, Script.type, Script.set_type, Script.getAttribute,
    Script.setAttribute. cbn [Script.attributes].
  now rewrite get_set_same.
Qed.

Lemma getAttribute_withheld_form (name : string) (el : Script.t) :
  name <> "type" -> name <> "data-original-type" ->
  Script.getAttribute name (withheld_form el) = Script.getAttribute name el.
Proof.
  intros H1 H2.
  unfold withheld_form, Script.set_type, Script.getAttribute,
    Script.setAttribute. cbn [Script.attributes].
  rewrite !get_set_other by assumption. reflexivity.
Qed.

Lemma category_withheld_form cm resolve (el : Script.t) :
  CategoryManager.getCategoryForScript cm resolve (withheld_form el)
  = CategoryManager.getCategoryForScript cm resolve el.
Proof.
  unfold CategoryManager.getCategoryForScript, Script.src.
  rewrite !getAttribute_withheld_form by discriminate. reflexivity.
Qed.

Lemma original_type_withheld_form (el : Script.t) :
  Script.type el <> "text/plain" ->
  exists ty, Script.getAttribute "data-original-type" (withheld_form el) = Some ty
        /\ ty <> "text/plain"
        /\ ty = JS.or_default (Some (Script.type el)) "text/javascript".
Proof.
  intros Hty. eexists. split; [|split; [|reflexivity]].
  - unfold withheld_form, Script.set_type, Script.getAttribute,
      Script.setAttribute. cbn [Script.attributes].
    rewrite get_set_other by discriminate. apply get_set_same.
  - unfold JS.or_default. destruct (String.eqb (Script.type el) EmptyString);
      [discriminate | assumption].
Qed.

(** After [processScript], the script is settled: a second pass skips it. *)
Lemma blockable_after (script : nat) (st : t * Browser) :
  blockable script (processScript script st) = false.
Proof.
  rewrite processScript_unfold.
  destruct (blockable script st) eqn:Hb; [|exact Hb].
  unfold blockable in Hb |- *.
  destruct (nth_error (heap (snd st)) script) as [el|] eqn:Hel; [|discriminate].
  pose proof (generateScriptId_frame el (snd st)) as (Hh & Hr & _).
  destruct (generateScriptId el (snd st)) as [id b1].
  cbn [fst snd set_heap set_blockedScripts heap resolveURL categoryManager
         currentConsent] in *.
  rewrite Hh, Hr.
  rewrite (nth_error_update_same _ _ _ el Hel).
  rewrite category_withheld_form, type_withheld_form.
  destruct (CategoryManager.getCategoryForScript _ _ el); [|reflexivity].
  now rewrite andb_false_r.
Qed.

Lemma blockable_other (script other : nat) (st : t * Browser) :
  script <> other ->
  blockable script (processScript other st) = blockable script st.
Proof.
  intros Hne. rewrite processScript_unfold.
  destruct (blockable other st); [|reflexivity].
  destruct (nth_error (heap (snd st)) other) as [el|] eqn:Hel; [|reflexivity].
  pose proof (generateScriptId_frame el (snd st)) as (Hh & Hr & _).
  destruct (generateScriptId el (snd st)) as [id b1]. cbn [fst snd] in *.
  unfold blockable. cbn [fst snd set_heap heap resolveURL
                          set_blockedScripts categoryManager currentConsent].
  rewrite nth_error_update_other by congruence. now rewrite Hh, Hr.
Qed.

Lemma settled_preserved (script other : nat) (st : t * Browser) :
  blockable script st = false ->
  blockable script (processScript other st) = false.
Proof.
  intros H. destruct (Nat.eq_dec script other) as [->|Hne].
  - apply blockable_after.
  - now rewrite blockable_other.
Qed.

Lemma pass_settled_preserved (scripts : list nat) :
  forall st script, blockable script st = false ->
               blockable script (pass scripts st) = false.
Proof.
  induction scripts as [|s l IH]; intros st script H; cbn; [exact H|].
  apply IH. now apply settled_preserved.
Qed.

Lemma pass_settles (scripts : list nat) :
  forall st script, In script scripts ->
               blockable script (pass scripts st) = false.
Proof.
  induction scripts as [|s l IH]; intros st script Hin; [destruct Hin|].
  cbn [pass fold_left]. destruct Hin as [-> | Hin].
  - apply pass_settled_preserved, blockable_after.
  - now apply IH.
Qed.

Lemma pass_all_settled (scripts : list nat) :
  forall st, (forall s, In s scripts -> blockable s st = false) ->
        pass scripts st = st.
Proof.
  induction scripts as [|s l IH]; intros st H; cbn [pass fold_left];
    [reflexivity|].
  rewrite processScript_settled by (apply H; now left).
  apply IH. intros s' Hs'. apply H. now right.
Qed.

Lemma pass_idempotent (scripts : list nat) (st : t * Browser) :
  pass scripts (pass scripts st) = pass scripts st.
Proof. apply pass_all_settled. intros s Hs. now apply pass_settles. Qed.

Lemma processScript_frame (script : nat) (st : t * Browser) :
  let st' := processScript script st in
  attached (snd st') = attached (snd st)
  /\ resolveURL (snd st') = resolveURL (snd st)
  /\ emitted (snd st') = emitted (snd st)
  /\ List.length (heap (snd st')) = List.length (heap (snd st))
  /\ categoryManager (fst st') = categoryManager (fst st)
  /\ currentConsent (fst st') = currentConsent (fst st)
  /\ observer (fst st') = observer (fst st)
  /\ forall r, marked (snd st') r = marked (snd st) r.
Proof.
  cbv zeta. rewrite processScript_unfold.
  destruct (blockable script st); [|repeat split; reflexivity].
  destruct (nth_error (heap (snd st)) script) as [el|] eqn:Hel;
    [|repeat split; reflexivity].
  pose proof (generateScriptId_frame el (snd st)) as (Hh & Hr & Ha & He & _).
  destruct (generateScriptId el (snd st)) as [id b1].
  cbn [fst snd set_heap set_blockedScripts heap resolveURL categoryManager
         currentConsent attached emitted observer] in *.
  repeat split; auto.
  { rewrite length_update. now rewrite Hh. }
  intros r. unfold marked. cbn [heap set_heap]. rewrite Hh.
  destruct (Nat.eq_dec script r) as [<-|Hne].
  - rewrite (nth_error_update_same _ _ _ el Hel), Hel.
    unfold Script.hasAttribute, JS.hasOwn.
    change (JS.get "data-cookieconsent" (Script.attributes ?e))
      with (Script.getAttribute "data-cookieconsent" e).
    now rewrite getAttribute_withheld_form by discriminate.
  - now rewrite nth_error_update_other.
Qed.

Lemma pass_frame (scripts : list nat) :
  forall st,
    attached (snd (pass scripts st)) = attached (snd st)
    /\ forall r, marked (snd (pass scripts st)) r = marked (snd st) r.
Proof.
  induction scripts as [|s l IH]; intros st; [split; reflexivity|].
  change (pass (s :: l) st) with (pass l (processScript s st)).
  destruct (IH (processScript s st)) as [Ha Hm].
  pose proof (processScript_frame s st) as Hf. cbv zeta in Hf.
  destruct Hf as (Ha' & _ & _ & _ & _ & _ & _ & Hm').
  split; [now rewrite Ha, Ha'|]. intros r. now rewrite Hm, Hm'.
Qed.

Lemma querySelectorAll_marked_eq (b : Browser) :
  querySelectorAll_marked b = filter (marked b) (attached b).
Proof. reflexivity. Qed.

Lemma blockExistingScripts_pass (st : t * Browser) :
  blockExistingScripts st = pass (querySelectorAll_marked (snd st)) st.
Proof. reflexivity. Qed.

Lemma blockExistingScripts_idempotent (st : t * Browser) :
  blockExistingScripts (blockExistingScripts st) = blockExistingScripts st.
Proof.
  rewrite (blockExistingScripts_pass (blockExistingScripts st)).
  rewrite blockExistingScripts_pass.
  set (l := querySelectorAll_marked (snd st)).
  destruct (pass_frame l st) as [Ha Hm].
  replace (querySelectorAll_marked (snd (pass l st))) with l.
  - apply pass_idempotent.
  - symmetry. rewrite querySelectorAll_marked_eq, Ha. unfold l.
    rewrite querySelectorAll_marked_eq.
    apply filter_ext. intros r. apply Hm.
Qed.

(** *** Reactivation leaves every existing element as it is *)

Lemma reactivateScript_frame (script : nat) (b : Browser) :
  let b' := reactivateScript script b in
  resolveURL b' = resolveURL b
  /\ (forall i el, nth_error (heap b) i = Some el -> nth_error (heap b') i = Some el)
  /\ List.length (heap b) <= List.length (heap b').
Proof.
  unfold reactivateScript.
  destruct (nth_error (heap b) script) as [el|]; [|auto].
  cbn. repeat split.
  - intros i e H. rewrite nth_error_app1; [assumption|].
    apply nth_error_Some. congruence.
  - rewrite length_app. lia.
Qed.

Lemma category_of_stable (this : t) (b b' : Browser) (script : nat) :
  resolveURL b' = resolveURL b ->
  (forall i el, nth_error (heap b) i = Some el -> nth_error (heap b') i = Some el) ->
  script < List.length (heap b) ->
  category_of this b' script = category_of this b script.
Proof.
  intros Hr Hh Hlt. unfold category_of.
  destruct (nth_error (heap b) script) as [el|] eqn:E.
  - now rewrite (Hh _ _ E), Hr.
  - apply nth_error_None in E. lia.
Qed.

Lemma releasable_stable (this : t) (c : ConsentCategories) (b b' : Browser)
  (script : nat) :
  resolveURL b' = resolveURL b ->
  (forall i el, nth_error (heap b) i = Some el -> nth_error (heap b') i = Some el) ->
  script < List.length (heap b) ->
  releasable this c b' script = releasable this c b script.
Proof.
  intros Hr Hh Hlt. unfold releasable.
  now rewrite (category_of_stable this b b' script Hr Hh Hlt).
Qed.

Lemma unblock_entries_spec (this : t) (c : ConsentCategories) (b0 : Browser)
  (entries : JS.object nat) :
  forall b,
    refs_valid entries b0 ->
    resolveURL b = resolveURL b0 ->
    (forall i el, nth_error (heap b0) i = Some el -> nth_error (heap b) i = Some el) ->
    unblock_entries this c entries b
    = (filter (fun e => negb (releasable this c b0 (snd e))) entries,
       reactivate_all (releasable this c b0) entries b).
Proof.
  induction entries as [|[id script] rest IH]; intros b Hv Hr Hh;
    cbn [unblock_entries filter reactivate_all snd]; [reflexivity|].
  assert (Hlt : script < List.length (heap b0)) by (eapply Hv; now left).
  assert (Hv' : refs_valid rest b0)
    by (intros i s Hin; eapply Hv; right; exact Hin).
  rewrite (releasable_stable this c b0 b script Hr Hh Hlt).
  destruct (releasable this c b0 script); cbn [negb].
  - apply IH; [assumption | |].
    + pose proof (reactivateScript_frame script b) as Hf. cbv zeta in Hf.
      destruct Hf as (Hr' & _). now rewrite Hr'.
    + intros i el Hi.
      pose proof (reactivateScript_frame script b) as Hf. cbv zeta in Hf.
      destruct Hf as (_ & Hh' & _). apply Hh', Hh, Hi.
  - rewrite (IH b Hv' Hr Hh). reflexivity.
Qed.

Lemma reactivate_all_none (this : t) (c : ConsentCategories) (b0 : Browser)
  (entries : JS.object nat) :
  forall b, (forall e, In e entries -> releasable this c b0 (snd e) = false) ->
       reactivate_all (releasable this c b0) entries b = b.
Proof.
  induction entries as [|[id script] rest IH]; intros b H;
    cbn [reactivate_all]; [reflexivity|].
  pose proof (H (id, script) (or_introl eq_refl)) as E. cbn [snd] in E.
  rewrite E. apply IH.
  intros e He. apply H. now right.
Qed.

Lemma reactivate_all_frame (this : t) (c : ConsentCategories) (b0 : Browser)
  (entries : JS.object nat) :
  forall b,
    resolveURL (reactivate_all (releasable this c b0) entries b) = resolveURL b
    /\ (forall i el, nth_error (heap b) i = Some el ->
               nth_error (heap (reactivate_all (releasable this c b0) entries b)) i = Some el)
    /\ List.length (heap b) <= List.length (heap (reactivate_all (releasable this c b0) entries b)).
Proof.
  induction entries as [|[id script] rest IH]; intros b;
    cbn [reactivate_all]; [auto|].
  destruct (releasable this c b0 script); [|apply IH].
  destruct (IH (reactivateScript script b)) as (Hr & Hh & Hl).
  pose proof (reactivateScript_frame script b) as Hf. cbv zeta in Hf.
  destruct Hf as (Hr' & Hh' & Hl').
  repeat split; [now rewrite Hr, Hr' | auto | lia].
Qed.

Lemma reactivateScript_adds (b0 b : Browser) (script : nat) :
  resolveURL b = resolveURL b0 ->
  (forall i el, nth_error (heap b0) i = Some el -> nth_error (heap b) i = Some el) ->
  script < List.length (heap b0) ->
  heap (reactivateScript script b) = (heap b ++ clone_of b0 script)%list
  /\ emitted (reactivateScript script b) = (emitted b ++ event_of b0 script)%list.
Proof.
  intros Hr Hh Hlt. unfold reactivateScript, clone_of, event_of.
  destruct (nth_error (heap b0) script) as [el|] eqn:E.
  - rewrite (Hh _ _ E), Hr. cbn. auto.
  - apply nth_error_None in E. lia.
Qed.

Lemma reactivate_all_adds (this : t) (c : ConsentCategories) (b0 : Browser)
  (entries : JS.object nat) :
  forall b,
    refs_valid entries b0 ->
    resolveURL b = resolveURL b0 ->
    (forall i el, nth_error (heap b0) i = Some el -> nth_error (heap b) i = Some el) ->
    heap (reactivate_all (releasable this c b0) entries b)
    = (heap b ++ flat_map (clone_of b0) (released this c b0 entries))%list
    /\ emitted (reactivate_all (releasable this c b0) entries b)
       = (emitted b ++ flat_map (event_of b0) (released this c b0 entries))%list.
Proof.
  unfold released.
  induction entries as [|[id script] rest IH]; intros b Hv Hr Hh;
    cbn [reactivate_all filter map flat_map snd].
  - now rewrite !app_nil_r.
  - assert (Hlt : script < List.length (heap b0)) by (eapply Hv; now left).
    assert (Hv' : refs_valid rest b0)
      by (intros i s Hin; eapply Hv; right; exact Hin).
    destruct (releasable this c b0 script); cbn [map flat_map snd].
    + pose proof (reactivateScript_frame script b) as Hf. cbv zeta in Hf.
      destruct Hf as (Hr' & Hh' & _).
      destruct (reactivateScript_adds b0 b script Hr Hh Hlt) as (Eh & Ee).
      destruct (IH (reactivateScript script b) Hv') as (Eh' & Ee').
      * now rewrite Hr'.
      * intros i el Hi. now apply Hh', Hh.
      * rewrite Eh', Ee', Eh, Ee, <- !app_assoc. auto.
    + now apply IH.
Qed.

Lemma in_replace_node (x script newScript : nat) (doc : list nat) :
  x <> script -> In x doc -> In x (replace_node script newScript doc).
Proof.
  intros Hne. induction doc as [|n rest IH]; cbn; [tauto|].
  intros [-> | Hin].
  - destruct (Nat.eqb_spec x script); [congruence | now left].
  - destruct (Nat.eqb n script); right; auto.
Qed.

Lemma reactivate_all_attached (this : t) (c : ConsentCategories) (b0 : Browser)
  (entries : JS.object nat) (x : nat) :
  releasable this c b0 x = false ->
  forall b, In x (attached b) ->
       In x (attached (reactivate_all (releasable this c b0) entries b)).
Proof.
  intros Hx. induction entries as [|[id script] rest IH]; intros b Hin;
    cbn [reactivate_all]; [exact Hin|].
  destruct (releasable this c b0 script) eqn:Hs; [|now apply IH].
  apply IH. unfold reactivateScript.
  destruct (nth_error (heap b) script); [|exact Hin].
  cbn. apply in_replace_node; [congruence | exact Hin].
Qed.

(** [unblock] in closed form. *)
Lemma unblock_eq (this : t) (c : ConsentCategories) (b : Browser) :
  refs_valid (blockedScripts this) b ->
  unblock c (this, b)
  = ({| observer := observer this;
        blockedScripts :=
          filter (fun e => negb (releasable this c b (snd e))) (blockedScripts this);
        categoryManager := categoryManager this;
        currentConsent := Some c |},
     reactivate_all (releasable this c b) (blockedScripts this) b).
Proof.
  intros Hv. unfold unblock. cbn [fst snd].
  change (blockedScripts (set_currentConsent (Some c) this))
    with (blockedScripts this).
  rewrite (unblock_entries_spec _ c b (blockedScripts this) b Hv eq_refl)
    by auto.
  reflexivity.
Qed.

(** An entry that is not releasable stays in the map, and its element
    stays as it is, where it is. *)
Lemma unblock_keeps (this : t) (c : ConsentCategories) (b : Browser)
  (id : string) (script : nat) :
  refs_valid (blockedScripts this) b ->
  In (id, script) (blockedScripts this) ->
  releasable this c b script = false ->
  let st1 := unblock c (this, b) in
  In (id, script) (blockedScripts (fst st1))
  /\ nth_error (heap (snd st1)) script = nth_error (heap b) script
  /\ (In script (attached b) -> In script (attached (snd st1))).
Proof.
  intros Hv Hin Hrel. cbv zeta. rewrite unblock_eq by assumption.
  cbn [fst snd blockedScripts].
  repeat split.
  - apply filter_In. split; [exact Hin|]. cbn [snd]. now rewrite Hrel.
  - destruct (reactivate_all_frame this c b (blockedScripts this) b)
      as (_ & Hh & _).
    destruct (nth_error (heap b) script) as [el|] eqn:E; [now apply Hh|].
    apply nth_error_None in E. apply Hv in Hin. lia.
  - now apply reactivate_all_attached.
Qed.

(** An entry that is releasable leaves the map; an executable clone
    of its element is created and the activation is published. *)
Lemma unblock_releases (this : t) (c : ConsentCategories) (b : Browser)
  (id : string) (script : nat) :
  refs_valid (blockedScripts this) b ->
  In (id, script) (blockedScripts this) ->
  releasable this c b script = true ->
  let st1 := unblock c (this, b) in
  ~ In (id, script) (blockedScripts (fst st1))
  /\ exists el news evs,
      nth_error (heap b) script = Some el
      /\ heap (snd st1) = (heap b ++ news)%list
      /\ In (clone_for_execution (resolveURL b) el) news
      /\ emitted (snd st1) = (emitted b ++ evs)%list
      /\ In ("script:activated",
             ActivatedPayload (Script.getAttribute "data-cookieconsent" el)
               (JS.or_default (Some (Script.src (resolveURL b) el)) "inline")) evs.
Proof.
  intros Hv Hin Hrel. cbv zeta. rewrite unblock_eq by assumption.
  cbn [fst snd blockedScripts].
  split.
  - intros H. apply filter_In in H as [_ H]. cbn [snd] in H.
    now rewrite Hrel in H.
  - destruct (reactivate_all_adds this c b (blockedScripts this) b Hv eq_refl)
      as (Eh & Ee); [auto|].
    assert (Hlt : script < List.length (heap b)) by (eapply Hv; exact Hin).
    destruct (nth_error (heap b) script) as [el|] eqn:E;
      [|apply nth_error_None in E; lia].
    assert (Hrl : In script (released this c b (blockedScripts this))).
    { unfold released. apply in_map_iff. exists (id, script). split; [reflexivity|].
      apply filter_In. split; [exact Hin | exact Hrel]. }
    exists el, (flat_map (clone_of b) (released this c b (blockedScripts this))),
      (flat_map (event_of b) (released this c b (blockedScripts this))).
    repeat split; try assumption.
    + apply in_flat_map. exists script. split; [exact Hrl|].
      unfold clone_of. rewrite E. now left.
    + apply in_flat_map. exists script. split; [exact Hrl|].
      unfold event_of. rewrite E. now left.
Qed.

Lemma filter_all_true {A : Type} (f : A -> bool) (l : list A) :
  (forall x, In x l -> f x = true) -> filter f l = l.
Proof.
  induction l as [|x l IH]; intros H; cbn; [reflexivity|].
  rewrite (H x) by now left. f_equal. apply IH. intros y Hy. apply H. now right.
Qed.

(** A second [unblock] with the same categories changes nothing. *)
Lemma unblock_idempotent (this : t) (c : ConsentCategories) (b : Browser) :
  refs_valid (blockedScripts this) b ->
  unblock c (unblock c (this, b)) = unblock c (this, b).
Proof.
  intros Hv. rewrite (unblock_eq this c b Hv).
  set (kept := filter (fun e => negb (releasable this c b (snd e)))
                 (blockedScripts this)).
  set (b1 := reactivate_all (releasable this c b) (blockedScripts this) b).
  set (this1 := {| observer := observer this; blockedScripts := kept;
                   categoryManager := categoryManager this;
                   currentConsent := Some c |}).
  destruct (reactivate_all_frame this c b (blockedScripts this) b)
    as (Hr & Hh & Hl). fold b1 in Hr, Hh, Hl.
  assert (Hv1 : refs_valid (blockedScripts this1) b1).
  { intros i s Hin. apply filter_In in Hin as [Hin _]. apply Hv in Hin. lia. }
  assert (Hnone : forall e, In e kept -> releasable this1 c b1 (snd e) = false).
  { intros [i s] Hin. apply filter_In in Hin as [Hin Hn]. cbn [snd] in *.
    change (releasable this1) with (releasable this).
    rewrite (releasable_stable this c b b1 s Hr Hh) by (eapply Hv; exact Hin).
    now apply negb_true_iff. }
  rewrite (unblock_eq this1 c b1 Hv1).
  cbn [blockedScripts this1 observer categoryManager].
  rewrite (reactivate_all_none this1 c b1 kept b1 Hnone).
  rewrite filter_all_true; [reflexivity|].
  intros e He. now rewrite (Hnone e He).
Qed.

Lemma withheld_ok_refs_valid (st : t * Browser) :
  withheld_ok st -> refs_valid (blockedScripts (fst st)) (snd st).
Proof.
  intros H id script Hin. destruct (H id script Hin) as (el & _ & E & _).
  apply nth_error_Some. congruence.
Qed.

Lemma in_set_inv {V : Type} (k k' : string) (v v' : V) (o : JS.object V) :
  In (k, v) (JS.set k' v' o) -> (k, v) = (k', v') \/ In (k, v) o.
Proof.
  induction o as [|[k0 w] o IH]; cbn [JS.set].
  - intros [H | []]. left. congruence.
  - destruct (String.eqb_spec k0 k').
    + subst k0. intros [H | H]; [left; congruence | right; now right].
    + intros [H | H]; [right; now left|].
      destruct (IH H); [now left | right; now right].
Qed.

Lemma blockable_type (script : nat) (st : t * Browser) (el : Script.t) :
  blockable script st = true ->
  nth_error (heap (snd st)) script = Some el ->
  Script.type el <> "text/plain".
Proof.
  unfold blockable. intros H E. rewrite E in H.
  destruct (CategoryManager.getCategoryForScript _ _ el); [|discriminate].
  apply andb_true_iff in H as [_ H]. apply negb_true_iff in H.
  now apply String.eqb_neq.
Qed.

Lemma processScript_withheld_ok (script : nat) (st : t * Browser) :
  withheld_ok st -> withheld_ok (processScript script st).
Proof.
  intros Hok. rewrite processScript_unfold.
  destruct (blockable script st) eqn:Hb; [|exact Hok].
  destruct (nth_error (heap (snd st)) script) as [el|] eqn:Hel; [|exact Hok].
  pose proof (blockable_type script st el Hb Hel) as Hty.
  pose proof (generateScriptId_frame el (snd st)) as (Hh & _).
  destruct (generateScriptId el (snd st)) as [id b1].
  cbn [fst snd] in Hh.
  intros k v Hin.
  cbn [fst snd set_blockedScripts blockedScripts set_heap heap] in *.
  rewrite Hh.
  assert (Hnew : exists el' ty,
             nth_error (update script (withheld_form el) (heap (snd st))) script
             = Some el'
             /\ Script.type el' = "text/plain"
             /\ Script.getAttribute "data-original-type" el' = Some ty
             /\ ty <> "text/plain").
  { destruct (original_type_withheld_form el Hty) as (ty & E1 & E2 & _).
    exists (withheld_form el), ty. repeat split; auto.
    - now apply (nth_error_update_same _ _ _ el).
    - apply type_withheld_form. }
  destruct (Nat.eq_dec v script) as [-> | Hne]; [exact Hnew|].
  apply in_set_inv in Hin as [Heq | Hin]; [congruence|].
  rewrite nth_error_update_other by congruence.
  exact (Hok k v Hin).
Qed.

Lemma pass_withheld_ok (scripts : list nat) :
  forall st, withheld_ok st -> withheld_ok (pass scripts st).
Proof.
  induction scripts as [|s l IH]; intros st H; [exact H|].
  change (pass (s :: l) st) with (pass l (processScript s st)).
  now apply IH, processScript_withheld_ok.
Qed.

Lemma unblock_withheld_ok (c : ConsentCategories) (st : t * Browser) :
  withheld_ok st -> withheld_ok (unblock c st).
Proof.
  intros Hok. destruct st as [this b].
  rewrite unblock_eq by (apply (withheld_ok_refs_valid (this, b)), Hok).
  intros k v Hin. cbn [fst snd blockedScripts] in *.
  apply filter_In in Hin as [Hin _].
  destruct (Hok k v Hin) as (el & ty & E & H).
  exists el, ty. split; [|exact H].
  destruct (reactivate_all_frame this c b (blockedScripts this) b) as (_ & Hh & _).
  now apply Hh.
Qed.

Lemma mutation_callback_withheld_ok (nodes : list nat) (st : t * Browser) :
  withheld_ok st -> withheld_ok (mutation_callback nodes st).
Proof.
  unfold mutation_callback. destruct (observer (fst st)); [|auto].
  revert st. induction nodes as [|n l IH]; intros st H; cbn [fold_left];
    [exact H|].
  apply IH. destruct (nth_error (heap (snd st)) n) as [el|]; [|exact H].
  destruct (Script.hasAttribute _ el); [|exact H].
  now apply processScript_withheld_ok.
Qed.

Lemma step_withheld_ok (st st' : t * Browser) :
  step st st' -> withheld_ok st -> withheld_ok st'.
Proof.
  intros Hstep Hok. destruct Hstep.
  - unfold init, observeDOM. rewrite blockExistingScripts_pass.
    exact (pass_withheld_ok _ st Hok).
  - unfold block. rewrite blockExistingScripts_pass.
    apply pass_withheld_ok. exact Hok.
  - now apply unblock_withheld_ok.
  - now apply mutation_callback_withheld_ok.
  - exact Hok.
  - intros k v Hin. destruct (Hok k v Hin) as (e & ty & E & H).
    exists e, ty. split; [|exact H].
    cbn. rewrite nth_error_app1; [exact E|]. apply nth_error_Some. congruence.
Qed.

Lemma reachable_withheld_ok (st : t * Browser) :
  reachable st -> withheld_ok st.
Proof.
  induction 1 as [cm b | st st' _ IH Hstep].
  - intros k v [].
  - now apply (step_withheld_ok st st').
Qed.

Lemma processScript_idempotent (script : nat) (st : t * Browser) :
  processScript script (processScript script st) = processScript script st.
Proof. apply processScript_settled, blockable_after. Qed.

Lemma pass_currentConsent (scripts : list nat) :
  forall st, currentConsent (fst (pass scripts st)) = currentConsent (fst st).
Proof.
  induction scripts as [|s l IH]; intros st; [reflexivity|].
  change (pass (s :: l) st) with (pass l (processScript s st)).
  rewrite IH. pose proof (processScript_frame s st) as Hf. cbv zeta in Hf.
  now destruct Hf as (_ & _ & _ & _ & _ & Hc & _).
Qed.

Lemma block_idempotent (st : t * Browser) : block (block st) = block st.
Proof.
  unfold block at 1.
  assert (Hc : currentConsent (fst (block st)) = None).
  { unfold block. rewrite blockExistingScripts_pass, pass_currentConsent.
    reflexivity. }
  replace (set_currentConsent None (fst (block st)), snd (block st))
    with (block st).
  - unfold block. apply blockExistingScripts_idempotent.
  - destruct (block st) as [[o m cm cc] b]. cbn in *. now subst cc.
Qed.

Lemma processScript_never_records_withheld_type (script r : nat)
  (st : t * Browser) (el' : Script.t) :
  nth_error (heap (snd (processScript script st))) r = Some el' ->
  Script.getAttribute "data-original-type" el' = Some "text/plain" ->
  nth_error (heap (snd st)) r = Some el'.
Proof.
  rewrite processScript_unfold.
  destruct (blockable script st) eqn:Hb; [|auto].
  destruct (nth_error (heap (snd st)) script) as [el|] eqn:Hel; [|auto].
  pose proof (blockable_type script st el Hb Hel) as Hty.
  pose proof (generateScriptId_frame el (snd st)) as (Hh & _).
  destruct (generateScriptId el (snd st)) as [id b1].
  cbn [fst snd set_heap heap] in *. rewrite Hh.
  destruct (Nat.eq_dec script r) as [<- | Hne].
  - rewrite (nth_error_update_same _ _ _ el Hel). intros [= <-] H.
    destruct (original_type_withheld_form el Hty) as (ty & E & Hne & _).
    congruence.
  - rewrite nth_error_update_other by assumption. auto.
Qed.

Lemma replace_node_other (script n : nat) (doc : list nat) (i x : nat) :
  nth_error doc i = Some x -> x <> script ->
  nth_error (replace_node script n doc) i = Some x.
Proof.
  revert i. induction doc as [|y doc IH]; intros i Hi Hx; [now destruct i|].
  cbn [replace_node]. destruct i as [|i]; cbn [nth_error] in *.
  - injection Hi as ->. destruct (Nat.eqb_spec x script); [contradiction | reflexivity].
  - destruct (Nat.eqb_spec y script) as [-> | Hy]; cbn [nth_error]; auto.
Qed.

Lemma replace_node_same (script n : nat) (doc : list nat) (i : nat) :
  NoDup doc -> nth_error doc i = Some script ->
  nth_error (replace_node script n doc) i = Some n.
Proof.
  revert i. induction doc as [|y doc IH]; intros i Hnd Hi; [now destruct i|].
  inversion Hnd as [|? ? Hy Hnd']; subst.
  cbn [replace_node]. destruct i as [|i]; cbn [nth_error] in *.
  - injection Hi as ->. now rewrite Nat.eqb_refl.
  - destruct (Nat.eqb_spec y script) as [-> | Hne]; cbn [nth_error].
    + exfalso. apply Hy. eapply nth_error_In. exact Hi.
    + now apply IH.
Qed.

Lemma in_replace_node_inv (script n x : nat) (doc : list nat) :
  In x (replace_node script n doc) -> x = n \/ (In x doc /\ (NoDup doc -> x <> script)).
Proof.
  induction doc as [|y doc IH]; cbn [replace_node]; [tauto|].
  destruct (Nat.eqb_spec y script) as [-> | Hne]; cbn [In].
  - intros [<- | H]; [now left|]. right. split; [now right|].
    intros Hnd. inversion Hnd; subst. congruence.
  - intros [<- | H].
    + right. split; [now left | congruence].
    + destruct (IH H) as [-> | [Hin Hx]]; [now left|].
      right. split; [now right|]. intros Hnd. inversion Hnd; auto.
Qed.

Lemma replace_node_NoDup (script n : nat) (doc : list nat) :
  NoDup doc -> ~ In n doc -> NoDup (replace_node script n doc).
Proof.
  induction doc as [|y doc IH]; cbn [replace_node]; intros Hnd Hn; [constructor|].
  inversion Hnd as [|? ? Hy Hnd']; subst.
  destruct (Nat.eqb_spec y script) as [-> | Hne].
  - constructor; [|assumption]. intros H. apply Hn. now right.
  - constructor.
    + intros H. apply in_replace_node_inv in H as [-> | [H _]].
      * apply Hn. now left.
      * contradiction.
    + apply IH; [assumption|]. intros H. apply Hn. now right.
Qed.

Lemma running_refl (b : Browser) : document_ok b -> running b b.
Proof. intros H. repeat split; auto; apply H. Qed.

Lemma reactivateScript_running (b0 b : Browser) (script : nat) :
  running b0 b -> running b0 (reactivateScript script b).
Proof.
  intros (Hr & Hh & Hl & Hnd & Hv). unfold reactivateScript.
  destruct (nth_error (heap b) script) as [el|] eqn:E; [|now repeat split].
  repeat split; cbn [resolveURL heap attached publish set_emitted set_attached set_heap].
  - exact Hr.
  - intros i e Hi. rewrite nth_error_app1; [now apply Hh|].
    apply nth_error_Some. rewrite (Hh _ _ Hi). discriminate.
  - rewrite length_app. lia.
  - apply replace_node_NoDup; [exact Hnd|].
    intros Hin. apply Hv in Hin. lia.
  - intros s Hin. rewrite length_app. cbn [List.length].
    apply in_replace_node_inv in Hin as [-> | [Hin _]]; [lia|].
    apply Hv in Hin. lia.
Qed.

(** A position of the document that holds no script being released
    keeps what it holds. *)
Lemma reactivate_all_keeps_position (rel : nat -> bool) (b0 : Browser)
  (entries : JS.object nat) :
  forall b i x,
    nth_error (attached b) i = Some x ->
    (forall id, In (id, x) entries -> rel x = false) ->
    nth_error (attached (reactivate_all rel entries b)) i = Some x.
Proof.
  induction entries as [|[id script] rest IH]; intros b i x Hi Hx;
    cbn [reactivate_all]; [exact Hi|].
  assert (Hx' : forall id', In (id', x) rest -> rel x = false)
    by (intros id' H; apply (Hx id'); now right).
  destruct (rel script) eqn:R; [|now apply IH].
  apply IH; [|exact Hx'].
  unfold reactivateScript. destruct (nth_error (heap b) script); [|exact Hi].
  cbn [attached publish set_emitted set_attached set_heap].
  apply replace_node_other; [exact Hi|].
  intros ->. rewrite (Hx id) in R by now left. discriminate.
Qed.

Lemma reactivate_all_stays_out (rel : nat -> bool) (b0 : Browser)
  (entries : JS.object nat) (s : nat) :
  forall b,
    running b0 b -> s < List.length (heap b0) ->
    ~ In s (attached b) ->
    ~ In s (attached (reactivate_all rel entries b)).
Proof.
  induction entries as [|[id script] rest IH]; intros b Hrun Hs Hout;
    cbn [reactivate_all]; [exact Hout|].
  destruct (rel script); [|now apply IH].
  apply IH; [now apply reactivateScript_running | exact Hs |].
  unfold reactivateScript. destruct (nth_error (heap b) script); [|exact Hout].
  cbn [attached publish set_emitted set_attached set_heap].
  intros Hin. apply in_replace_node_inv in Hin as [-> | [Hin _]]; [|contradiction].
  destruct Hrun as (_ & _ & Hl & _). lia.
Qed.

(** A script being released gets a clone, which takes its place in
    the document. *)
Lemma reactivate_all_releases (this : t) (c : ConsentCategories) (b0 : Browser)
  (entries : JS.object nat) (s : nat) (el : Script.t) :
  nth_error (heap b0) s = Some el ->
  releasable this c b0 s = true ->
  forall b,
    running b0 b ->
    refs_valid entries b0 ->
    In s (map snd entries) ->
    let b' := reactivate_all (releasable this c b0) entries b in
    ~ In s (attached b')
    /\ exists n,
        List.length (heap b) <= n
        /\ nth_error (heap b') n = Some (clone_for_execution (resolveURL b0) el)
        /\ forall i, nth_error (attached b) i = Some s ->
                nth_error (attached b') i = Some n.
Proof.
  intros Hel Hrel.
  induction entries as [|[id script] rest IH]; intros b Hrun Hv Hin; [destruct Hin|].
  assert (Hv' : refs_valid rest b0)
    by (intros i x H; eapply Hv; right; exact H).
  assert (Hlt : s < List.length (heap b0))
    by (apply nth_error_Some; congruence).
  cbn [reactivate_all]. cbv zeta.
  destruct (Nat.eq_dec script s) as [-> | Hne].
  - rewrite Hrel.
    pose proof (reactivateScript_running b0 b s Hrun) as Hrun1.
    destruct Hrun as (Hr & Hh & Hl & Hnd & Hva).
    set (b1 := reactivateScript s b) in *.
    assert (E1 : heap b1 = (heap b ++ [clone_for_execution (resolveURL b0) el])%list
                 /\ attached b1 = replace_node s (List.length (heap b)) (attached b)).
    { unfold b1, reactivateScript. rewrite (Hh _ _ Hel), Hr. now split. }
    destruct E1 as (Eh & Ea).
    split.
    + apply (reactivate_all_stays_out _ b0); [exact Hrun1 | exact Hlt |].
      rewrite Ea. intros H. apply in_replace_node_inv in H as [-> | [_ H]]; [lia|].
      now apply H.
    + exists (List.length (heap b)). split; [lia|]. split.
      * destruct (reactivate_all_frame this c b0 rest b1) as (_ & Hframe & _).
        apply Hframe. rewrite Eh, nth_error_app2 by lia.
        now rewrite Nat.sub_diag.
      * intros i Hi. apply (reactivate_all_keeps_position _ b0).
        -- rewrite Ea. now apply replace_node_same.
        -- intros id' H. apply Hv' in H. lia.
  - assert (Hin' : In s (map snd rest)).
    { cbn [map snd] in Hin. destruct Hin as [E | H]; [congruence | exact H]. }
    destruct (releasable this c b0 script) eqn:R.
    + pose proof (reactivateScript_running b0 b script Hrun) as Hrun1.
      destruct (IH (reactivateScript script b) Hrun1 Hv' Hin') as (Hout & n & Hn & Hc & Hp).
      split; [exact Hout|]. exists n. split.
      * pose proof (reactivateScript_frame script b) as F. cbv zeta in F. lia.
      * split; [exact Hc|]. intros i Hi. apply Hp.
        unfold reactivateScript. destruct (nth_error (heap b) script); [|exact Hi].
        cbn [attached publish set_emitted set_attached set_heap].
        apply replace_node_other; [exact Hi | congruence].
    + exact (IH b Hrun Hv' Hin').
Qed.

Lemma type_clone (resolve : string -> string) (el : Script.t) :
  Script.type (clone_for_execution resolve el)
  = JS.or_default (Script.getAttribute "data-original-type" el) "text/javascript".
Proof.
  unfold clone_for_execution. cbv zeta.
  unfold Script.type, Script.getAttribute, Script.set_type, Script.setAttribute,
    Script.set_textContent.
  destruct (negb _); cbn [Script.attributes].
  - rewrite get_set_other by discriminate. now rewrite get_set_same.
  - now rewrite get_set_same.
Qed.

Lemma content_clone (resolve : string -> string) (el : Script.t) :
  (Script.src resolve el <> EmptyString ->
   Script.getAttribute "src" (clone_for_execution resolve el)
   = Some (Script.src resolve el))
  /\ (Script.src resolve el = EmptyString ->
      Script.textContent (clone_for_execution resolve el) = Script.textContent el).
Proof.
  unfold clone_for_execution. cbv zeta. split; intros H.
  - destruct (String.eqb_spec (Script.src resolve el) EmptyString); [contradiction|].
    cbn [negb]. unfold Script.getAttribute, Script.setAttribute.
    cbn [Script.attributes]. apply get_set_same.
  - rewrite H. reflexivity.
Qed.

End GateFacts.

Module GateClaims.
Import ScriptBlocker JSFacts GateProps GateFacts.

(** C1, counterexample: on a page whose only script carries the bare
    marker, engaging the gate withholds nothing and leaves the element
    as it was, so the claim as worded fails. *)
Lemma C1_unclassified_not_withheld :
  (let st := init (new CategoryManager.new, Examples.page [Examples.unclassified]) in
   blockedScripts (fst st) = []
   /\ nth_error (heap (snd st)) 0 = Some Examples.unclassified)
  /\ ~ unclassified_is_withheld.
Proof.
  split; [split; reflexivity|].
  intros H.
  specialize (H (new CategoryManager.new, Examples.page [Examples.unclassified])
                0 Examples.unclassified eq_refl eq_refl eq_refl).
  exact H.
Qed.

(** C1, amended: a script whose category resolves to null is left
    untouched by [processScript] (it is not put in the withheld-set and
    its type is not rewritten), and no [unblock] call, whatever the
    categories, removes or reactivates an entry of the withheld-set
    whose category resolves to null. *)
Theorem C1_unclassified_never_gated_never_released
  (this : t) (b : Browser) (script : nat) (el : Script.t)
  (categories : ConsentCategories) :
  nth_error (heap b) script = Some el ->
  CategoryManager.getCategoryForScript (categoryManager this) (resolveURL b) el
  = None ->
  processScript script (this, b) = (this, b)
  /\ (refs_valid (blockedScripts this) b ->
      forall id, In (id, script) (blockedScripts this) ->
            let st1 := unblock categories (this, b) in
            In (id, script) (blockedScripts (fst st1))
            /\ nth_error (heap (snd st1)) script = Some el
            /\ (In script (attached b) -> In script (attached (snd st1)))).
Proof.
  intros Hel Hcat. split.
  - apply processScript_settled. unfold blockable. cbn [fst snd].
    now rewrite Hel, Hcat.
  - intros Hv id Hin.
    assert (Hrel : releasable this categories b script = false).
    { unfold releasable, category_of. now rewrite Hel, Hcat. }
    destruct (unblock_keeps this categories b id script Hv Hin Hrel)
      as (H1 & H2 & H3).
    cbv zeta. rewrite H2. auto.
Qed.

(** C5, failing input: a page that includes the same analytics script
    twice.  Engaging the gate withholds both elements, but the set is
    keyed by the source and keeps one entry, which names the second.
    The release with analytics granted puts an executable clone in the
    place of the second; the first stays in the document with the
    withheld type, the set is empty, and a second release changes
    nothing: a withheld script classified analytics is never
    reactivated. *)
Theorem C5_shadowed_copy_is_not_released :
  let st := init (new CategoryManager.new,
                  Examples.page [Examples.ga; Examples.ga]) in
  let st1 := unblock Examples.analytics_only st in
  (attached (snd st) = [0; 1]
   /\ option_map Script.type (nth_error (heap (snd st)) 0) = Some "text/plain"
   /\ option_map Script.type (nth_error (heap (snd st)) 1) = Some "text/plain"
   /\ category_of (fst st) (snd st) 0 = Some "analytics"
   /\ category_of (fst st) (snd st) 1 = Some "analytics"
   /\ blockedScripts (fst st)
      = [("https://www.google-analytics.com/analytics.js", 1)])
  /\ attached (snd st1) = [0; 2]
  /\ option_map Script.type (nth_error (heap (snd st1)) 0) = Some "text/plain"
  /\ category_of (fst st1) (snd st1) 0 = Some "analytics"
  /\ option_map Script.type (nth_error (heap (snd st1)) 2) = Some "text/javascript"
  /\ blockedScripts (fst st1) = []
  /\ unblock Examples.analytics_only st1 = st1.
Proof. cbv zeta. repeat split; vm_compute; reflexivity. Qed.

(** C10: withholding is idempotent.  [processScript] skips a script
    whose type is already the withheld type; a second [processScript]
    on the same script, a second pass over the document and a second
    [block] change nothing; [processScript] never stores the withheld
    type as a recorded original type; and in every reachable state each
    entry of the withheld-set carries the withheld type and remembers a
    type other than the withheld one. *)
Theorem C10_withholding_is_idempotent (st : t * Browser) (script : nat) :
  (forall el, nth_error (heap (snd st)) script = Some el ->
         Script.type el = "text/plain" ->
         processScript script st = st)
  /\ processScript script (processScript script st) = processScript script st
  /\ blockExistingScripts (blockExistingScripts st) = blockExistingScripts st
  /\ block (block st) = block st
  /\ (forall r el',
         nth_error (heap (snd (processScript script st))) r = Some el' ->
         Script.getAttribute "data-original-type" el' = Some "text/plain" ->
         nth_error (heap (snd st)) r = Some el')
  /\ (reachable st -> withheld_ok st).
Proof.
  repeat split.
  - intros el Hel Hty. apply processScript_settled.
    unfold blockable. rewrite Hel, Hty.
    destruct (CategoryManager.getCategoryForScript _ _ el); [|reflexivity].
    apply andb_false_r.
  - apply processScript_idempotent.
  - apply blockExistingScripts_idempotent.
  - apply block_idempotent.
  - intros r el'. apply processScript_never_records_withheld_type.
  - apply reachable_withheld_ok.
Qed.

(** C1, witness: a withheld script whose category has become null is
    skipped by [processScript] and survives an accept-all release. *)
Lemma C1_emptied_script_stays_withheld :
  processScript 0 (Examples.gate_holding_emptied, Examples.page [Examples.emptied])
  = (Examples.gate_holding_emptied, Examples.page [Examples.emptied])
  /\ In ("inline-1706702400000-0.1", 0)
       (blockedScripts
          (fst (unblock Examples.accept_all
                  (Examples.gate_holding_emptied,
                   Examples.page [Examples.emptied])))).
Proof.
  destruct (C1_unclassified_never_gated_never_released
              Examples.gate_holding_emptied (Examples.page [Examples.emptied])
              0 Examples.emptied Examples.accept_all eq_refl eq_refl)
    as [Hskip Hkeep].
  split; [exact Hskip|].
  apply Hkeep.
  - intros id script [[= _ <-] | []]. vm_compute. lia.
  - now left.
Defined.

(** C10, witness: after the gate is engaged on a page with two marked
    scripts, each entry of the withheld-set remembers a type other than
    the withheld one, and processing the first script again changes
    nothing. *)
Lemma C10_engaged_page_is_settled :
  let st := init (new CategoryManager.new,
                  Examples.page [Examples.ga; Examples.pixel]) in
  reachable st
  /\ withheld_ok st
  /\ processScript 0 (processScript 0 st) = processScript 0 st.
Proof.
  intros st.
  assert (Hreach : reachable st).
  { apply (reach_step (new CategoryManager.new,
                       Examples.page [Examples.ga; Examples.pixel]));
      [apply reach_new | apply step_init]. }
  destruct (C10_withholding_is_idempotent st 0)
    as (_ & Hidem & _ & _ & _ & Hok).
  split; [exact Hreach|]. split; [exact (Hok Hreach) | exact Hidem].
Defined.

End GateClaims.

(** ** The notification bus *)

Module EventEmitterFacts.
Import EventEmitter JSFacts BusProps.

(** *** Sets *)

Lemma set_has_members (fn : nat) (s : SetData) :
  set_has fn s = true <-> In fn (members s).
Proof.
  unfold set_has. induction s as [|[f|] s IH]; cbn [existsb members In].
  - split; [discriminate | tauto].
  - rewrite orb_true_iff, IH, Nat.eqb_eq. tauto.
  - cbn [orb]. exact IH.
Qed.

Lemma members_app (s s' : SetData) :
  members (s ++ s')%list = (members s ++ members s')%list.
Proof.
  induction s as [|[f|] s IH]; cbn [app members]; [reflexivity | | exact IH].
  now rewrite IH.
Qed.

Lemma members_set_add_new (fn : nat) (s : SetData) :
  ~ In fn (members s) -> members (set_add fn s) = (members s ++ [fn])%list.
Proof.
  intros H. unfold set_add. destruct (set_has fn s) eqn:E.
  - apply set_has_members in E. contradiction.
  - now rewrite members_app.
Qed.


Lemma members_set_delete (fn : nat) (s : SetData) :
  members (set_delete fn s)
  = filter (fun f => negb (Nat.eqb f fn)) (members s).
Proof.
  unfold set_delete. induction s as [|[f|] s IH]; cbn [map members filter];
    [reflexivity | | exact IH].
  destruct (Nat.eqb f fn); cbn [negb members]; now rewrite IH.
Qed.

Lemma filter_absent (fn : nat) (l : list nat) :
  ~ In fn l -> filter (fun f => negb (Nat.eqb f fn)) l = l.
Proof.
  induction l as [|f l IH]; cbn [filter In]; [reflexivity|].
  intros H. destruct (Nat.eqb_spec f fn) as [-> | _]; cbn [negb]; [tauto|].
  f_equal. apply IH. tauto.
Qed.



(** *** The Sets of an emitter *)

Lemma nth_store_same {A : Type} (n : nat) (x d : A) (l : list A) :
  n < List.length l -> nth n (store n x l) d = x.
Proof.
  revert n. induction l as [|y l IH]; intros n H; cbn in H; [lia|].
  destruct n as [|n]; cbn [store nth]; [reflexivity|]. apply IH. lia.
Qed.

Lemma nth_store_other {A : Type} (n m : nat) (x d : A) (l : list A) :
  n <> m -> nth m (store n x l) d = nth m l d.
Proof.
  revert n m. induction l as [|y l IH]; intros n m H; [now destruct n|].
  destruct n as [|n], m as [|m]; cbn [store nth]; try reflexivity; try lia.
  apply IH. lia.
Qed.

Lemma length_store {A : Type} (n : nat) (x : A) (l : list A) :
  List.length (store n x l) = List.length l.
Proof.
  revert n. induction l as [|y l IH]; intros n; [now destruct n|].
  destruct n as [|n]; cbn [store List.length]; [reflexivity|]. now rewrite IH.
Qed.

Lemma the_set_write_same (set : nat) (s : SetData) (this : t) :
  set < List.length (sets this) -> the_set set (write_set set s this) = s.
Proof. intros H. now apply nth_store_same. Qed.

Lemma the_set_write_other (set set' : nat) (s : SetData) (this : t) :
  set <> set' -> the_set set' (write_set set s this) = the_set set' this.
Proof. intros H. now apply nth_store_other. Qed.

Lemma the_set_beyond (set : nat) (this : t) :
  List.length (sets this) <= set -> the_set set this = [].
Proof. intros H. now apply nth_overflow. Qed.

(** *** The emitters a program can build *)

Lemma get_on (e e' : string) (fn : nat) (this : t) :
  JS.get e (events (on e' fn this))
  = if String.eqb e' e
    then Some (match JS.get e (events this) with
               | Some set => set
               | None => List.length (sets this)
               end)
    else JS.get e (events this).
Proof.
  unfold on, JS.hasOwn.
  destruct (JS.get e' (events this)) as [set|] eqn:E; cbn [negb].
  - rewrite E. cbn [write_set events].
    destruct (String.eqb_spec e' e) as [<- | _]; [now rewrite E | reflexivity].
  - cbn [events]. rewrite get_set_same. cbn [write_set events].
    rewrite get_set. destruct (String.eqb_spec e' e) as [<- | _]; [|reflexivity].
    now rewrite E.
Qed.

Lemma get_off (e e' : string) (fn : nat) (this : t) :
  JS.get e (events (off e' fn this)) = JS.get e (events this).
Proof. unfold off. now destruct (JS.get e' (events this)). Qed.

Lemma get_clearEvent (e e' : string) (this : t) :
  JS.get e (events (clearEvent e' this))
  = if String.eqb e' e then None else JS.get e (events this).
Proof.
  unfold clearEvent. cbn [events].
  destruct (String.eqb_spec e' e) as [<- | Hne].
  - apply get_filter_same.
  - apply get_filter_other. congruence.
Qed.



(** The Set [set] after [on(e, fn)]: the Set of [e] has [fn] added, a
    Set made for [e] holds [fn] alone, another Set is as it was. *)
Lemma the_set_on (e : string) (fn set : nat) (this : t) :
  refs_ok this ->
  the_set set (on e fn this)
  = match JS.get e (events this) with
    | Some set' =>
        if Nat.eqb set' set then set_add fn (the_set set this)
        else the_set set this
    | None =>
        if Nat.eqb (List.length (sets this)) set then [Some fn]
        else the_set set this
    end.
Proof.
  intros Hr. unfold on, JS.hasOwn.
  destruct (JS.get e (events this)) as [set'|] eqn:E; cbn [negb].
  - rewrite E. destruct (Nat.eqb_spec set' set) as [<- | Hne].
    + apply the_set_write_same. now apply (Hr e).
    + now apply the_set_write_other.
  - cbn [events]. rewrite get_set_same.
    destruct (Nat.eqb_spec (List.length (sets this)) set) as [<- | Hne].
    + rewrite the_set_write_same by (cbn [sets]; rewrite length_app; cbn; lia).
      unfold the_set at 1. cbn [sets]. rewrite app_nth2 by lia.
      now rewrite Nat.sub_diag.
    + rewrite the_set_write_other by assumption.
      unfold the_set. cbn [sets].
      destruct (Nat.lt_ge_cases set (List.length (sets this))).
      * now apply app_nth1.
      * rewrite !nth_overflow; [reflexivity | lia | rewrite length_app; cbn; lia].
Qed.

Lemma the_set_off (e : string) (fn set : nat) (this : t) :
  the_set set (off e fn this)
  = match JS.get e (events this) with
    | Some set' =>
        if Nat.eqb set' set then set_delete fn (the_set set this)
        else the_set set this
    | None => the_set set this
    end.
Proof.
  unfold off. destruct (JS.get e (events this)) as [set'|]; [|reflexivity].
  destruct (Nat.eqb_spec set' set) as [<- | Hne].
  - destruct (Nat.lt_ge_cases set' (List.length (sets this))).
    + now apply the_set_write_same.
    + rewrite (the_set_beyond set' this) by assumption.
      apply the_set_beyond. cbn [write_set sets]. now rewrite length_store.
  - now apply the_set_write_other.
Qed.


(** *** Subscribers *)



Lemma handlers_on_other (e e' : string) (fn : nat) (this : t) :
  refs_ok this -> refs_distinct this ->
  e' <> e ->
  handlers e (on e' fn this) = handlers e this.
Proof.
  intros Hr Hd Hne. unfold handlers. rewrite get_on.
  destruct (String.eqb_spec e' e) as [-> | _]; [congruence|].
  destruct (JS.get e (events this)) as [set|] eqn:E; [|reflexivity].
  rewrite the_set_on by assumption.
  destruct (JS.get e' (events this)) as [set'|] eqn:E'.
  - destruct (Nat.eqb_spec set' set) as [-> | _]; [|reflexivity].
    exfalso. apply Hne. now apply (Hd e' e set).
  - destruct (Nat.eqb_spec (List.length (sets this)) set) as [<- | _];
      [|reflexivity].
    apply Hr in E. lia.
Qed.



Lemma handlers_clearEvent (e e' : string) (this : t) :
  handlers e (clearEvent e' this)
  = if String.eqb e' e then [] else handlers e this.
Proof.
  unfold handlers. rewrite get_clearEvent.
  now destruct (String.eqb e' e).
Qed.

Lemma handlers_clear (e : string) (this : t) : handlers e (clear this) = [].
Proof. reflexivity. Qed.


(** *** The loop of [emit] *)

Section Loop.
Context {Data W : Type}.
Variable code : nat -> Data -> EventEmitter.t * W
                -> result unit * (EventEmitter.t * W).
Implicit Types (w : world Data W) (data : Data).

(** The body of the loop never throws: it leaves the world
    [delivered]. *)
Lemma guarded_delivered (event : string) (fn : nat) data w :
  guarded code event fn data w = (Ok tt, delivered code event data w fn).
Proof.
  unfold guarded, invoke, delivered, try_catch.
  destruct (code fn data (bus w, user w)) as [[[]|e] [b u]]; reflexivity.
Qed.

Lemma the_set_delivered (event : string) data w (fn set : nat) :
  the_set set (bus (delivered code event data w fn))
  = the_set set (fst (snd (code fn data (bus w, user w)))).
Proof. reflexivity. Qed.

Lemma deliver_app (event : string) data (fns fns' : list nat) w :
  deliver code event data (fns ++ fns')%list w
  = deliver code event data fns' (deliver code event data fns w).
Proof. apply fold_left_app. Qed.



(** A loop over a Set that no call changes goes through its slots
    once, from first to last. *)
Lemma forEach_fixed_set (event : string) data (set : nat) (s : SetData) :
  (forall fn this u,
      In fn (members s) ->
      the_set set (fst (snd (code fn data (this, u)))) = the_set set this) ->
  forall fuel index w,
    the_set set (bus w) = s ->
    List.length s - index < fuel ->
    forEach fuel (fun fn => guarded code event fn data) set index w
    = Some (Ok tt, deliver code event data (members (skipn index s)) w).
Proof.
  intros Hfix.
  induction fuel as [|fuel IH]; intros index w Hs Hfuel; [lia|].
  cbn [forEach]. rewrite Hs.
  destruct (nth_error s index) as [slot|] eqn:E.
  - assert (Hlt : index < List.length s)
      by (apply nth_error_Some; congruence).
    assert (Hskip : skipn index s = slot :: skipn (S index) s).
    { clear -E. revert index E. induction s as [|x s IH]; intros [|i] E;
        cbn in E; try discriminate.
      - now injection E as ->.
      - cbn [skipn]. now apply IH. }
    rewrite Hskip. destruct slot as [fn|]; cbn [members].
    + rewrite guarded_delivered. cbn [deliver fold_left].
      assert (Hin : In fn (members s)).
      { rewrite <- (firstn_skipn index s), Hskip, members_app.
        apply in_or_app. right. now left. }
      apply IH; [|lia].
      rewrite the_set_delivered, Hfix by assumption. exact Hs.
    + apply IH; [exact Hs | lia].
  - apply nth_error_None in E. now rewrite skipn_all2.
Qed.

Lemma emit_undisturbed (event : string) data w (fuel : nat) :
  undisturbed code event data (bus w) (handlers event (bus w)) ->
  slots event (bus w) < fuel ->
  emit code fuel event data w
  = Some (Ok tt, deliver code event data (handlers event (bus w)) w).
Proof.
  unfold undisturbed, emit, handlers, slots.
  destruct (JS.get event (events (bus w))) as [set|]; intros Hu Hfuel;
    [|reflexivity].
  rewrite (forEach_fixed_set event data set (the_set set (bus w)));
    [reflexivity | | reflexivity | lia].
  intros fn this u Hin. now apply Hu.
Qed.


Lemma detached_undisturbed (event : string) data (this : EventEmitter.t)
  (fns : list nat) :
  detached code -> undisturbed code event data this fns.
Proof.
  intros Hd set fn this' u _ _. now rewrite Hd.
Qed.

(** Functions that leave the emitter alone leave it as it was, and do
    to the page what they do whatever the emitter is. *)
Lemma bus_deliver_detached (event : string) data (fns : list nat) w :
  detached code -> bus (deliver code event data fns w) = bus w.
Proof.
  intros Hd. revert w. induction fns as [|fn fns IH]; intros w;
    cbn [deliver fold_left]; [reflexivity|].
  change (fold_left (delivered code event data) fns ?x)
    with (deliver code event data fns x).
  rewrite IH. unfold delivered. cbn [bus]. now rewrite Hd.
Qed.

Lemma deliver_with_bus (event : string) data (fns : list nat)
  (this : EventEmitter.t) w :
  detached code ->
  deliver code event data fns (with_bus this w)
  = with_bus this (deliver code event data fns w).
Proof.
  intros Hd. revert w. induction fns as [|fn fns IH]; intros w;
    cbn [deliver fold_left]; [reflexivity|].
  change (fold_left (delivered code event data) fns ?x)
    with (deliver code event data fns x).
  rewrite <- IH. f_equal.
  unfold delivered, with_bus. cbn [bus user errors calls].
  rewrite (Hd fn data this), (Hd fn data (bus w)). reflexivity.
Qed.

End Loop.

End EventEmitterFacts.

Module BusClaims.
Import EventEmitter EventEmitterFacts BusProps.




End BusClaims.

(** ** The record store *)

Module StorageFacts.
Import StorageManager JSFacts JSONProps JSONFacts.

Lemma validateSchema_record (r : ConsentRecord) :
  validateSchema (record_to_json r) = true.
Proof. reflexivity. Qed.

Lemma stringify_record_nonempty (r : ConsentRecord) :
  String.eqb (JSON.stringify (record_to_json r)) EmptyString = false.
Proof.
  destruct (stringify_record_length r) as (n & H).
  destruct (JSON.stringify (record_to_json r)); [discriminate | reflexivity].
Qed.

Lemma setItem_getItem (key value : string) (s s' : Storage.t) :
  Storage.setItem key value s = Ok s' ->
  Storage.getItem key s' = Ok (Some value).
Proof.
  unfold Storage.setItem.
  destruct (Storage.denied s) eqn:D; [discriminate|].
  destruct (Nat.ltb _ _); [discriminate|].
  intros [= <-]. unfold Storage.getItem.
  cbn [Storage.denied Storage.items]. now rewrite get_set_same.
Qed.

(** What [load] returns when the storage holds the text of a record. *)
Lemma load_stored_record (r : ConsentRecord) (b : Browser) :
  wf_record r ->
  Storage.getItem STORAGE_KEY (localStorage b)
  = Ok (Some (JSON.stringify (record_to_json r))) ->
  load b = (Ok (Some (record_to_json r)), b).
Proof.
  intros Hwf Hget. unfold load, load_body, try_catch. rewrite Hget.
  rewrite stringify_record_nonempty.
  rewrite (parse_stringify_record r Hwf).
  rewrite validateSchema_record. reflexivity.
Qed.

Lemma save_never_throws (r : ConsentRecord) (b : Browser) :
  fst (save r b) = Ok tt.
Proof.
  unfold save, try_catch. destruct (Storage.setItem _ _ _); reflexivity.
Qed.

Lemma load_never_throws (b : Browser) : exists v, fst (load b) = Ok v.
Proof.
  unfold load, try_catch.
  destruct (load_body b) as [[v|e] b']; eexists; reflexivity.
Qed.

Lemma first_record_wf : wf_record Examples.first_record.
Proof. repeat constructor; cbn; intuition discriminate. Qed.

End StorageFacts.

Module StoreClaims.
Import StorageManager JSFacts JSONProps JSONFacts StorageFacts.

(** C7: when the write to storage succeeds, [load] after [save] returns
    the saved record, value for value. *)
Theorem C7_load_after_save_returns_the_record (r : ConsentRecord) (b : Browser) :
  wf_record r ->
  (exists s, Storage.setItem STORAGE_KEY (JSON.stringify (record_to_json r))
               (localStorage b) = Ok s) ->
  fst (load (snd (save r b))) = Ok (Some (record_to_json r)).
Proof.
  intros Hwf [s Hset]. unfold save, try_catch. rewrite Hset. cbn [snd].
  rewrite (load_stored_record r); [reflexivity | exact Hwf |].
  cbn [localStorage set_localStorage]. now apply (setItem_getItem _ _ (localStorage b)).
Qed.

(** C8: neither [save] nor [load] lets an exception out.  [save]
    answers normally whatever the storage does, and a failed write is
    logged and leaves the storage as it was; [load] answers [null] or a
    value that passes the shape check, whatever is stored: [null] when
    reading the storage fails and when nothing (or the empty text) is
    stored and, for a stored text in the scope of the parser, when the
    text does not parse or the parsed value fails the shape check;
    otherwise the parsed value. *)
Theorem C8_save_and_load_never_throw :
  (forall r b, fst (save r b) = Ok tt)
  /\ (forall r b e,
         Storage.setItem STORAGE_KEY (JSON.stringify (record_to_json r))
           (localStorage b) = Throw e ->
         save r b = (Ok tt, console_error "Failed to save consent:" e b))
  /\ (forall b,
         fst (load b) = Ok None
         \/ exists parsed,
              fst (load b) = Ok (Some parsed) /\ validateSchema parsed = true)
  /\ (forall b,
         match Storage.getItem STORAGE_KEY (localStorage b) with
         | Throw _ => fst (load b) = Ok None
         | Ok None => fst (load b) = Ok None
         | Ok (Some data) =>
             JSON.in_scope data = true ->
             match JSON.parse data with
             | None => fst (load b) = Ok None
             | Some parsed =>
                 fst (load b)
                 = Ok (if validateSchema parsed then Some parsed else None)
             end
         end).
Proof.
  split; [exact save_never_throws|].
  split; [intros r b e H; unfold save, try_catch; now rewrite H|].
  split.
  - intros b. unfold load, load_body, try_catch.
    destruct (Storage.getItem STORAGE_KEY (localStorage b)) as [[data|]|e];
      auto.
    destruct (String.eqb data EmptyString); auto.
    destruct (JSON.parse data) as [parsed|]; auto.
    destruct (validateSchema parsed) eqn:E; cbn [negb migrate fst]; eauto.
  - intros b. unfold load, load_body, try_catch.
    destruct (Storage.getItem STORAGE_KEY (localStorage b)) as [[data|]|e];
      try reflexivity.
    intros _.
    destruct (String.eqb_spec data EmptyString) as [-> | Hne].
    + reflexivity.
    + destruct (JSON.parse data) as [parsed|]; [|reflexivity].
      destruct (validateSchema parsed); reflexivity.
Qed.

(** C7, witness: the record of a visit that accepted analytics only,
    saved into an empty storage with room for it, is loaded back. *)
Lemma C7_first_record_round_trips :
  wf_record Examples.first_record
  /\ (exists s, Storage.setItem STORAGE_KEY
                  (JSON.stringify (record_to_json Examples.first_record))
                  (localStorage (Examples.page [])) = Ok s)
  /\ fst (load (snd (save Examples.first_record (Examples.page []))))
     = Ok (Some (record_to_json Examples.first_record)).
Proof.
  assert (Hset : exists s, Storage.setItem STORAGE_KEY
                   (JSON.stringify (record_to_json Examples.first_record))
                   (localStorage (Examples.page [])) = Ok s)
    by (eexists; vm_compute; reflexivity).
  split; [exact first_record_wf|]. split; [exact Hset|].
  exact (C7_load_after_save_returns_the_record Examples.first_record
           (Examples.page []) first_record_wf Hset).
Defined.

(** C8, witness: saving into a full storage is logged and swallowed,
    and loading text that is no JSON answers [null]. *)
Lemma C8_full_storage_and_garbage :
  let full := set_localStorage Examples.full_storage (Examples.page []) in
  let garbage := set_localStorage Examples.garbage_storage (Examples.page []) in
  save Examples.first_record full
  = (Ok tt,
     console_error "Failed to save consent:"
       (DOMException "QuotaExceededError") full)
  /\ fst (load garbage) = Ok None.
Proof.
  intros full garbage.
  destruct C8_save_and_load_never_throw as (_ & Hquota & _ & Hload).
  split.
  - apply Hquota. vm_compute. reflexivity.
  - exact (Hload garbage eq_refl).
Defined.

End StoreClaims.

(** ** The consent evaluator *)

Module EvaluatorFacts.
Import ConsentManager.

Lemma validateConsent_needs_necessary (this : t) (categories : ConsentCategories) :
  JS.get "necessary" categories <> Some true ->
  validateConsent this categories = false.
Proof.
  intros H. unfold validateConsent, truthy.
  destruct (JS.get "necessary" categories) as [[]|]; try reflexivity.
  congruence.
Qed.

(** A key that is neither an own property of the policy's category
    object nor a name inherited from [Object.prototype] is rejected. *)
Lemma validateConsent_rejects_unknown_key (this : t)
  (categories : ConsentCategories) (key : string) :
  In key (JS.keys categories) ->
  JS.hasOwn key (config_categories (config this)) = false ->
  JS.inherited key = false ->
  validateConsent this categories = false.
Proof.
  intros Hin Hown Hinh. unfold validateConsent.
  destruct (negb _); [reflexivity|].
  destruct (forallb _ _) eqn:E; [|reflexivity].
  rewrite forallb_forall in E. specialize (E key Hin).
  unfold JS.has_property in E. now rewrite Hown, Hinh in E.
Qed.

End EvaluatorFacts.

Module EvaluatorClaims.
Import EvaluatorProps EvaluatorFacts.

Lemma set_consentManager_same (app : CookieConsent.t) :
  CookieConsent.set_consentManager (CookieConsent.consentManager app) app = app.
Proof. now destruct app. Qed.

(** C3: a decision whose [necessary] is false or absent fails
    validation, submitting it raises the invalid-consent error, and the
    failed call changes nothing: the consent manager, the orchestrator
    and the browser (its storage included) are as before. *)
Theorem C3_invalid_decision_is_rejected_and_not_persisted
  (app : CookieConsent.t) (b : Browser) (categories : ConsentCategories) :
  JS.get "necessary" categories <> Some true ->
  ConsentManager.validateConsent (CookieConsent.consentManager app) categories
  = false
  /\ ConsentManager.updateConsent categories b (CookieConsent.consentManager app)
     = (Throw ConsentManager.InvalidConsentError, CookieConsent.consentManager app)
  /\ CookieConsent.updateConsent categories (app, b)
     = (Throw ConsentManager.InvalidConsentError, (app, b)).
Proof.
  intros H.
  pose proof (validateConsent_needs_necessary
                (CookieConsent.consentManager app) categories H) as Hv.
  assert (Hu : ConsentManager.updateConsent categories b
                 (CookieConsent.consentManager app)
               = (Throw ConsentManager.InvalidConsentError,
                  CookieConsent.consentManager app)).
  { unfold ConsentManager.updateConsent. now rewrite Hv. }
  repeat split; [exact Hv | exact Hu |].
  unfold CookieConsent.updateConsent. rewrite Hu.
  now rewrite set_consentManager_same.
Qed.

(** C3, witness: a decision that refuses the necessary category is
    thrown back and leaves the orchestrator and the browser untouched. *)
Lemma C3_refusing_necessary_is_rejected :
  JS.get "necessary" [ ("necessary", false); ("analytics", true) ] <> Some true
  /\ CookieConsent.updateConsent [ ("necessary", false); ("analytics", true) ]
       (CookieConsent.new (Examples.policy 1), Examples.page [])
     = (Throw ConsentManager.InvalidConsentError,
        (CookieConsent.new (Examples.policy 1), Examples.page [])).
Proof.
  assert (H : JS.get "necessary" [ ("necessary", false); ("analytics", true) ]
              <> Some true) by discriminate.
  split; [exact H|].
  exact (proj2 (proj2 (C3_invalid_decision_is_rejected_and_not_persisted
                         (CookieConsent.new (Examples.policy 1))
                         (Examples.page [])
                         [ ("necessary", false); ("analytics", true) ] H))).
Defined.

(** C6, failing input: [toString] is no category of the policy, yet
    the [in] test finds it on the prototype chain of the policy's
    category object, validation succeeds and the decision, key
    included, is written to storage. *)
Theorem C6_inherited_key_passes_validation :
  let app := CookieConsent.new (Examples.policy 1) in
  let b := Examples.page [] in
  In "toString" (JS.keys decision_with_inherited_key)
  /\ JS.hasOwn "toString" (config_categories (CookieConsent.config app)) = false
  /\ ConsentManager.validateConsent (CookieConsent.consentManager app)
       decision_with_inherited_key = true
  /\ exists stored,
      fst (StorageManager.load
             (snd (snd (CookieConsent.updateConsent
                          decision_with_inherited_key (app, b)))))
      = Ok (Some stored)
      /\ JSON.get_property "categories" stored
         = Some (categories_to_json decision_with_inherited_key).
Proof.
  cbv zeta. repeat split.
  - cbn. tauto.
  - eexists. split; vm_compute; reflexivity.
Qed.

End EvaluatorClaims.

(** ** Expiry of a record *)

Module ExpiryFacts.
Import Date DateProps DateFacts ExpiryProps.
Open Scope Z_scope.

Lemma Day_shift (t delta : Z) :
  - msPerDay <= delta <= msPerDay -> Day t - 1 <= Day (t + delta) <= Day t + 1.
Proof. unfold Day, msPerDay. lia. Qed.

Lemma YearFromTime_spec (t : Z) :
  DayFromYear (YearFromTime t) <= Day t < DayFromYear (YearFromTime t + 1).
Proof. apply YearFromDay_bounds. Qed.

Lemma year_shift (t delta : Z) :
  - msPerDay <= delta <= msPerDay ->
  YearFromTime t - 1 <= YearFromTime (t + delta) <= YearFromTime t + 1.
Proof.
  intros Hd. pose proof (Day_shift t delta Hd) as Hs.
  pose proof (YearFromTime_spec t) as H1.
  pose proof (YearFromTime_spec (t + delta)) as H2.
  set (y := YearFromTime t) in *. set (y' := YearFromTime (t + delta)) in *.
  pose proof (DayFromYear_succ (y - 1)) as S1.
  replace (y - 1 + 1) with y in S1 by lia.
  pose proof (DayFromYear_succ (y + 1)) as S2.
  destruct (DaysInYear_cases (y - 1)), (DaysInYear_cases (y + 1)).
  all: split.
  all: try (destruct (Z_lt_le_dec y' (y - 1)) as [Hlt|]; [|lia];
            pose proof (DayFromYear_mono (y' + 1) (y - 1) ltac:(lia)); lia).
  all: destruct (Z_lt_le_dec (y + 1) y') as [Hlt|]; [|lia];
       pose proof (DayFromYear_mono (y + 1 + 1) y' ltac:(lia)); lia.
Qed.


End ExpiryFacts.

Module ExpiryClaims.
Import Date DateProps DateFacts ExpiryProps ExpiryFacts.
Open Scope Z_scope.

(** C4: a decision taken on 31 January 2024 at noon, in the zone of
    UTC, expires on 3 March 2025: February 2025 has no day 31 and
    [setMonth] carries the three days over into March.  That is
    thirteen months and three days after the decision, so the expiry is
    not 13 months after the timestamp for every input. *)
Theorem C4_end_of_month_overflows :
  (let r := ConsentManager.createConsentRecord
              (ConsentManager.new (CookieConsent.validateConfig (Examples.policy 1)))
              Examples.analytics_only (Examples.page []) in
   timestamp r = "2024-01-31T12:00:00.000Z"%string
   /\ expiresAt r = "2025-03-03T12:00:00.000Z"%string)
  /\ ~ expiry_is_always_13_months_later.
Proof.
  split; [split; vm_compute; reflexivity|].
  intros H.
  specialize (H (ConsentManager.new (CookieConsent.validateConfig (Examples.policy 1)))
                Examples.analytics_only (Examples.page [])).
  cbv zeta in H. destruct H as (t & e & Ht & He & Hm & _).
  vm_compute in Ht. vm_compute in He.
  injection Ht as <-. injection He as <-.
  vm_compute in Hm. discriminate Hm.
Qed.

End ExpiryClaims.

(** ** Start-up with a stored record *)

Module OrchestratorFacts.
Import ScriptBlocker JSFacts GateProps GateFacts JSONProps JSONFacts StorageFacts.

Lemma set_ticks_same (b : Browser) : set_ticks (ticks b) b = b.
Proof. now destruct b. Qed.

Lemma set_heap_same (b : Browser) : set_heap (heap b) b = b.
Proof. now destruct b. Qed.

(** The gate only rewrites elements and draws random numbers. *)
Lemma processScript_browser (script : nat) (st : t * Browser) :
  exists h n, snd (processScript script st) = set_heap h (set_ticks n (snd st)).
Proof.
  rewrite processScript_unfold.
  assert (Hid : exists h n, snd st = set_heap h (set_ticks n (snd st))).
  { exists (heap (snd st)), (ticks (snd st)).
    now rewrite set_ticks_same, set_heap_same. }
  destruct (blockable script st); [|exact Hid].
  destruct (nth_error (heap (snd st)) script) as [el|]; [|exact Hid].
  unfold generateScriptId. destruct (negb _); cbn [snd].
  - eexists _, (ticks (snd st)). rewrite set_ticks_same. reflexivity.
  - eexists _, _. reflexivity.
Qed.

Lemma pass_browser (scripts : list nat) :
  forall st, exists h n, snd (pass scripts st) = set_heap h (set_ticks n (snd st)).
Proof.
  induction scripts as [|s l IH]; intros st.
  - exists (heap (snd st)), (ticks (snd st)).
    now rewrite set_ticks_same, set_heap_same.
  - change (pass (s :: l) st) with (pass l (processScript s st)).
    destruct (IH (processScript s st)) as (h & n & E).
    destruct (processScript_browser s st) as (h' & n' & E').
    exists h, n. rewrite E, E'. reflexivity.
Qed.

Lemma init_browser (st : t * Browser) :
  exists h n, snd (ScriptBlocker.init st) = set_heap h (set_ticks n (snd st)).
Proof.
  unfold ScriptBlocker.init, observeDOM. cbn [snd].
  rewrite blockExistingScripts_pass. apply pass_browser.
Qed.

End OrchestratorFacts.

Module OrchestratorClaims.
Import JSFacts GateProps GateFacts JSONProps JSONFacts StorageFacts OrchestratorProps OrchestratorFacts.
Open Scope Z_scope.

(** C2, amended: with a well-formed, non-expired record of an older
    revision in storage (revision 1 against policy revision 2 is the
    instance of the scenario), [needsUpdate] answers true and [init]
    does not apply the old decision: it returns normally, leaves the
    gate exactly as engaging left it (nothing released, no approval
    remembered), publishes no [consent:load], and asks again by showing
    the banner, when [autoShow] is on.  [needsConsent], which reads
    only the manager's in-memory record, answers true before and after
    [init], since [init] never fills that record from storage. *)
Theorem C2_stale_record_is_not_applied
  (raw : CookieConsent.RawConfig) (b : Browser) (r : ConsentRecord) :
  wf_record r ->
  version r < revision (CookieConsent.validateConfig raw) ->
  Storage.getItem StorageManager.STORAGE_KEY (localStorage b)
  = Ok (Some (JSON.stringify (record_to_json r))) ->
  StorageManager.isExpired (record_to_json r) b = false ->
  let app := CookieConsent.new raw in
  let out := CookieConsent.init (app, b) in
  let engaged := ScriptBlocker.init (CookieConsent.scriptBlocker app, b) in
  ConsentManager.needsUpdate (CookieConsent.consentManager app) (record_to_json r)
  = true
  /\ ConsentManager.needsConsent (CookieConsent.consentManager app) = true
  /\ ConsentManager.needsConsent (CookieConsent.consentManager (fst (snd out)))
     = true
  /\ fst out = Ok tt
  /\ CookieConsent.scriptBlocker (fst (snd out)) = fst engaged
  /\ ScriptBlocker.currentConsent (CookieConsent.scriptBlocker (fst (snd out)))
     = None
  /\ heap (snd (snd out)) = heap (snd engaged)
  /\ attached (snd (snd out)) = attached (snd engaged)
  /\ CookieConsent.banner (fst (snd out)) = autoShow (CookieConsent.config app)
  /\ emitted (snd (snd out))
     = (emitted b
        ++ (if autoShow (CookieConsent.config app)
            then [("consent:show", NoPayload)] else [])
        ++ [("consent:init", NoPayload)])%list.
Proof.
  intros Hwf Hver Hget Hexp app out engaged.
  assert (Hupd : ConsentManager.needsUpdate (CookieConsent.consentManager app)
                   (record_to_json r) = true).
  { unfold ConsentManager.needsUpdate. cbn. now apply Z.ltb_lt. }
  assert (Hcc : ScriptBlocker.currentConsent (fst engaged) = None).
  { unfold engaged, ScriptBlocker.init, ScriptBlocker.observeDOM. cbn [fst].
    rewrite blockExistingScripts_pass.
    cbn [ScriptBlocker.set_observer ScriptBlocker.currentConsent].
    now rewrite pass_currentConsent. }
  destruct (init_browser (CookieConsent.scriptBlocker app, b)) as (h & n & Eb).
  fold engaged in Eb. cbn [snd] in Eb.
  assert (Eout : out
                 = (Ok tt,
                    (if autoShow (CookieConsent.config app)
                     then CookieConsent.set_banner true
                            (CookieConsent.set_scriptBlocker (fst engaged) app)
                     else CookieConsent.set_scriptBlocker (fst engaged) app,
                     publish "consent:init" NoPayload
                       (if autoShow (CookieConsent.config app)
                        then publish "consent:show" NoPayload
                               (if CookieConsent.gtmIntegration app
                                then GTMConsentMode.setDefaultConsent (snd engaged)
                                else snd engaged)
                        else (if CookieConsent.gtmIntegration app
                              then GTMConsentMode.setDefaultConsent (snd engaged)
                              else snd engaged))))).
  { unfold out, CookieConsent.init. fold engaged.
    destruct engaged as [sb b0] eqn:Eeng. cbn [fst snd] in *.
    change (CookieConsent.gtmIntegration (CookieConsent.set_scriptBlocker sb app))
      with (CookieConsent.gtmIntegration app).
    set (b1 := if CookieConsent.gtmIntegration app
               then GTMConsentMode.setDefaultConsent b0 else b0).
    assert (Hls : localStorage b1 = localStorage b
                  /\ now b1 = now b
                  /\ LocalTZA b1 = LocalTZA b
                  /\ Date_parse_other b1 = Date_parse_other b).
    { unfold b1. rewrite Eb. destruct (CookieConsent.gtmIntegration app);
        repeat split; reflexivity. }
    destruct Hls as (Hls & Hnow & Hzone & Hother).
    rewrite (load_stored_record r b1 Hwf) by (now rewrite Hls).
    assert (Hexp1 : StorageManager.isExpired (record_to_json r) b1 = false).
    { unfold StorageManager.isExpired in *. now rewrite Hnow, Hzone, Hother. }
    rewrite Hexp1.
    change (JSON.truthy (record_to_json r)) with true. cbn [andb negb].
    change (CookieConsent.consentManager (CookieConsent.set_scriptBlocker sb app))
      with (CookieConsent.consentManager app).
    rewrite Hupd.
    change (CookieConsent.config (CookieConsent.set_scriptBlocker sb app))
      with (CookieConsent.config app).
    destruct (autoShow (CookieConsent.config app)); reflexivity. }
  rewrite Eout. cbn [fst snd].
  repeat split; try assumption.
  - destruct (autoShow (CookieConsent.config app)); reflexivity.
  - destruct (autoShow (CookieConsent.config app)); reflexivity.
  - destruct (autoShow (CookieConsent.config app)); exact Hcc.
  - destruct (autoShow (CookieConsent.config app)),
      (CookieConsent.gtmIntegration app); reflexivity.
  - destruct (autoShow (CookieConsent.config app)),
      (CookieConsent.gtmIntegration app); reflexivity.
  - destruct (autoShow (CookieConsent.config app)); reflexivity.
  - rewrite Eb.
    destruct (autoShow (CookieConsent.config app)),
      (CookieConsent.gtmIntegration app);
      cbn [publish emitted set_emitted GTMConsentMode.setDefaultConsent
             GTMConsentMode.push set_dataLayer set_heap set_ticks];
      rewrite <- ?app_assoc; reflexivity.
Qed.

Lemma second_visit_holds_first_record :
  Storage.getItem StorageManager.STORAGE_KEY (localStorage Examples.second_visit)
  = Ok (Some (JSON.stringify (record_to_json Examples.first_record))).
Proof. vm_compute. reflexivity. Qed.

Lemma first_record_not_expired :
  StorageManager.isExpired (record_to_json Examples.first_record) Examples.second_visit = false.
Proof. vm_compute. reflexivity. Qed.

(** C2, counterexample: a visitor accepted under revision 1; on the
    next load the policy is at revision 2.  The stored record is stale,
    and [needsConsent] answers true, not false, after [init]. *)
Lemma C2_needsConsent_is_true_with_stale_record :
  (let out := CookieConsent.init
                (CookieConsent.new (Examples.policy 2), Examples.second_visit) in
   version Examples.first_record = 1
   /\ ConsentManager.needsUpdate
        (CookieConsent.consentManager (fst (snd out)))
        (record_to_json Examples.first_record) = true
   /\ ConsentManager.needsConsent
        (CookieConsent.consentManager (fst (snd out))) = true)
  /\ ~ stale_record_needs_no_consent.
Proof.
  split; [repeat split; vm_compute; reflexivity|].
  intros H.
  destruct (H (Examples.policy 2) Examples.second_visit Examples.first_record
              first_record_wf eq_refl eq_refl
              second_visit_holds_first_record first_record_not_expired)
    as [Hfalse _].
  vm_compute in Hfalse. discriminate Hfalse.
Qed.

(** C2, witness: the same two visits.  The record of revision 1 is not
    applied under revision 2: both scripts stay withheld and the banner
    is shown again. *)
Lemma C2_second_visit_asks_again :
  let out := CookieConsent.init
               (CookieConsent.new (Examples.policy 2), Examples.second_visit) in
  (wf_record Examples.first_record
   /\ version Examples.first_record
      < revision (CookieConsent.validateConfig (Examples.policy 2)))
  /\ fst out = Ok tt
  /\ CookieConsent.banner (fst (snd out)) = true
  /\ emitted (snd (snd out))
     = [ ("consent:show", NoPayload); ("consent:init", NoPayload) ]
  /\ map snd (ScriptBlocker.blockedScripts
                (CookieConsent.scriptBlocker (fst (snd out)))) = [0%nat; 1%nat].
Proof.
  intros out.
  assert (Hver : version Examples.first_record
                 < revision (CookieConsent.validateConfig (Examples.policy 2)))
    by (vm_compute; reflexivity).
  destruct (C2_stale_record_is_not_applied (Examples.policy 2) Examples.second_visit
              Examples.first_record first_record_wf Hver
              second_visit_holds_first_record first_record_not_expired)
    as (_ & _ & _ & Hok & Hgate & _ & _ & _ & Hbanner & Hemitted).
  split; [split; [exact first_record_wf | exact Hver]|].
  split; [exact Hok|]. split; [exact Hbanner|]. split; [exact Hemitted|].
  unfold out. rewrite Hgate. vm_compute. reflexivity.
Defined.

End OrchestratorClaims.

(** ** Subscribing and unsubscribing *)

Module SubscriptionFacts.
Import EventEmitter JSFacts BusProps EventEmitterFacts.

Lemma the_set_write (set set' : nat) (s : SetData) (this : t) :
  the_set set' (write_set set s this)
  = if Nat.eqb set set' && (set <? List.length (sets this))%nat
    then s else the_set set' this.
Proof.
  destruct (Nat.eqb_spec set set') as [<- | Hne]; cbn [andb].
  - destruct (Nat.ltb_spec set (List.length (sets this))).
    + now apply the_set_write_same.
    + rewrite !the_set_beyond; [reflexivity | assumption |].
      cbn [write_set sets]. now rewrite length_store.
  - now apply the_set_write_other.
Qed.

Lemma members_delete_added (fn : nat) (s : SetData) :
  ~ In fn (members s) -> members (set_delete fn (set_add fn s)) = members s.
Proof.
  intros H. rewrite members_set_delete, members_set_add_new by assumption.
  rewrite filter_app. cbn [filter]. rewrite Nat.eqb_refl. cbn [negb].
  rewrite app_nil_r. now apply filter_absent.
Qed.

(** Subscribing a new function and unsubscribing it leaves every Set
    with the members it had. *)
Lemma members_on_off (event : string) (fn set : nat) (this : t) :
  ~ In fn (handlers event this) ->
  members (the_set set (off event fn (on event fn this)))
  = members (the_set set this).
Proof.
  unfold handlers, on, off, JS.hasOwn.
  destruct (JS.get event (events this)) as [s0|] eqn:E; cbn [negb]; intros Hnew.
  - rewrite E. cbn [write_set events]. rewrite E.
    rewrite !the_set_write. cbn [write_set sets]. rewrite length_store.
    rewrite Nat.eqb_refl.
    destruct (Nat.eqb_spec s0 set) as [<- | _]; cbn [andb]; [|reflexivity].
    destruct (Nat.ltb _ _); cbn [andb]; [|reflexivity].
    now apply members_delete_added.
  - cbn [events]. rewrite get_set_same. cbn [write_set events].
    rewrite get_set_same. rewrite !the_set_write.
    cbn [write_set sets]. rewrite !length_store, length_app.
    rewrite Nat.eqb_refl. cbn [List.length andb].
    replace (List.length (sets this) <? List.length (sets this) + 1)%nat with true
      by (symmetry; apply Nat.ltb_lt; lia).
    destruct (Nat.eqb_spec (List.length (sets this)) set) as [<- | Hne];
      cbn [andb].
    + unfold the_set. cbn [sets]. rewrite app_nth2 by lia.
      rewrite Nat.sub_diag. cbn [nth].
      rewrite (nth_overflow (sets this)) by lia.
      unfold set_add. cbn. now rewrite Nat.eqb_refl.
    + unfold the_set. cbn [sets].
      destruct (Nat.lt_ge_cases set (List.length (sets this))).
      * now rewrite app_nth1.
      * rewrite !nth_overflow; [reflexivity | lia | rewrite length_app; cbn; lia].
Qed.

Lemma handlers_on_off (event event' : string) (fn : nat) (this : t) :
  ~ In fn (handlers event this) ->
  handlers event' (off event fn (on event fn this)) = handlers event' this.
Proof.
  intros Hnew. unfold handlers at 1. rewrite get_off, get_on.
  destruct (String.eqb_spec event event') as [<- | _].
  - rewrite members_on_off by assumption. unfold handlers.
    destruct (JS.get event (events this)) as [s0|] eqn:E; [reflexivity|].
    now rewrite the_set_beyond.
  - unfold handlers.
    destruct (JS.get event' (events this)) as [s0|]; [|reflexivity].
    now apply members_on_off.
Qed.

Section Loop.
Context {Data W : Type}.
Variable code : nat -> Data -> EventEmitter.t * W
                -> result unit * (EventEmitter.t * W).
Implicit Types (w : world Data W) (data : Data).

(** With functions that leave the emitter alone, the loop does to the
    page what it does from any other emitter in which the Set is the
    same. *)
Lemma forEach_detached (event : string) data (set set' : nat) :
  detached code ->
  forall fuel index w w',
    the_set set' (bus w') = the_set set (bus w) ->
    user w' = user w -> errors w' = errors w -> calls w' = calls w ->
    outcome (forEach fuel (fun fn => guarded code event fn data) set' index w')
    = outcome (forEach fuel (fun fn => guarded code event fn data) set index w).
Proof.
  intros Hd. induction fuel as [|fuel IH]; intros index w w' Hs Hu He Hc;
    cbn [forEach]; [reflexivity|].
  rewrite Hs.
  destruct (nth_error (the_set set (bus w)) index) as [[fn|]|].
  - rewrite !guarded_delivered. apply IH.
    + unfold delivered. cbn [bus]. now rewrite Hd, (Hd fn data (bus w)).
    + unfold delivered. cbn [user]. rewrite Hd, (Hd fn data (bus w)).
      cbn [snd]. now rewrite Hu.
    + unfold delivered. cbn [errors]. rewrite Hd, (Hd fn data (bus w)).
      cbn [fst]. now rewrite Hu, He.
    + unfold delivered. cbn [calls]. now rewrite Hc.
  - now apply IH.
  - cbn [outcome]. now rewrite Hu, He, Hc.
Qed.

(** With such functions and fuel for the slots of the Set, [emit] ends
    and leaves the emitter as it was. *)
Lemma emit_detached (this : EventEmitter.t) (event : string) data w
  (fuel : nat) :
  detached code ->
  slots event this < fuel ->
  emit code fuel event data (with_bus this w)
  = Some (Ok tt, with_bus this (deliver code event data (handlers event this) w)).
Proof.
  intros Hd Hfuel.
  rewrite emit_undisturbed; cbn [with_bus bus];
    [| now apply detached_undisturbed | assumption].
  now rewrite deliver_with_bus.
Qed.

End Loop.

End SubscriptionFacts.

Module SubscriptionProperties.
Import EventEmitter JSFacts BusProps EventEmitterFacts SubscriptionFacts.


(** X2: subscribing a function that was not subscribed and then
    unsubscribing it leaves an emitter that behaves as before: the
    event has an entry, every event has the subscribers it had, and an
    [emit] of any event (to functions that leave the emitter alone)
    ends with the same calls made, the same exceptions logged and the
    same done to the page. *)
Theorem on_then_off_is_unobservable (this : EventEmitter.t) (event : string)
  (fn : nat) :
  ~ In fn (handlers event this) ->
  let this' := off event fn (on event fn this) in
  JS.hasOwn event (events this') = true
  /\ (forall event', handlers event' this' = handlers event' this)
  /\ (forall (Data W : Type)
        (code : nat -> Data -> EventEmitter.t * W
                -> result unit * (EventEmitter.t * W))
        (event' : string) (data : Data) (w : world Data W) (fuel : nat),
         detached code ->
         slots event' this' < fuel ->
         exists w',
           emit code fuel event' data (with_bus this' w)
           = Some (Ok tt, with_bus this' w')
           /\ emit code fuel event' data (with_bus this w)
              = Some (Ok tt, with_bus this w')).
Proof.
  intros Hnew this'. split; [|split].
  - unfold this', JS.hasOwn. now rewrite get_off, get_on, String.eqb_refl.
  - intros event'. now apply handlers_on_off.
  - intros Data W code event' data w fuel Hd Hfuel.
    exists (deliver code event' data (handlers event' this) w). split.
    + rewrite emit_detached by assumption.
      unfold this'. now rewrite handlers_on_off.
    + apply emit_detached; [assumption|].
      (* the Set of [this] has no more slots than that of [this'] *)
      revert Hfuel. unfold this', slots. rewrite get_off, get_on.
      destruct (JS.get event' (events this)) as [s0|] eqn:E.
      * destruct (String.eqb event event');
          (rewrite the_set_off, get_on, String.eqb_refl;
           unfold on, JS.hasOwn;
           destruct (JS.get event (events this)) as [s1|] eqn:E1; cbn [negb];
           [ rewrite E1;
             destruct (Nat.eqb_spec s1 s0) as [-> | Hne];
             [ unfold set_delete; rewrite length_map, the_set_write;
               rewrite Nat.eqb_refl; cbn [andb];
               destruct (Nat.ltb _ _); [|lia];
               unfold set_add; destruct (set_has _ _); [lia|];
               rewrite length_app; cbn; lia
             | now rewrite the_set_write_other ]
           | cbn [events]; rewrite get_set_same;
             destruct (Nat.eqb_spec (List.length (sets this)) s0) as [<- | Hne];
             [ rewrite (the_set_beyond _ this) by lia; cbn; lia
             | rewrite the_set_write_other by assumption;
               unfold the_set; cbn [sets];
               destruct (Nat.lt_ge_cases s0 (List.length (sets this)));
               [ now rewrite app_nth1
               | rewrite (nth_overflow (sets this)) by lia; cbn; lia ] ] ]).
      * lia.
Qed.

(** X3: [clearEvent(event)] drops every subscriber of the event and no
    other; [clear()] drops all of them.  An [emit] that finds no
    subscriber returns normally and calls nothing; an [emit] of another
    event does after [clearEvent(event)] what it did before (to
    functions that leave the emitter alone); a function subscribed
    after [clear()] is the only subscriber of its event. *)
Theorem clear_drops_subscribers {Data W : Type}
  (code : nat -> Data -> EventEmitter.t * W -> result unit * (EventEmitter.t * W))
  (this : EventEmitter.t) (event : string) (data : Data)
  (w : world Data W) (fuel : nat) :
  emit code fuel event data (with_bus (clearEvent event this) w)
  = Some (Ok tt, with_bus (clearEvent event this) w)
  /\ handlers event (clearEvent event this) = []
  /\ (forall event',
         event' <> event ->
         handlers event' (clearEvent event this) = handlers event' this
         /\ (detached code ->
             outcome (emit code fuel event' data (with_bus (clearEvent event this) w))
             = outcome (emit code fuel event' data (with_bus this w))))
  /\ emit code fuel event data (with_bus (clear this) w)
     = Some (Ok tt, with_bus (clear this) w)
  /\ (forall event', handlers event' (clear this) = [])
  /\ (forall fn, handlers event (on event fn (clear this)) = [fn]).
Proof.
  split; [|split; [|split; [|split; [|split]]]].
  - unfold emit. cbn [with_bus bus]. now rewrite get_clearEvent, String.eqb_refl.
  - now rewrite handlers_clearEvent, String.eqb_refl.
  - intros event' Hne. split.
    + rewrite handlers_clearEvent.
      destruct (String.eqb_spec event event'); [congruence | reflexivity].
    + intros Hd. unfold emit. cbn [with_bus bus]. rewrite get_clearEvent.
      destruct (String.eqb_spec event event'); [congruence|].
      destruct (JS.get event' (events this)) as [set|]; [|reflexivity].
      now apply forEach_detached.
  - reflexivity.
  - intros event'. apply handlers_clear.
  - intros fn. unfold handlers. rewrite get_on, String.eqb_refl.
    rewrite the_set_on by (intros e s H; discriminate H).
    cbn [clear events sets JS.get]. now rewrite Nat.eqb_refl.
Qed.


(** X2, witness: a third function subscribed to the bus of two
    and unsubscribed again: an [emit] does what it did before. *)
Lemma on_then_off_on_the_bus :
  ~ In 3 (handlers "consent:accept" Examples.bus)
  /\ handlers "consent:accept"
       (off "consent:accept" 3 (on "consent:accept" 3 Examples.bus))
     = [1; 2]
  /\ exists w',
       emit Examples.functions 4 "consent:accept" NoPayload
         (with_bus (off "consent:accept" 3 (on "consent:accept" 3 Examples.bus))
            (Examples.quiet Examples.bus))
       = Some (Ok tt,
               with_bus (off "consent:accept" 3 (on "consent:accept" 3 Examples.bus))
                 w')
       /\ emit Examples.functions 4 "consent:accept" NoPayload
            (with_bus Examples.bus (Examples.quiet Examples.bus))
          = Some (Ok tt, with_bus Examples.bus w').
Proof.
  assert (H : ~ In 3 (handlers "consent:accept" Examples.bus)).
  { cbn. intuition discriminate. }
  destruct (on_then_off_is_unobservable Examples.bus "consent:accept" 3 H)
    as (_ & Hh & Hemit).
  split; [exact H|]. split; [exact (Hh "consent:accept")|].
  apply Hemit.
  - intros f data this u. destruct f as [|[|[|f]]]; reflexivity.
  - cbn. lia.
Defined.

End SubscriptionProperties.

(** ** Recording a decision and its validity *)

Module ValidityFacts.
Import Date DateProps DateFacts ExpiryProps ExpiryFacts.
Open Scope Z_scope.








End ValidityFacts.

Module EvaluatorProperties.
Import Date DateProps DateFacts ExpiryProps ExpiryFacts ValidityFacts.
Import ConsentManager.
Open Scope Z_scope.

(** X4: a decision that passes validation is recorded.  [updateConsent]
    returns a record that carries the decision as given, the policy's
    revision, the browser's user agent and the current instant, and
    keeps it as the manager's current consent, after which
    [needsConsent] answers false.  The record needs an update under
    exactly the policies of a higher revision, so never under the
    policy it was made for. *)
Theorem updateConsent_records_the_decision (this : t)
  (decision : ConsentCategories) (b : Browser) :
  validateConsent this decision = true ->
  exists r this',
    updateConsent decision b this = (Ok r, this')
    /\ getCurrentConsent this' = Some r
    /\ needsConsent this' = false
    /\ config this' = config this
    /\ version r = revision (config this)
    /\ categories r = decision
    /\ userAgent r = navigator_userAgent b
    /\ timestamp r = Date.toISOString (now b)
    /\ needsUpdate this' (record_to_json r) = false
    /\ forall other : t,
         needsUpdate other (record_to_json r)
         = (revision (config this) <? revision (config other)).
Proof.
  intros Hv. unfold updateConsent. rewrite Hv. cbn [negb].
  eexists _, _. split; [reflexivity|].
  unfold getCurrentConsent, needsConsent, needsUpdate. cbn.
  repeat split. apply Z.ltb_irrefl.
Qed.


(** X4, witness: the decision that accepts analytics only, under
    the policy at revision 1. *)
Lemma analytics_only_is_recorded :
  let this := CookieConsent.consentManager Scenarios.site in
  ConsentManager.validateConsent this Examples.analytics_only = true
  /\ exists r this',
       ConsentManager.updateConsent Examples.analytics_only (Examples.page []) this
       = (Ok r, this')
       /\ ConsentManager.needsConsent this' = false
       /\ version r = 1
       /\ timestamp r = "2024-01-31T12:00:00.000Z"%string.
Proof.
  cbv zeta.
  assert (H : ConsentManager.validateConsent
                (CookieConsent.consentManager Scenarios.site)
                Examples.analytics_only = true) by reflexivity.
  split; [exact H|].
  destruct (updateConsent_records_the_decision
              (CookieConsent.consentManager Scenarios.site)
              Examples.analytics_only (Examples.page []) H)
    as (r & this' & E & _ & Hn & _ & Hv & _ & _ & Ht & _).
  exists r, this'. repeat split; [exact E | exact Hn | exact Hv |].
  rewrite Ht. vm_compute. reflexivity.
Defined.


End EvaluatorProperties.

(** ** Reading, writing and clearing the stored record *)

Module PersistenceFacts.
Import StorageManager JSFacts JSONProps JSONFacts StorageFacts.

(** [load] leaves the browser as it found it, or with one more line on
    the console. *)
Lemma load_browser (b : Browser) :
  snd (load b) = b
  \/ snd (load b) = console_log "Failed to load consent:" b.
Proof.
  unfold load, load_body, try_catch, console_error.
  destruct (Storage.getItem STORAGE_KEY (localStorage b)) as [[data|]|e];
    cbn [snd]; auto.
  destruct (String.eqb data EmptyString); cbn [snd]; auto.
  destruct (JSON.parse data) as [parsed|]; cbn [snd]; auto.
  destruct (validateSchema parsed); cbn [negb migrate snd]; auto.
Qed.

Lemma save_browser (r : ConsentRecord) (b : Browser) :
  (exists s, Storage.setItem STORAGE_KEY (JSON.stringify (record_to_json r))
               (localStorage b) = Ok s
             /\ snd (save r b) = set_localStorage s b)
  \/ (exists e, Storage.setItem STORAGE_KEY (JSON.stringify (record_to_json r))
                  (localStorage b) = Throw e
                /\ snd (save r b) = console_log "Failed to save consent:" b).
Proof.
  unfold save, try_catch, console_error.
  destruct (Storage.setItem _ _ _) as [s|e]; [left | right]; eauto.
Qed.

(** A value [load] returns has passed the shape check. *)
Lemma load_Some_schema (b : Browser) (v : JSON.value) :
  fst (load b) = Ok (Some v) -> validateSchema v = true.
Proof.
  unfold load, load_body, try_catch.
  destruct (Storage.getItem STORAGE_KEY (localStorage b)) as [[data|]|e];
    cbn [fst]; try discriminate.
  destruct (String.eqb data EmptyString); cbn [fst]; try discriminate.
  destruct (JSON.parse data) as [parsed|]; cbn [fst]; try discriminate.
  destruct (validateSchema parsed) eqn:S; cbn [negb migrate fst]; try discriminate.
  now intros [= <-].
Qed.

Lemma validateSchema_truthy (v : JSON.value) :
  validateSchema v = true -> JSON.truthy v = true.
Proof.
  unfold validateSchema. intros H.
  repeat (apply andb_true_iff in H as [H _]). exact H.
Qed.

End PersistenceFacts.

Module PersistenceProperties.
Import StorageManager JSFacts JSONProps JSONFacts StorageFacts PersistenceFacts.

(** X6: [load] only reads.  Whatever the storage holds, the storage, the
    page and everything else in the browser are the same after [load];
    at most the console has one more line.  It has that line when
    reading the storage throws; it has none when nothing is stored;
    and for a stored text in the scope of the parser it has it exactly
    when the text is not empty and does not parse.  (The branch that
    would write a migrated record back is never taken: [migrate]
    answers [null].) *)
Theorem load_never_writes (b : Browser) :
  localStorage (snd (load b)) = localStorage b
  /\ heap (snd (load b)) = heap b
  /\ attached (snd (load b)) = attached b
  /\ emitted (snd (load b)) = emitted b
  /\ dataLayer (snd (load b)) = dataLayer b
  /\ (snd (load b) = b
      \/ snd (load b) = console_log "Failed to load consent:" b)
  /\ match Storage.getItem STORAGE_KEY (localStorage b) with
     | Throw _ => snd (load b) = console_log "Failed to load consent:" b
     | Ok None => snd (load b) = b
     | Ok (Some data) =>
         (data = EmptyString -> snd (load b) = b)
         /\ (JSON.in_scope data = true ->
             (snd (load b) = console_log "Failed to load consent:" b
              <-> data <> EmptyString /\ JSON.parse data = None))
     end.
Proof.
  pose proof (load_browser b) as H.
  assert (Hne : console_log "Failed to load consent:" b <> b).
  { intros E. apply (f_equal console) in E. cbn in E.
    apply (f_equal (@List.length string)) in E. rewrite length_app in E.
    cbn in E. lia. }
  repeat (split; [try (destruct H as [-> | ->]; reflexivity); try exact H|]).
  unfold load, load_body, try_catch, console_error.
  destruct (Storage.getItem STORAGE_KEY (localStorage b)) as [[data|]|e];
    cbn [snd]; try reflexivity.
  split.
  - intros ->. reflexivity.
  - intros _.
    destruct (String.eqb_spec data EmptyString) as [-> | Hd]; cbn [snd].
    + split; [intros E; now symmetry in E | intros [Hd _]; now contradiction Hd].
    + destruct (JSON.parse data) as [parsed|]; cbn [snd].
      * destruct (validateSchema parsed); cbn [negb migrate snd];
          (split; [intros E; now symmetry in E | intros [_ Hp]; discriminate Hp]).
      * now split.
Qed.

(** X7: [clear] removes the stored record and nothing else.  With an
    accessible storage it returns normally, a [load] that follows
    answers [null], and every other key of the storage keeps its value.
    With a storage that refuses access it throws the storage's
    SecurityError (unlike [save] and [load] it has no [try]) and
    changes nothing. *)
Theorem clear_removes_only_the_record (b : Browser) :
  (Storage.denied (localStorage b) = false ->
   fst (clear b) = Ok tt
   /\ fst (load (snd (clear b))) = Ok None
   /\ forall key,
        key <> STORAGE_KEY ->
        Storage.getItem key (localStorage (snd (clear b)))
        = Storage.getItem key (localStorage b))
  /\ (Storage.denied (localStorage b) = true ->
      clear b = (Throw (DOMException "SecurityError"), b)).
Proof.
  unfold clear, Storage.removeItem. split; intros D; rewrite D; [|reflexivity].
  cbn [fst snd]. repeat split.
  - unfold load, load_body, try_catch, Storage.getItem.
    cbn [localStorage set_localStorage Storage.denied Storage.items].
    now rewrite ?D, get_filter_same.
  - intros key Hk. unfold Storage.getItem.
    cbn [localStorage set_localStorage Storage.denied Storage.items].
    rewrite ?D. now rewrite get_filter_other.
Qed.

(** X8: [save] writes one key.  Whether the write succeeds or not, every
    other key of the storage keeps its value; and of two records saved
    in turn (both writes succeeding) [load] returns the second. *)
Theorem save_writes_one_key (r1 r2 : ConsentRecord) (b : Browser) :
  (forall key,
      key <> STORAGE_KEY ->
      Storage.getItem key (localStorage (snd (save r1 b)))
      = Storage.getItem key (localStorage b))
  /\ (wf_record r2 ->
      (exists s, Storage.setItem STORAGE_KEY (JSON.stringify (record_to_json r2))
                   (localStorage (snd (save r1 b))) = Ok s) ->
      fst (load (snd (save r2 (snd (save r1 b))))) = Ok (Some (record_to_json r2))).
Proof.
  split.
  - intros key Hk.
    destruct (save_browser r1 b) as [(s & Hs & ->) | (e & _ & ->)];
      [|reflexivity].
    cbn [localStorage set_localStorage].
    unfold Storage.setItem in Hs.
    destruct (Storage.denied (localStorage b)) eqn:D; [discriminate|].
    destruct (Nat.ltb _ _); [discriminate|]. injection Hs as <-.
    unfold Storage.getItem. cbn [Storage.denied Storage.items]. rewrite D.
    rewrite get_set_other; [reflexivity|]. congruence.
  - intros Hwf [s Hs]. set (b1 := snd (save r1 b)) in *.
    unfold save, try_catch. rewrite Hs. cbn [snd].
    rewrite (load_stored_record r2); [reflexivity | exact Hwf |].
    cbn [localStorage set_localStorage].
    now apply (setItem_getItem _ _ (localStorage b1)).
Qed.

End PersistenceProperties.

(** ** Classifying a script *)

Module RegistryFacts.
Import CategoryManager JSFacts RegistryProps.

Lemma prefix_spec (p s : string) :
  String.prefix p s = true <-> exists z, s = p ++ z.
Proof.
  revert p. induction s as [|b s IH]; intros [|a p]; cbn [String.prefix append].
  - split; [intros _; now exists EmptyString | reflexivity].
  - split; [discriminate | intros [z Hz]; discriminate].
  - split; [intros _; now exists (String b s) | reflexivity].
  - destruct (Ascii.ascii_dec a b) as [-> | Hne].
    + rewrite IH. split; intros [z Hz]; exists z; congruence.
    + split; [discriminate | intros [z Hz]; congruence].
Qed.

Lemma includes_spec (s p : string) : JS.includes s p = true <-> occurs p s.
Proof.
  unfold occurs. induction s as [|c s IH]; cbn [JS.includes].
  - rewrite orb_false_r, prefix_spec. split.
    + intros [z Hz]. now exists EmptyString, z.
    + intros (a & z & E). destruct a; [now exists z | discriminate].
  - rewrite orb_true_iff, prefix_spec, IH. split.
    + intros [[z Hz] | (a & z & E)].
      * now exists EmptyString, z.
      * exists (String c a), z. cbn [append]. now rewrite E.
    + intros (a & z & E). destruct a as [|c' a]; cbn [append] in E.
      * left. now exists z.
      * right. injection E as _ E. now exists a, z.
Qed.

Lemma some_pattern_occurs (src : string) (patterns : list string) :
  existsb (JS.includes src) patterns = true
  <-> exists p, In p patterns /\ occurs p src.
Proof.
  rewrite existsb_exists. split; intros (p & Hin & H); exists p;
    (split; [exact Hin|]); now apply includes_spec.
Qed.

Lemma no_pattern_occurs (src : string) (patterns : list string) :
  existsb (JS.includes src) patterns = false
  <-> forall p, In p patterns -> ~ occurs p src.
Proof.
  split.
  - intros E p Hin Ho.
    assert (existsb (JS.includes src) patterns = true)
      by (apply some_pattern_occurs; eauto).
    congruence.
  - intros H. destruct (existsb _ _) eqn:E; [|reflexivity].
    apply some_pattern_occurs in E as (p & Hin & Ho). now destruct (H p Hin).
Qed.

(** The loop over the registry answers the first category, in
    registration order, one of whose patterns occurs in the source. *)
Lemma match_patterns_Some (src : string) (this : t) (c : string) :
  match_patterns src this = Some c
  <-> exists pre ps post,
        this = (pre ++ (c, ps) :: post)%list
        /\ (exists p, In p ps /\ occurs p src)
        /\ forall c' ps' p', In (c', ps') pre -> In p' ps' -> ~ occurs p' src.
Proof.
  induction this as [|[k ps] this IH]; cbn [match_patterns].
  - split; [discriminate|]. intros (pre & ps & post & E & _).
    destruct pre; discriminate.
  - destruct (existsb (JS.includes src) ps) eqn:E.
    + split.
      * intros [= <-]. exists [], ps, this. split; [reflexivity|].
        split; [now apply some_pattern_occurs|]. intros c' ps' p' [].
      * intros (pre & ps0 & post & Eq & Hocc & Hpre).
        destruct pre as [|[k' ps'] pre]; cbn [app] in Eq.
        -- congruence.
        -- assert (Hk : (k', ps') = (k, ps)) by congruence.
           apply some_pattern_occurs in E as (p & Hin & Ho).
           destruct (Hpre k ps p (or_introl Hk) Hin Ho).
    + rewrite IH. split.
      * intros (pre & ps0 & post & -> & Hocc & Hpre).
        exists ((k, ps) :: pre), ps0, post. split; [reflexivity|].
        split; [exact Hocc|].
        intros c' ps' p' [Hk | Hin] Hp.
        -- assert (ps' = ps) by congruence. subst ps'.
           now apply (proj1 (no_pattern_occurs src ps) E).
        -- now apply (Hpre c' ps' p').
      * intros (pre & ps0 & post & Eq & Hocc & Hpre).
        destruct pre as [|[k' ps'] pre]; cbn [app] in Eq.
        -- assert (ps0 = ps) by congruence. subst ps0.
           apply some_pattern_occurs in Hocc. congruence.
        -- assert (Et : this = (pre ++ (c, ps0) :: post)%list) by congruence.
           exists pre, ps0, post.
           split; [exact Et|]. split; [exact Hocc|].
           intros c' ps'' p' Hin. apply (Hpre c' ps'' p'). now right.
Qed.

Lemma match_patterns_None (src : string) (this : t) :
  match_patterns src this = None
  <-> forall c ps p, In (c, ps) this -> In p ps -> ~ occurs p src.
Proof.
  induction this as [|[k ps] this IH]; cbn [match_patterns].
  - split; [intros _ c ps p [] | reflexivity].
  - destruct (existsb (JS.includes src) ps) eqn:E.
    + split; [discriminate|]. intros H.
      apply some_pattern_occurs in E as (p & Hin & Ho).
      destruct (H k ps p (or_introl eq_refl) Hin Ho).
    + rewrite IH. split.
      * intros H c ps' p [Hk | Hin].
        -- assert (ps' = ps) by congruence. subst ps'.
           now apply (proj1 (no_pattern_occurs src ps) E).
        -- now apply (H c ps' p).
      * intros H c ps' p Hin. apply (H c ps' p). now right.
Qed.

Lemma match_patterns_app (src : string) (this more : t) :
  match_patterns src (this ++ more)%list
  = match match_patterns src this with
    | Some c => Some c
    | None => match_patterns src more
    end.
Proof.
  induction this as [|[k ps] this IH]; cbn [app match_patterns]; [reflexivity|].
  now destruct (existsb _ ps).
Qed.

Lemma getCategoryForScript_by_url (this : t) (resolveURL : string -> string)
  (script : Script.t) :
  classified_by_url resolveURL script ->
  getCategoryForScript this resolveURL script
  = match_patterns (Script.src resolveURL script) this.
Proof.
  intros [Ha Hs]. unfold getCategoryForScript. cbv zeta. rewrite Ha.
  unfold JS.truthy. destruct (String.eqb_spec (Script.src resolveURL script) "");
    [contradiction | reflexivity].
Qed.

End RegistryFacts.

Module RegistryProperties.
Import CategoryManager JSFacts RegistryProps RegistryFacts.

(** X9: how a script is classified.  A non-empty [data-cookieconsent]
    value is the category, whatever the registry and the source say.
    Without one, a script with no source has no category, and a script
    with a source gets the first category, in registration order, that
    has a pattern occurring in the resolved source URL; it has no
    category exactly when no registered pattern occurs in it. *)
Theorem classification_of_a_script (this : t) (resolveURL : string -> string)
  (script : Script.t) :
  let explicit := Script.getAttribute "data-cookieconsent" script in
  let src := Script.src resolveURL script in
  let found := getCategoryForScript this resolveURL script in
  (JS.truthy explicit = true -> found = explicit)
  /\ (JS.truthy explicit = false -> src = EmptyString -> found = None)
  /\ (JS.truthy explicit = false -> src <> EmptyString ->
      (forall c,
          found = Some c
          <-> exists pre ps post,
                this = (pre ++ (c, ps) :: post)%list
                /\ (exists p, In p ps /\ occurs p src)
                /\ forall c' ps' p',
                     In (c', ps') pre -> In p' ps' -> ~ occurs p' src)
      /\ (found = None
          <-> forall c ps p, In (c, ps) this -> In p ps -> ~ occurs p src)).
Proof.
  cbv zeta. split; [|split].
  - intros H. unfold getCategoryForScript. cbv zeta. now rewrite H.
  - intros H Hs. unfold getCategoryForScript. cbv zeta. now rewrite H, Hs.
  - intros H Hs.
    rewrite (getCategoryForScript_by_url this resolveURL script (conj H Hs)).
    split; [intros c; apply match_patterns_Some | apply match_patterns_None].
Qed.

(** X10: registering a category.  A name that is new to the registry goes
    last: every script the registry classified by its URL keeps its
    category, and a script it left unclassified gets the new category
    exactly when one of the new patterns occurs in its source.
    Registering a name again replaces its patterns and keeps its place
    in the order; the other categories keep their patterns. *)
Theorem registerCategory_goes_last (this : t) (name : string)
  (patterns : list string) (resolveURL : string -> string) (script : Script.t) :
  classified_by_url resolveURL script ->
  let src := Script.src resolveURL script in
  let before := getCategoryForScript this resolveURL script in
  let after :=
    getCategoryForScript (registerCategory name patterns this) resolveURL script in
  (JS.hasOwn name this = false ->
   (forall c, before = Some c -> after = Some c)
   /\ (before = None -> (exists p, In p patterns /\ occurs p src) ->
       after = Some name)
   /\ (before = None -> (forall p, In p patterns -> ~ occurs p src) ->
       after = None))
  /\ (JS.hasOwn name this = true ->
      JS.keys (registerCategory name patterns this) = JS.keys this)
  /\ JS.get name (registerCategory name patterns this) = Some patterns
  /\ (forall other,
         other <> name ->
         JS.get other (registerCategory name patterns this) = JS.get other this).
Proof.
  intros Hc. cbv zeta.
  rewrite !(getCategoryForScript_by_url _ resolveURL script Hc).
  set (src := Script.src resolveURL script).
  unfold registerCategory. split; [|split; [|split]].
  - intros Hnew. unfold JS.hasOwn in Hnew.
    destruct (JS.get name this) eqn:E; [discriminate|].
    rewrite (set_absent name patterns this E), match_patterns_app.
    cbn [match_patterns]. repeat split.
    + now intros c ->.
    + intros -> Ho. apply some_pattern_occurs in Ho. now rewrite Ho.
    + intros -> Hn. apply no_pattern_occurs in Hn. now rewrite Hn.
  - unfold JS.hasOwn, JS.keys. clear.
    induction this as [|[k v] this IH]; cbn [JS.get JS.set map fst];
      [discriminate|].
    destruct (String.eqb_spec k name) as [-> | Hk]; cbn [map fst];
      [reflexivity|].
    intros H. now rewrite IH.
  - apply get_set_same.
  - intros other Hne. apply get_set_other. congruence.
Qed.

(** X10, witness: a category registered for the widgets of a
    social network classifies a script the default registry leaves alone. *)
Lemma social_category_is_registered_last :
  classified_by_url (fun url => url) Scenarios.widgets
  /\ CategoryManager.getCategoryForScript
       (CategoryManager.registerCategory "social" ["twitter.com/widgets"]
          CategoryManager.new)
       (fun url => url) Scenarios.widgets
     = Some "social"%string.
Proof.
  assert (H : classified_by_url (fun url => url) Scenarios.widgets).
  { split; [reflexivity | discriminate]. }
  split; [exact H|].
  pose proof (registerCategory_goes_last CategoryManager.new
                "social" ["twitter.com/widgets"] (fun url => url)
                Scenarios.widgets H) as T.
  cbv zeta in T. destruct T as (T & _).
  destruct (T eq_refl) as (_ & T2 & _).
  apply T2; [reflexivity|].
  exists "twitter.com/widgets"%string. split; [now left|].
  exists "https://platform."%string, ".js"%string. reflexivity.
Defined.

End RegistryProperties.

(** ** Runs of the gate *)

Module RunFacts.
Import ScriptBlocker JSFacts GateProps GateFacts RunProps.

Lemma blockExistingScripts_gated (st : t * Browser) :
  gated (blockExistingScripts st).
Proof.
  rewrite blockExistingScripts_pass, querySelectorAll_marked_eq.
  set (scripts := filter (marked (snd st)) (attached (snd st))).
  intros script el category Hatt Hel Hmark Hcat Hne Hcons.
  destruct (pass_frame scripts st) as (Ea & Em).
  assert (Hin : In script scripts).
  { apply filter_In. split; [now rewrite <- Ea|].
    rewrite <- Em. unfold marked. now rewrite Hel. }
  pose proof (pass_settles scripts st script Hin) as Hs.
  unfold blockable in Hs. rewrite Hel, Hcat in Hs.
  destruct (String.eqb_spec category EmptyString) as [|_]; [contradiction|].
  assert (Hc : match currentConsent (fst (pass scripts st)) with
               | Some consent => CategoryManager.isAllowed category consent
               | None => false
               end = false).
  { destruct (currentConsent (fst (pass scripts st))) as [consent|] eqn:E;
      [now apply Hcons | reflexivity]. }
  rewrite Hc in Hs. cbn [negb andb] in Hs.
  destruct (String.eqb_spec (Script.type el) "text/plain"); [assumption|discriminate].
Qed.

Lemma init_gated (st : t * Browser) : gated (ScriptBlocker.init st).
Proof. exact (blockExistingScripts_gated st). Qed.

Lemma block_gated (st : t * Browser) : gated (block st).
Proof. apply blockExistingScripts_gated. Qed.

Lemma in_map_snd_set {V : Type} (k : string) (v x : V) (o : JS.object V) :
  In x (map snd (JS.set k v o)) -> x = v \/ In x (map snd o).
Proof.
  intros H. apply in_map_iff in H as ([k' x'] & E & Hin). cbn [snd] in E. subst x'.
  apply in_set_inv in Hin as [Hin | Hin].
  - left. congruence.
  - right. apply in_map_iff. now exists (k', x).
Qed.

Lemma set_set {V : Type} (k : string) (v v' : V) (o : JS.object V) :
  JS.set k v' (JS.set k v o) = JS.set k v' o.
Proof.
  induction o as [|[k0 w] o IH]; cbn [JS.set].
  - now rewrite String.eqb_refl.
  - destruct (String.eqb k0 k) eqn:E; cbn [JS.set]; rewrite E; [reflexivity|].
    now rewrite IH.
Qed.

(** [processScript] leaves alone an element that already carries the
    withheld type and is no entry of the set. *)
Lemma processScript_untracked (script s : nat) (el : Script.t) (st : t * Browser) :
  Script.type el = "text/plain" ->
  untracked script el st -> untracked script el (processScript s st).
Proof.
  intros Hty (Hel & Hatt & Hnin).
  destruct (processScript_frame s st) as (Ea & _).
  unfold untracked. rewrite Ea.
  rewrite processScript_unfold.
  destruct (blockable s st) eqn:B; [|now repeat split].
  destruct (nth_error (heap (snd st)) s) as [el'|] eqn:E; [|now repeat split].
  assert (Hne : s <> script).
  { intros ->. rewrite Hel in E. injection E as <-.
    now apply (blockable_type script st el B Hel). }
  destruct (generateScriptId el' (snd st)) as [id b1] eqn:G.
  pose proof (generateScriptId_frame el' (snd st)) as F. rewrite G in F.
  cbv zeta in F. cbn [snd] in F. destruct F as (Hh & _).
  cbn [fst snd heap set_heap blockedScripts set_blockedScripts].
  repeat split.
  - rewrite nth_error_update_other by exact Hne. now rewrite Hh.
  - exact Hatt.
  - intros Hin. apply in_map_snd_set in Hin as [-> | Hin]; [now apply Hne | auto].
Qed.

Lemma pass_untracked (script : nat) (el : Script.t) (scripts : list nat) :
  Script.type el = "text/plain" ->
  forall st, untracked script el st -> untracked script el (pass scripts st).
Proof.
  intros Hty. induction scripts as [|s l IH]; intros st H; [exact H|].
  change (pass (s :: l) st) with (pass l (processScript s st)).
  apply IH. now apply processScript_untracked.
Qed.

Lemma mutation_callback_untracked (script : nat) (el : Script.t)
  (nodes : list nat) (st : t * Browser) :
  Script.type el = "text/plain" ->
  untracked script el st -> untracked script el (mutation_callback nodes st).
Proof.
  intros Hty. unfold mutation_callback.
  destruct (observer (fst st)); [|auto].
  revert st. induction nodes as [|n l IH]; intros st H; [exact H|].
  cbn [fold_left]. apply IH.
  destruct (nth_error (heap (snd st)) n) as [el'|]; [|exact H].
  destruct (Script.hasAttribute "data-cookieconsent" el'); [|exact H].
  now apply processScript_untracked.
Qed.

(** Reactivating the entries of a set leaves in place every node of the
    document that no entry names. *)
Lemma reactivate_all_attached_other (rel : nat -> bool) (entries : JS.object nat)
  (x : nat) :
  ~ In x (map snd entries) ->
  forall b, In x (attached b) -> In x (attached (reactivate_all rel entries b)).
Proof.
  induction entries as [|[id s] entries IH]; intros Hnin b Hin; [exact Hin|].
  cbn [reactivate_all]. cbn [map snd In] in Hnin.
  destruct (rel s); [|apply IH; tauto].
  apply IH; [tauto|].
  unfold reactivateScript. destruct (nth_error (heap b) s); [|exact Hin].
  cbn [attached publish set_emitted set_attached set_heap].
  apply in_replace_node; [|exact Hin]. intros ->. tauto.
Qed.

Lemma unblock_untracked (script : nat) (el : Script.t) (c : ConsentCategories)
  (st : t * Browser) :
  withheld_ok st ->
  untracked script el st -> untracked script el (unblock c st).
Proof.
  intros Hok (Hel & Hatt & Hnin). destruct st as [this b]. cbn [fst snd] in *.
  pose proof (withheld_ok_refs_valid _ Hok) as Hv. cbn [fst snd] in Hv.
  rewrite (unblock_eq this c b Hv). unfold untracked.
  cbn [fst snd blockedScripts].
  destruct (reactivate_all_frame this c b (blockedScripts this) b) as (_ & Hh & _).
  repeat split.
  - now apply Hh.
  - now apply reactivate_all_attached_other.
  - intros Hin. apply Hnin. apply in_map_iff in Hin as (e & E & Hin).
    apply filter_In in Hin as [Hin _]. apply in_map_iff. eauto.
Qed.

Lemma step_untracked (script : nat) (el : Script.t) (st st' : t * Browser) :
  Script.type el = "text/plain" ->
  withheld_ok st -> step st st' ->
  untracked script el st -> untracked script el st'.
Proof.
  intros Hty Hok Hstep H.
  destruct Hstep as [st | st | c st | nodes st | st | el' st].
  - unfold ScriptBlocker.init, observeDOM.
    rewrite blockExistingScripts_pass.
    pose proof (pass_untracked script el (querySelectorAll_marked (snd st)) Hty st H)
      as (H1 & H2 & H3).
    now repeat split.
  - unfold block. rewrite blockExistingScripts_pass.
    apply pass_untracked; [exact Hty|]. exact H.
  - now apply unblock_untracked.
  - now apply mutation_callback_untracked.
  - exact H.
  - destruct H as (H1 & H2 & H3). unfold untracked, page_insert.
    cbn [fst snd heap attached set_attached set_heap]. repeat split.
    + rewrite nth_error_app1; [exact H1|].
      apply nth_error_Some. congruence.
    + apply in_or_app. now left.
    + exact H3.
Qed.

Lemma steps_withheld_ok (st st' : t * Browser) :
  steps st st' -> withheld_ok st -> withheld_ok st'.
Proof.
  induction 1 as [|st st' st'' _ IH Hstep]; intros Hok; [exact Hok|].
  apply (step_withheld_ok st' st'' Hstep). now apply IH.
Qed.

Lemma steps_untracked (script : nat) (el : Script.t) (st st' : t * Browser) :
  Script.type el = "text/plain" ->
  withheld_ok st -> steps st st' ->
  untracked script el st -> untracked script el st'.
Proof.
  intros Hty Hok Hsteps. induction Hsteps as [|st st' st'' Hs IH Hstep]; [auto|].
  intros H. apply (step_untracked script el st' st'' Hty); auto.
  now apply (steps_withheld_ok st st').
Qed.

End RunFacts.

Module ReleaseFacts.
Import ScriptBlocker JSFacts GateProps GateFacts RunProps RunFacts.

Lemma keys_set_NoDup {V : Type} (k : string) (v : V) (o : JS.object V) :
  NoDup (JS.keys o) -> NoDup (JS.keys (JS.set k v o)).
Proof.
  unfold JS.keys. induction o as [|[k0 w] o IH]; cbn [JS.set map fst].
  - intros _. repeat constructor. intros [].
  - intros H. inversion H as [|x l Hnin Hnd]; subst.
    destruct (String.eqb_spec k0 k) as [-> | Hk]; cbn [map fst]; [exact H|].
    constructor; [|auto].
    intros Hin. apply in_map_iff in Hin as ([k' x'] & E & Hin). cbn [fst] in E.
    subst k'. apply in_set_inv in Hin as [Hin | Hin]; [congruence|].
    apply Hnin. apply in_map_iff. now exists (k0, x').
Qed.

(** What the copying loop of [reactivateScript] leaves on the new
    element, for attribute names that are unique as a DOM keeps them. *)
Lemma getAttribute_copy_attributes (name : string) (el : Script.t) :
  NoDup (JS.keys (Script.attributes el)) ->
  forall newScript,
    Script.getAttribute name (copy_attributes el newScript)
    = if String.eqb name "type" || String.eqb name "data-original-type"
      then Script.getAttribute name newScript
      else match Script.getAttribute name el with
           | Some v => Some v
           | None => Script.getAttribute name newScript
           end.
Proof.
  unfold copy_attributes, Script.getAttribute.
  induction (Script.attributes el) as [|[k v] l IH]; intros Hnd acc;
    cbn [fold_left JS.get fst snd].
  - now destruct (_ || _).
  - unfold JS.keys in Hnd. cbn [map fst] in Hnd.
    inversion Hnd as [|x l' Hnin Hnd']; subst.
    rewrite (IH Hnd').
    destruct (String.eqb_spec k "type") as [-> | Hk1]; cbn [negb andb].
    { destruct (String.eqb_spec "type" name) as [<- | Hn]; [reflexivity|].
      reflexivity. }
    destruct (String.eqb_spec k "data-original-type") as [-> | Hk2]; cbn [negb andb].
    { destruct (String.eqb_spec "data-original-type" name) as [<- | Hn].
      - cbn. reflexivity.
      - reflexivity. }
    unfold Script.setAttribute. cbn [Script.attributes].
    destruct (String.eqb_spec k name) as [-> | Hkn].
    + destruct (String.eqb_spec name "type"); [contradiction|].
      destruct (String.eqb_spec name "data-original-type"); [contradiction|].
      cbn [orb]. rewrite (get_absent name l Hnin). apply get_set_same.
    + rewrite get_set_other by congruence. reflexivity.
Qed.

Lemma textContent_copy_attributes (el newScript : Script.t) :
  Script.textContent (copy_attributes el newScript) = Script.textContent newScript.
Proof.
  unfold copy_attributes. revert newScript.
  induction (Script.attributes el) as [|[k v] l IH]; intros acc; cbn [fold_left];
    [reflexivity|].
  rewrite IH. now destruct (_ && _).
Qed.

Lemma or_default_nonempty (a : option string) (d : string) :
  d <> EmptyString -> JS.or_default a d <> EmptyString.
Proof.
  intros Hd. unfold JS.or_default. destruct a as [v|]; [|exact Hd].
  destruct (String.eqb_spec v EmptyString); assumption.
Qed.

Lemma or_default_fixed (a : option string) (d : string) :
  d <> EmptyString ->
  JS.or_default (Some (JS.or_default a d)) d = JS.or_default a d.
Proof.
  intros Hd. pose proof (or_default_nonempty a d Hd) as H.
  unfold JS.or_default at 1.
  destruct (String.eqb_spec (JS.or_default a d) EmptyString); [contradiction|].
  reflexivity.
Qed.

Lemma unblock_entries_manager (this this' : t) (c : ConsentCategories)
  (entries : JS.object nat) :
  categoryManager this' = categoryManager this ->
  forall b, unblock_entries this' c entries b = unblock_entries this c entries b.
Proof.
  intros Hm. induction entries as [|[id s] l IH]; intros b; cbn [unblock_entries];
    [reflexivity|].
  assert (Hr : releasable this' c b s = releasable this c b s).
  { unfold releasable, category_of. now rewrite Hm. }
  rewrite Hr. destruct (releasable this c b s); now rewrite IH.
Qed.

End ReleaseFacts.

Module GateProperties.
Import ScriptBlocker JSFacts GateProps GateFacts RunProps RunFacts ReleaseFacts.

(** X11: engaging the gate withholds every script it owes withholding.
    After [init] and after [block], every script element of the document
    that carries the marker attribute and has a category the remembered
    approval does not allow has the withheld type; [init] leaves the
    observer connected, [block] forgets the approval. *)
Theorem engage_withholds_every_classified_script (st : t * Browser) :
  gated (ScriptBlocker.init st)
  /\ observer (fst (ScriptBlocker.init st)) = true
  /\ gated (block st)
  /\ currentConsent (fst (block st)) = None.
Proof.
  repeat split.
  - apply init_gated.
  - apply block_gated.
  - unfold block. rewrite blockExistingScripts_pass. now rewrite pass_currentConsent.
Qed.

(** X12: a script the page author already wrote with the withheld type is
    never released.  [processScript] skips it without recording it, so
    no entry of the withheld-set names it; through every later run of
    the gate (engaging, approvals of any categories, observed
    insertions, [block], [destroy]) it stays the same element, with the
    withheld type, in the document, and outside the set. *)
Theorem script_authored_withheld_is_never_released
  (script : nat) (el : Script.t) (st st' : t * Browser) :
  Script.type el = "text/plain" ->
  withheld_ok st ->
  untracked script el st ->
  steps st st' ->
  untracked script el st'.
Proof.
  intros Hty Hok H Hsteps. now apply (steps_untracked script el st st').
Qed.

(** X13: two scripts with the same source share one entry.  The identity
    of an entry is the element's resolved source, so when a second
    script with the same source is withheld its entry replaces the
    first one: both elements carry the withheld type, only the second
    is named by the set, and the first is released by no later run. *)
Theorem same_source_scripts_share_one_entry
  (st : t * Browser) (s1 s2 : nat) (el1 el2 : Script.t) :
  s1 <> s2 ->
  nth_error (heap (snd st)) s1 = Some el1 ->
  nth_error (heap (snd st)) s2 = Some el2 ->
  blockable s1 st = true ->
  blockable s2 st = true ->
  Script.src (resolveURL (snd st)) el1 <> EmptyString ->
  Script.src (resolveURL (snd st)) el2 = Script.src (resolveURL (snd st)) el1 ->
  In s1 (attached (snd st)) ->
  ~ In s1 (map snd (blockedScripts (fst st))) ->
  withheld_ok st ->
  let st' := processScript s2 (processScript s1 st) in
  nth_error (heap (snd st')) s1 = Some (withheld_form el1)
  /\ nth_error (heap (snd st')) s2 = Some (withheld_form el2)
  /\ JS.get (Script.src (resolveURL (snd st)) el1) (blockedScripts (fst st'))
     = Some s2
  /\ ~ In s1 (map snd (blockedScripts (fst st')))
  /\ forall st'', steps st' st'' -> untracked s1 (withheld_form el1) st''.
Proof.
  intros Hne H1 H2 B1 B2 Hsrc Hsame Hatt Hnin Hok st'.
  assert (E1 : processScript s1 st
               = (set_blockedScripts
                    (JS.set (Script.src (resolveURL (snd st)) el1) s1
                       (blockedScripts (fst st))) (fst st),
                  set_heap (update s1 (withheld_form el1) (heap (snd st))) (snd st))).
  { rewrite processScript_unfold, B1, H1. unfold generateScriptId.
    destruct (String.eqb_spec (Script.src (resolveURL (snd st)) el1) EmptyString);
      [contradiction | reflexivity]. }
  assert (B2' : blockable s2 (processScript s1 st) = true).
  { rewrite blockable_other by congruence. exact B2. }
  assert (H2' : nth_error (heap (snd (processScript s1 st))) s2 = Some el2).
  { rewrite E1. cbn [snd heap set_heap]. now rewrite nth_error_update_other. }
  assert (E2 : st'
               = (set_blockedScripts
                    (JS.set (Script.src (resolveURL (snd st)) el1) s2
                       (blockedScripts (fst st))) (fst (processScript s1 st)),
                  set_heap (update s2 (withheld_form el2)
                              (update s1 (withheld_form el1) (heap (snd st))))
                    (snd (processScript s1 st)))).
  { unfold st'. rewrite processScript_unfold, B2', H2'. unfold generateScriptId.
    rewrite E1 at 1 2 3. cbn [fst snd resolveURL set_heap heap].
    rewrite Hsame.
    destruct (String.eqb_spec (Script.src (resolveURL (snd st)) el1) EmptyString);
      [contradiction|].
    cbn [negb]. rewrite E1. cbn [fst snd blockedScripts set_blockedScripts heap set_heap].
    change (resolveURL (set_heap (update s1 (withheld_form el1) (heap (snd st)))
                          (snd st)))
      with (resolveURL (snd st)).
    now rewrite Hsame, set_set. }
  assert (Hh1 : nth_error (heap (snd st')) s1 = Some (withheld_form el1)).
  { rewrite E2. cbn [snd heap set_heap].
    rewrite nth_error_update_other by congruence.
    now apply (nth_error_update_same _ _ _ el1). }
  assert (Hn1 : ~ In s1 (map snd (blockedScripts (fst st')))).
  { rewrite E2. cbn [fst blockedScripts set_blockedScripts].
    intros Hin. apply in_map_snd_set in Hin as [-> | Hin]; [now apply Hne | auto]. }
  split; [|split; [|split; [|split]]].
  - exact Hh1.
  - rewrite E2. cbn [snd heap set_heap].
    apply (nth_error_update_same _ _ _ el2).
    now rewrite nth_error_update_other.
  - rewrite E2. cbn [fst blockedScripts set_blockedScripts]. apply get_set_same.
  - exact Hn1.
  - intros st'' Hsteps.
    apply (steps_untracked s1 (withheld_form el1) st' st'');
      [apply type_withheld_form | | exact Hsteps |].
    + unfold st'. now do 2 apply processScript_withheld_ok.
    + repeat split; [exact Hh1 | | exact Hn1].
      unfold st'. destruct (processScript_frame s2 (processScript s1 st)) as (-> & _).
      destruct (processScript_frame s1 st) as (-> & _). exact Hatt.
Qed.

(** X14: withholding and releasing restore the script.  The element that
    [reactivateScript] creates for a script [processScript] withheld has
    the type the script had (JavaScript when it had none), no
    [data-original-type], and every other attribute of the script with
    its value; it carries the script's resolved source, or, for a
    script without a source, its text.  It takes the script's place in
    the document. *)
Theorem withhold_then_release_restores_the_script
  (st : t * Browser) (script : nat) (el : Script.t) :
  nth_error (heap (snd st)) script = Some el ->
  blockable script st = true ->
  NoDup (JS.keys (Script.attributes el)) ->
  let st1 := processScript script st in
  let b2 := reactivateScript script (snd st1) in
  let src := Script.src (resolveURL (snd st)) el in
  exists clone,
    nth_error (heap b2) (List.length (heap (snd st))) = Some clone
    /\ attached b2
       = replace_node script (List.length (heap (snd st))) (attached (snd st))
    /\ Script.type clone = JS.or_default (Some (Script.type el)) "text/javascript"
    /\ Script.getAttribute "data-original-type" clone = None
    /\ (forall name,
           name <> "type" -> name <> "data-original-type" -> name <> "src" ->
           Script.getAttribute name clone = Script.getAttribute name el)
    /\ (src <> EmptyString ->
        Script.getAttribute "src" clone = Some src
        /\ Script.textContent clone = EmptyString)
    /\ (src = EmptyString ->
        Script.getAttribute "src" clone = Script.getAttribute "src" el
        /\ Script.textContent clone = Script.textContent el).
Proof.
  intros Hel B Hnd st1 b2 src.
  assert (E1 : exists id b1,
             generateScriptId el (snd st) = (id, b1)
             /\ st1 = (set_blockedScripts (JS.set id script (blockedScripts (fst st)))
                         (fst st),
                       set_heap (update script (withheld_form el) (heap b1)) b1)).
  { unfold st1. rewrite processScript_unfold, B, Hel.
    destruct (generateScriptId el (snd st)) as [id b1]. now exists id, b1. }
  destruct E1 as (id & b1 & G & E1).
  pose proof (generateScriptId_frame el (snd st)) as F. rewrite G in F.
  cbv zeta in F. cbn [snd] in F. destruct F as (Hh & Hr & Ha & _).
  set (w := withheld_form el).
  assert (Hw : nth_error (heap (snd st1)) script = Some w).
  { rewrite E1. cbn [snd heap set_heap]. rewrite Hh.
    now apply (nth_error_update_same _ _ _ el). }
  assert (Hlen : List.length (heap (snd st1)) = List.length (heap (snd st))).
  { rewrite E1. cbn [snd heap set_heap]. now rewrite length_update, Hh. }
  assert (Hres : resolveURL (snd st1) = resolveURL (snd st)).
  { rewrite E1. cbn [snd resolveURL set_heap]. exact Hr. }
  assert (Hatt : attached (snd st1) = attached (snd st)).
  { rewrite E1. cbn [snd attached set_heap]. exact Ha. }
  exists (clone_for_execution (resolveURL (snd st)) w).
  assert (Hb2 : b2 = publish "script:activated"
                       (ActivatedPayload (Script.getAttribute "data-cookieconsent" w)
                          (JS.or_default (Some (Script.src (resolveURL (snd st1)) w))
                             "inline"))
                       (set_attached
                          (replace_node script (List.length (heap (snd st1)))
                             (attached (snd st1)))
                          (set_heap (heap (snd st1)
                                     ++ [clone_for_execution (resolveURL (snd st1)) w])
                             (snd st1)))).
  { unfold b2, reactivateScript. now rewrite Hw. }
  assert (Hwsrc : Script.src (resolveURL (snd st)) w = src).
  { unfold Script.src, w. now rewrite getAttribute_withheld_form by discriminate. }
  assert (Hwnd : NoDup (JS.keys (Script.attributes w))).
  { unfold w, withheld_form, Script.set_type, Script.setAttribute.
    cbn [Script.attributes]. now do 2 apply keys_set_NoDup. }
  assert (Hot : Script.getAttribute "data-original-type" w
                = Some (JS.or_default (Some (Script.type el)) "text/javascript")).
  { unfold w, withheld_form, Script.set_type, Script.setAttribute, Script.getAttribute.
    cbn [Script.attributes].
    rewrite get_set_other by discriminate. apply get_set_same. }
  set (ot := JS.or_default (Some (Script.type el)) "text/javascript") in *.
  assert (Hot' : JS.or_default (Script.getAttribute "data-original-type" w)
                   "text/javascript" = ot).
  { rewrite Hot. apply or_default_fixed. discriminate. }
  set (copy := copy_attributes w Script.create).
  assert (Hcopy : forall name,
             Script.getAttribute name copy
             = if String.eqb name "type" || String.eqb name "data-original-type"
               then None
               else Script.getAttribute name w).
  { intros name. unfold copy. rewrite (getAttribute_copy_attributes name w Hwnd).
    destruct (_ || _); [reflexivity|]. now destruct (Script.getAttribute name w). }
  assert (Hclone : clone_for_execution (resolveURL (snd st)) w
                   = if negb (String.eqb src EmptyString)
                     then Script.setAttribute "src" src (Script.set_type ot copy)
                     else Script.set_textContent (Script.textContent w)
                            (Script.set_type ot copy)).
  { unfold clone_for_execution. cbv zeta. fold copy. now rewrite Hot', Hwsrc. }
  repeat split.
  - rewrite Hb2. cbn [heap publish set_emitted set_attached set_heap].
    rewrite Hres, <- Hlen. rewrite nth_error_app2 by lia.
    now rewrite Nat.sub_diag.
  - rewrite Hb2. cbn [attached publish set_emitted set_attached set_heap].
    now rewrite Hlen, Hatt.
  - rewrite Hclone. unfold Script.type, Script.getAttribute, Script.set_type,
      Script.setAttribute, Script.set_textContent.
    destruct (negb _); cbn [Script.attributes].
    + rewrite get_set_other by discriminate. now rewrite get_set_same.
    + now rewrite get_set_same.
  - rewrite Hclone.
    assert (H0 : Script.getAttribute "data-original-type" (Script.set_type ot copy)
                 = None).
    { unfold Script.set_type, Script.setAttribute, Script.getAttribute.
      cbn [Script.attributes]. rewrite get_set_other by discriminate.
      exact (Hcopy "data-original-type"). }
    destruct (negb _); [|exact H0].
    unfold Script.setAttribute, Script.getAttribute in *. cbn [Script.attributes] in *.
    now rewrite get_set_other by discriminate.
  - intros name N1 N2 N3. rewrite Hclone.
    assert (H0 : Script.getAttribute name (Script.set_type ot copy)
                 = Script.getAttribute name el).
    { unfold Script.set_type, Script.setAttribute. unfold Script.getAttribute at 1.
      cbn [Script.attributes]. rewrite get_set_other by congruence.
      change (JS.get name (Script.attributes copy))
        with (Script.getAttribute name copy).
      rewrite Hcopy.
      destruct (String.eqb_spec name "type"); [contradiction|].
      destruct (String.eqb_spec name "data-original-type"); [contradiction|].
      cbn [orb]. unfold w. now apply getAttribute_withheld_form. }
    destruct (negb _); [|exact H0].
    unfold Script.setAttribute, Script.getAttribute in *. cbn [Script.attributes] in *.
    now rewrite get_set_other by congruence.
  - rewrite Hclone.
    destruct (String.eqb_spec src EmptyString); [contradiction|]. cbn [negb].
    unfold Script.setAttribute, Script.getAttribute. cbn [Script.attributes].
    apply get_set_same.
  - rewrite Hclone.
    destruct (String.eqb_spec src EmptyString); [contradiction|]. cbn [negb].
    unfold Script.set_type, Script.setAttribute. cbn [Script.textContent].
    unfold copy. now rewrite textContent_copy_attributes.
  - rewrite Hclone. rewrite H. cbn [negb String.eqb].
    unfold Script.set_textContent, Script.set_type, Script.setAttribute.
    unfold Script.getAttribute at 1. cbn [Script.attributes].
    rewrite get_set_other by discriminate.
    change (JS.get "src" (Script.attributes copy))
      with (Script.getAttribute "src" copy).
    rewrite Hcopy. cbn [String.eqb Ascii.eqb Bool.eqb orb].
    unfold w. now apply getAttribute_withheld_form.
  - rewrite Hclone. rewrite H. cbn [negb String.eqb].
    unfold Script.set_textContent. cbn [Script.textContent].
    reflexivity.
Qed.

(** X15: [destroy] only disconnects the observer.  After it, insertions
    into the document are no longer processed, so scripts added later
    are not withheld; the withheld-set and the page are as they were,
    and an approval given afterwards releases what it would have
    released. *)
Theorem destroy_only_stops_observation (st : t * Browser)
  (addedNodes : list nat) (categories : ConsentCategories) :
  mutation_callback addedNodes (destroy st) = destroy st
  /\ blockedScripts (fst (destroy st)) = blockedScripts (fst st)
  /\ currentConsent (fst (destroy st)) = currentConsent (fst st)
  /\ snd (destroy st) = snd st
  /\ unblock categories (destroy st) = destroy (unblock categories st).
Proof.
  repeat split.
  unfold unblock, destroy. cbn [fst snd].
  change (blockedScripts (set_currentConsent (Some categories)
                            (set_observer false (fst st))))
    with (blockedScripts (set_currentConsent (Some categories) (fst st))).
  rewrite (unblock_entries_manager
             (set_currentConsent (Some categories) (fst st))
             (set_currentConsent (Some categories) (set_observer false (fst st))))
    by reflexivity.
  destruct (unblock_entries _ _ _ _) as [kept b']. reflexivity.
Qed.

(** X30: with analytics granted and marketing refused, every entry of
    the withheld-set classified analytics is reactivated and leaves the
    set: a new element with the recorded type, which is not the
    withheld type, and with the script's source or text takes the
    script's place in the document, the withheld element is out of the
    document, and the activation is published.  Every entry classified
    marketing stays in the set, its element unchanged and in place.  A
    second call changes nothing. *)
Theorem release_is_selective_and_idempotent (this : t) (b : Browser) :
  withheld_ok (this, b) ->
  document_ok b ->
  let st1 := unblock Examples.analytics_only (this, b) in
  (forall id script,
      In (id, script) (blockedScripts this) ->
      category_of this b script = Some "analytics" ->
      ~ In (id, script) (blockedScripts (fst st1))
      /\ ~ In script (attached (snd st1))
      /\ exists el ty n clone evs,
          nth_error (heap b) script = Some el
          /\ Script.getAttribute "data-original-type" el = Some ty
          /\ List.length (heap b) <= n
          /\ nth_error (heap (snd st1)) n = Some clone
          /\ Script.type clone = JS.or_default (Some ty) "text/javascript"
          /\ Script.type clone <> "text/plain"
          /\ (Script.src (resolveURL b) el <> EmptyString ->
              Script.getAttribute "src" clone = Some (Script.src (resolveURL b) el))
          /\ (Script.src (resolveURL b) el = EmptyString ->
              Script.textContent clone = Script.textContent el)
          /\ (forall i, nth_error (attached b) i = Some script ->
                    nth_error (attached (snd st1)) i = Some n)
          /\ emitted (snd st1) = (emitted b ++ evs)%list
          /\ In ("script:activated",
                 ActivatedPayload (Script.getAttribute "data-cookieconsent" el)
                   (JS.or_default (Some (Script.src (resolveURL b) el)) "inline"))
                evs)
  /\ (forall id script,
         In (id, script) (blockedScripts this) ->
         category_of this b script = Some "marketing" ->
         In (id, script) (blockedScripts (fst st1))
         /\ nth_error (heap (snd st1)) script = nth_error (heap b) script
         /\ (forall i, nth_error (attached b) i = Some script ->
                   nth_error (attached (snd st1)) i = Some script))
  /\ unblock Examples.analytics_only st1 = st1.
Proof.
  intros Hok Hdoc. cbv zeta.
  pose proof (withheld_ok_refs_valid (this, b) Hok) as Hv. cbn [fst snd] in Hv.
  split; [|split].
  - intros id script Hin Hcat.
    assert (Hrel : releasable this Examples.analytics_only b script = true)
      by (unfold releasable; now rewrite Hcat).
    destruct (unblock_releases this _ b id script Hv Hin Hrel)
      as (Hout & el & news & evs & Hel & _ & _ & Hev & Hevs).
    split; [exact Hout|].
    destruct (Hok id script Hin) as (el' & ty & Hel' & _ & Hty & Hne).
    cbn [fst snd] in Hel'. rewrite Hel in Hel'. injection Hel' as <-.
    rewrite unblock_eq by assumption. cbn [fst snd].
    destruct (reactivate_all_releases this Examples.analytics_only b
                (blockedScripts this) script el Hel Hrel b
                (running_refl b Hdoc) Hv)
      as (Hgone & n & Hn & Hclone & Hplace).
    { apply in_map_iff. now exists (id, script). }
    split; [exact Hgone|].
    exists el, ty, n, (clone_for_execution (resolveURL b) el), evs.
    assert (Htype : Script.type (clone_for_execution (resolveURL b) el)
                    = JS.or_default (Some ty) "text/javascript")
      by (now rewrite type_clone, Hty).
    destruct (content_clone (resolveURL b) el) as (Hsrc & Htext).
    repeat split; try assumption.
    + rewrite Htype. unfold JS.or_default.
      destruct (String.eqb ty EmptyString); [discriminate | exact Hne].
    + rewrite unblock_eq in Hev by assumption. exact Hev.
  - intros id script Hin Hcat.
    assert (Hrel : releasable this Examples.analytics_only b script = false)
      by (unfold releasable; now rewrite Hcat).
    destruct (unblock_keeps this _ b id script Hv Hin Hrel) as (H1 & H2 & _).
    split; [exact H1|]. split; [exact H2|].
    intros i Hi. rewrite unblock_eq by assumption. cbn [fst snd].
    apply (reactivate_all_keeps_position _ b); [exact Hi | auto].
  - now apply unblock_idempotent.
Qed.

(** X12, witness: a script written with the withheld type is
    still withheld, and still outside the set, after engaging and an
    approval of every category. *)
Lemma authored_withheld_stays_withheld :
  let st := (ScriptBlocker.new CategoryManager.new,
             Examples.page [Scenarios.authored_withheld]) in
  let st' := ScriptBlocker.unblock Examples.accept_all (ScriptBlocker.init st) in
  (Script.type Scenarios.authored_withheld = "text/plain"%string
   /\ withheld_ok st
   /\ untracked 0 Scenarios.authored_withheld st
   /\ steps st st')
  /\ untracked 0 Scenarios.authored_withheld st'.
Proof.
  intros st st'.
  assert (H1 : Script.type Scenarios.authored_withheld = "text/plain"%string)
    by reflexivity.
  assert (H2 : withheld_ok st) by (intros id script []).
  assert (H3 : untracked 0 Scenarios.authored_withheld st).
  { repeat split; [now left | intros []]. }
  assert (H4 : steps st st').
  { eapply steps_step; [eapply steps_step; [apply steps_refl|]|].
    - apply ScriptBlocker.step_init.
    - apply ScriptBlocker.step_unblock. }
  split; [auto|].
  exact (script_authored_withheld_is_never_released
           0 Scenarios.authored_withheld st st' H1 H2 H3 H4).
Defined.

(** X13, witness: the same analytics script included twice: one
    entry, naming the second; the first stays withheld after an approval
    of every category. *)
Lemma two_copies_of_one_script :
  let st := (ScriptBlocker.new CategoryManager.new,
             Examples.page [Examples.ga; Examples.ga]) in
  let st' := ScriptBlocker.processScript 1 (ScriptBlocker.processScript 0 st) in
  ScriptBlocker.blockedScripts (fst st')
  = [("https://www.google-analytics.com/analytics.js"%string, 1%nat)]
  /\ nth_error (heap (snd st')) 0 = Some (withheld_form Examples.ga)
  /\ untracked 0 (withheld_form Examples.ga)
       (ScriptBlocker.unblock Examples.accept_all st').
Proof.
  intros st st'.
  assert (Hok : withheld_ok st) by (intros id script []).
  pose proof (same_source_scripts_share_one_entry st 0 1
                Examples.ga Examples.ga
                ltac:(discriminate) eq_refl eq_refl eq_refl eq_refl
                ltac:(discriminate) eq_refl ltac:(now left) ltac:(intros [])
                Hok) as T.
  cbv zeta in T. fold st' in T. destruct T as (T1 & _ & _ & _ & T5).
  split; [reflexivity|]. split; [exact T1|].
  apply T5. eapply steps_step; [apply steps_refl|].
  apply ScriptBlocker.step_unblock.
Defined.

(** X14, witness: a module script with a source is released as a
    module script with that source and its other attributes. *)
Lemma tracker_is_restored :
  let st := (ScriptBlocker.new CategoryManager.new,
             Examples.page [Scenarios.tracker]) in
  let b2 := ScriptBlocker.reactivateScript 0
              (snd (ScriptBlocker.processScript 0 st)) in
  (nth_error (heap (snd st)) 0 = Some Scenarios.tracker
   /\ blockable 0 st = true
   /\ NoDup (JS.keys (Script.attributes Scenarios.tracker)))
  /\ exists clone,
       nth_error (heap b2) 1 = Some clone
       /\ attached b2 = [1%nat]
       /\ Script.type clone = "module"%string
       /\ Script.getAttribute "async" clone = Some EmptyString
       /\ Script.getAttribute "src" clone = Some "/js/tracker.js"%string.
Proof.
  intros st b2.
  assert (H1 : nth_error (heap (snd st)) 0 = Some Scenarios.tracker) by reflexivity.
  assert (H2 : blockable 0 st = true) by reflexivity.
  assert (H3 : NoDup (JS.keys (Script.attributes Scenarios.tracker))).
  { repeat constructor; cbn; intuition discriminate. }
  split; [auto|].
  pose proof (withhold_then_release_restores_the_script
                st 0 Scenarios.tracker H1 H2 H3) as T.
  cbv zeta in T. destruct T as (clone & T1 & T2 & T3 & _ & T5 & T6 & _).
  exists clone.
  split; [exact T1|]. split; [exact T2|]. split; [exact T3|].
  split.
  - rewrite (T5 "async"%string) by discriminate. reflexivity.
  - apply T6. discriminate.
Defined.

(** X30, witness: on a page with an analytics script and a marketing
    script, both withheld, the release puts an executable clone of the
    first in its place, keeps the second withheld and in place, and is
    idempotent. *)
Lemma analytics_released_marketing_kept :
  let st := init (new CategoryManager.new,
                  Examples.page [Examples.ga; Examples.pixel]) in
  let st1 := unblock Examples.analytics_only st in
  (withheld_ok st /\ document_ok (snd st))
  /\ ~ In ("https://www.google-analytics.com/analytics.js", 0)
        (blockedScripts (fst st1))
  /\ attached (snd st1) = [2; 1]
  /\ option_map Script.type (nth_error (heap (snd st1)) 2) = Some "text/javascript"
  /\ In ("https://connect.facebook.net/en_US/fbevents.js", 1)
       (blockedScripts (fst st1))
  /\ option_map Script.type (nth_error (heap (snd st1)) 1) = Some "text/plain"
  /\ unblock Examples.analytics_only st1 = st1.
Proof.
  intros st st1.
  assert (Hok : withheld_ok st).
  { apply reachable_withheld_ok.
    apply (reach_step (new CategoryManager.new,
                       Examples.page [Examples.ga; Examples.pixel]));
      [apply reach_new | apply step_init]. }
  assert (Hdoc : document_ok (snd st)).
  { split.
    - vm_compute. repeat constructor; cbn; intuition discriminate.
    - intros script Hin. vm_compute in Hin.
      destruct Hin as [<- | [<- | []]]; vm_compute; lia. }
  split; [split; assumption|].
  destruct (release_is_selective_and_idempotent (fst st) (snd st))
    as (Hrel & Hkeep & Hidem).
  { now rewrite <- surjective_pairing. }
  { exact Hdoc. }
  rewrite <- surjective_pairing in Hrel, Hkeep, Hidem. fold st1 in Hrel, Hkeep, Hidem.
  split; [apply (Hrel _ 0); [now left | reflexivity]|].
  split; [vm_compute; reflexivity|].
  split; [vm_compute; reflexivity|].
  split; [apply (Hkeep _ 1); [right; now left | reflexivity]|].
  split; [vm_compute; reflexivity | exact Hidem].
Defined.

End GateProperties.

(** ** Start-up, decisions and reset *)

Module SessionFacts.
Import ScriptBlocker JSFacts GateProps GateFacts RunProps RunFacts JSONProps JSONFacts.
Import StorageFacts PersistenceFacts OrchestratorProps OrchestratorFacts SessionProps.

Lemma same_outside_page_refl (b : Browser) : same_outside_page b b.
Proof. now repeat split. Qed.

Lemma same_outside_page_trans (b b' b'' : Browser) :
  same_outside_page b b' -> same_outside_page b' b'' -> same_outside_page b b''.
Proof.
  intros (A1 & A2 & A3 & A4 & A5) (B1 & B2 & B3 & B4 & B5).
  repeat split; congruence.
Qed.

Lemma init_same_outside_page (st : t * Browser) :
  same_outside_page (snd st) (snd (ScriptBlocker.init st)).
Proof.
  destruct (init_browser st) as (h & n & ->). now repeat split.
Qed.

Lemma block_same_outside_page (st : t * Browser) :
  same_outside_page (snd st) (snd (block st)).
Proof.
  unfold block. rewrite blockExistingScripts_pass.
  match goal with
  | |- same_outside_page _ (snd (pass ?l ?s)) =>
      destruct (pass_browser l s) as (h & n & E)
  end.
  rewrite E. now repeat split.
Qed.

Lemma reactivateScript_same_outside_page (script : nat) (b : Browser) :
  same_outside_page b (reactivateScript script b).
Proof.
  unfold reactivateScript. destruct (nth_error (heap b) script);
    now repeat split.
Qed.

Lemma unblock_entries_same_outside_page (this : t) (c : ConsentCategories)
  (entries : JS.object nat) :
  forall b, same_outside_page b (snd (unblock_entries this c entries b)).
Proof.
  induction entries as [|[id s] l IH]; intros b; cbn [unblock_entries].
  - apply same_outside_page_refl.
  - destruct (releasable this c b s).
    + eapply same_outside_page_trans;
        [apply reactivateScript_same_outside_page | apply IH].
    + specialize (IH b). destruct (unblock_entries this c l b) as [kept b'].
      exact IH.
Qed.

Lemma unblock_same_outside_page (c : ConsentCategories) (st : t * Browser) :
  same_outside_page (snd st) (snd (unblock c st)).
Proof.
  unfold unblock.
  pose proof (unblock_entries_same_outside_page
                (set_currentConsent (Some c) (fst st)) c
                (blockedScripts (set_currentConsent (Some c) (fst st))) (snd st)) as H.
  destruct (unblock_entries _ _ _ _) as [kept b']. exact H.
Qed.

Lemma unblock_currentConsent (c : ConsentCategories) (st : t * Browser) :
  currentConsent (fst (unblock c st)) = Some c.
Proof.
  unfold unblock. destruct (unblock_entries _ _ _ _) as [kept b']. reflexivity.
Qed.

(** What [load] answers depends on the storage only. *)
Lemma load_depends_on_storage (b b' : Browser) :
  localStorage b' = localStorage b -> fst (StorageManager.load b') = fst (StorageManager.load b).
Proof.
  intros E. unfold StorageManager.load, StorageManager.load_body, try_catch.
  rewrite E.
  destruct (Storage.getItem _ _) as [[data|]|e]; try reflexivity.
  destruct (String.eqb data EmptyString); [reflexivity|].
  destruct (JSON.parse data) as [parsed|]; [|reflexivity].
  destruct (StorageManager.validateSchema parsed); reflexivity.
Qed.

Lemma isExpired_depends_on_clock (v : JSON.value) (b b' : Browser) :
  same_clock b b' -> StorageManager.isExpired v b' = StorageManager.isExpired v b.
Proof.
  intros (E1 & E2 & E3). unfold StorageManager.isExpired. now rewrite E1, E2, E3.
Qed.

(** Engaging the gate and pushing the default consent leave the clock
    alone. *)
Lemma same_clock_engaged (h : list Script.t) (n : nat) (gtm : bool) (b : Browser) :
  same_clock b (if gtm
                then GTMConsentMode.setDefaultConsent (set_heap h (set_ticks n b))
                else set_heap h (set_ticks n b)).
Proof. destruct gtm; now repeat split. Qed.

Lemma is_true_of_bools (c : ConsentCategories) :
  map (fun kv : string * JSON.value => (fst kv, JSON.is_true (snd kv)))
    (map (fun kb : string * bool => (fst kb, JSON.JBool (snd kb))) c)
  = c.
Proof.
  induction c as [|[k v] l IH]; cbn [map fst snd]; [reflexivity|].
  rewrite IH. now destruct v.
Qed.

Lemma stored_categories_record (r : ConsentRecord) :
  CookieConsent.stored_categories (record_to_json r) = Some (categories r).
Proof.
  unfold CookieConsent.stored_categories.
  change (JSON.get_property "categories" (record_to_json r))
    with (Some (categories_to_json (categories r))).
  unfold categories_to_json. now rewrite is_true_of_bools.
Qed.

End SessionFacts.

Module StartupFacts.
Import JSFacts GateProps GateFacts RunProps RunFacts JSONProps JSONFacts.
Import StorageFacts PersistenceFacts OrchestratorProps OrchestratorFacts.
Import SessionProps SessionFacts.
Import CookieConsent.

(** [init] after the gate is engaged and the stored record read. *)
Lemma init_unfold (app : t) (b : Browser) :
  init (app, b)
  = let engaged := ScriptBlocker.init (scriptBlocker app, b) in
    let this := set_scriptBlocker (fst engaged) app in
    let b1 := if gtmIntegration app
              then GTMConsentMode.setDefaultConsent (snd engaged)
              else snd engaged in
    let finish (st : t * Browser) :=
      (Ok tt, (fst st, publish "consent:init" NoPayload (snd st))) in
    let ask (b2 : Browser) :=
      finish (if autoShow (config app) then showBanner (this, b2) else (this, b2)) in
    match StorageManager.load b1 with
    | (Throw e, b2) => (Throw e, (this, b2))
    | (Ok None, b2) => ask b2
    | (Ok (Some storedConsent), b2) =>
        if JSON.truthy storedConsent
           && negb (StorageManager.isExpired storedConsent b2) then
          if ConsentManager.needsUpdate (consentManager app) storedConsent
          then ask b2
          else
            match stored_categories storedConsent with
            | Some categories =>
                let '(this, b3) := applyConsent categories (this, b2) in
                let b4 := publish "consent:load" (RecordPayload storedConsent) b3 in
                finish (if showWidget (config this)
                        then showFloatingWidget (this, b4) else (this, b4))
            | None =>
                match ScriptBlocker.unblock_null (scriptBlocker this, b2) with
                | (Ok _, (sb, b3)) =>
                    let this := set_scriptBlocker sb this in
                    let b4 := publish "consent:load" (RecordPayload storedConsent) b3 in
                    finish (if showWidget (config this)
                            then showFloatingWidget (this, b4) else (this, b4))
                | (Throw e, (sb, b3)) => (Throw e, (set_scriptBlocker sb this, b3))
                end
            end
        else ask b2
    end.
Proof.
  unfold init. cbv zeta.
  destruct (ScriptBlocker.init (scriptBlocker app, b)) as [sb b0]. cbn [fst snd].
  change (gtmIntegration (set_scriptBlocker sb app)) with (gtmIntegration app).
  destruct (StorageManager.load _) as [[[v|]|e] b2]; reflexivity.
Qed.

Lemma gated_ext (sb : ScriptBlocker.t) (b b' : Browser) :
  heap b' = heap b -> attached b' = attached b -> resolveURL b' = resolveURL b ->
  gated (sb, b) -> gated (sb, b').
Proof.
  intros Hh Ha Hr H script el category. cbn [fst snd].
  rewrite Hh, Ha, Hr. apply (H script el category).
Qed.

End StartupFacts.

Module OrchestratorProperties.
Import JSFacts GateProps GateFacts RunProps RunFacts JSONProps JSONFacts.
Import StorageFacts PersistenceFacts OrchestratorProps OrchestratorFacts.
Import SessionProps SessionFacts StartupFacts.
Open Scope Z_scope.

(** X16: start-up without a usable record.  The stored text, if any,
    being in the scope of the parser: when [load] answers [null]
    (nothing stored, unreadable storage, text that is no record) or the
    stored record has expired, [init] returns normally with the gate
    engaged and nothing released: every marked script with a category
    is withheld.  It shows the banner when [autoShow] is on, publishes
    [consent:show] (with the banner) and [consent:init], and leaves the
    storage as it was: an expired record is not removed, and
    [getConsent] still answers it. *)
Theorem init_without_usable_record_asks (app : CookieConsent.t) (b : Browser) :
  stored_in_scope b ->
  fst (StorageManager.load b) = Ok None
  \/ (exists v, fst (StorageManager.load b) = Ok (Some v)
              /\ StorageManager.isExpired v b = true) ->
  let out := CookieConsent.init (app, b) in
  let engaged := ScriptBlocker.init (CookieConsent.scriptBlocker app, b) in
  fst out = Ok tt
  /\ CookieConsent.scriptBlocker (fst (snd out)) = fst engaged
  /\ heap (snd (snd out)) = heap (snd engaged)
  /\ attached (snd (snd out)) = attached (snd engaged)
  /\ gated (CookieConsent.scriptBlocker (fst (snd out)), snd (snd out))
  /\ localStorage (snd (snd out)) = localStorage b
  /\ fst (CookieConsent.getConsent (snd (snd out))) = fst (StorageManager.load b)
  /\ CookieConsent.banner (fst (snd out))
     = (autoShow (CookieConsent.config app) || CookieConsent.banner app)%bool
  /\ CookieConsent.floatingWidget (fst (snd out)) = CookieConsent.floatingWidget app
  /\ emitted (snd (snd out))
     = (emitted b
        ++ (if autoShow (CookieConsent.config app)
            then [("consent:show", NoPayload)] else [])
        ++ [("consent:init", NoPayload)])%list.
Proof.
  intros _ Hload out engaged.
  pose proof (init_same_outside_page (CookieConsent.scriptBlocker app, b)) as Hs.
  fold engaged in Hs. cbn [snd] in Hs.
  destruct (init_browser (CookieConsent.scriptBlocker app, b)) as (h & n & Eb).
  fold engaged in Eb. cbn [snd] in Eb.
  pose proof (init_gated (CookieConsent.scriptBlocker app, b)) as Hg.
  fold engaged in Hg.
  set (b1 := if CookieConsent.gtmIntegration app
             then GTMConsentMode.setDefaultConsent (snd engaged) else snd engaged).
  assert (H1 : localStorage b1 = localStorage b /\ now b1 = now b
               /\ heap b1 = heap (snd engaged)
               /\ attached b1 = attached (snd engaged)
               /\ resolveURL b1 = resolveURL (snd engaged)
               /\ emitted b1 = emitted b).
  { unfold b1. rewrite Eb. destruct (CookieConsent.gtmIntegration app);
      now repeat split. }
  destruct H1 as (Hls & Hnow & Hh & Ha & Hr & He).
  assert (Hclock : same_clock b b1)
    by (unfold b1; rewrite Eb; apply same_clock_engaged).
  assert (Eout : exists b2,
             (b2 = b1 \/ b2 = console_log "Failed to load consent:" b1)
             /\ out = (Ok tt,
                       (if autoShow (CookieConsent.config app)
                        then CookieConsent.set_banner true
                               (CookieConsent.set_scriptBlocker (fst engaged) app)
                        else CookieConsent.set_scriptBlocker (fst engaged) app,
                        publish "consent:init" NoPayload
                          (if autoShow (CookieConsent.config app)
                           then publish "consent:show" NoPayload b2 else b2)))).
  { unfold out. rewrite init_unfold. cbv zeta. fold engaged. fold b1.
    pose proof (load_depends_on_storage b b1 Hls) as Hl.
    pose proof (load_browser b1) as Hb.
    destruct (StorageManager.load b1) as [loaded b2]. cbn [fst snd] in *.
    exists b2. split; [exact Hb|].
    destruct Hload as [Hn | (v & Hv & Hexp)].
    - rewrite Hn in Hl. subst loaded.
      destruct (autoShow (CookieConsent.config app)); reflexivity.
    - rewrite Hv in Hl. subst loaded.
      assert (Hx : StorageManager.isExpired v b2 = true).
      { rewrite <- Hexp. apply isExpired_depends_on_clock.
        destruct Hb as [-> | ->]; exact Hclock. }
      rewrite Hx, andb_false_r.
      destruct (autoShow (CookieConsent.config app)); reflexivity. }
  destruct Eout as (b2 & Hb2 & ->). cbn [fst snd].
  assert (H2 : localStorage b2 = localStorage b /\ heap b2 = heap (snd engaged)
               /\ attached b2 = attached (snd engaged)
               /\ resolveURL b2 = resolveURL (snd engaged)
               /\ emitted b2 = emitted b).
  { destruct Hb2 as [-> | ->]; now repeat split. }
  destruct H2 as (Hls2 & Hh2 & Ha2 & Hr2 & He2).
  destruct (autoShow (CookieConsent.config app));
    cbn [publish emitted set_emitted heap attached localStorage
           CookieConsent.scriptBlocker CookieConsent.set_banner
           CookieConsent.set_scriptBlocker CookieConsent.banner
           CookieConsent.floatingWidget orb];
    rewrite ?He2, <- ?app_assoc;
    (split; [reflexivity|]); (split; [reflexivity|]); (split; [exact Hh2|]);
    (split; [exact Ha2|]);
    (split; [apply (gated_ext (fst engaged) (snd engaged)); auto;
             now destruct engaged|]);
    (split; [exact Hls2|]);
    (split; [unfold CookieConsent.getConsent;
             apply load_depends_on_storage; cbn [localStorage publish set_emitted];
             exact Hls2|]);
    repeat split.
Qed.

(** X17: start-up of a returning visitor.  With a well-formed record in
    storage that has not expired and was made under the current (or a
    later) revision, [init] applies the stored decision: it returns
    normally, hands the stored categories to the gate, which releases
    what they allow and remembers them, publishes [consent:load] with
    the record and then [consent:init], shows no banner, and shows the
    widget when [showWidget] is on.  (The stored text is in the scope
    of the parser.) *)
Theorem init_applies_a_current_record
  (app : CookieConsent.t) (b : Browser) (r : ConsentRecord) :
  stored_in_scope b ->
  wf_record r ->
  revision (ConsentManager.config (CookieConsent.consentManager app)) <= version r ->
  Storage.getItem StorageManager.STORAGE_KEY (localStorage b)
  = Ok (Some (JSON.stringify (record_to_json r))) ->
  StorageManager.isExpired (record_to_json r) b = false ->
  let out := CookieConsent.init (app, b) in
  let engaged := ScriptBlocker.init (CookieConsent.scriptBlocker app, b) in
  let b1 := if CookieConsent.gtmIntegration app
            then GTMConsentMode.setDefaultConsent (snd engaged)
            else snd engaged in
  let released := ScriptBlocker.unblock (categories r) (fst engaged, b1) in
  fst out = Ok tt
  /\ CookieConsent.scriptBlocker (fst (snd out)) = fst released
  /\ ScriptBlocker.currentConsent (CookieConsent.scriptBlocker (fst (snd out)))
     = Some (categories r)
  /\ heap (snd (snd out)) = heap (snd released)
  /\ attached (snd (snd out)) = attached (snd released)
  /\ emitted (snd (snd out))
     = (emitted (snd released)
        ++ [("consent:load", RecordPayload (record_to_json r));
            ("consent:init", NoPayload)])%list
  /\ CookieConsent.banner (fst (snd out)) = CookieConsent.banner app
  /\ CookieConsent.floatingWidget (fst (snd out))
     = (showWidget (CookieConsent.config app)
        || CookieConsent.floatingWidget app)%bool.
Proof.
  intros _ Hwf Hver Hget Hexp out engaged b1 released.
  destruct (init_browser (CookieConsent.scriptBlocker app, b)) as (h & n & Eb).
  fold engaged in Eb. cbn [snd] in Eb.
  assert (H1 : localStorage b1 = localStorage b /\ now b1 = now b).
  { unfold b1. rewrite Eb. destruct (CookieConsent.gtmIntegration app);
      now repeat split. }
  destruct H1 as (Hls & Hnow).
  assert (Hclock : same_clock b b1)
    by (unfold b1; rewrite Eb; apply same_clock_engaged).
  assert (Hupd : ConsentManager.needsUpdate (CookieConsent.consentManager app)
                   (record_to_json r) = false).
  { unfold ConsentManager.needsUpdate. cbn. now apply Z.ltb_ge. }
  assert (Eout : out
                 = (Ok tt,
                    (if showWidget (CookieConsent.config app)
                     then CookieConsent.set_floatingWidget true
                            (CookieConsent.set_scriptBlocker (fst released)
                               (CookieConsent.set_scriptBlocker (fst engaged) app))
                     else CookieConsent.set_scriptBlocker (fst released)
                            (CookieConsent.set_scriptBlocker (fst engaged) app),
                     publish "consent:init" NoPayload
                       (publish "consent:load" (RecordPayload (record_to_json r))
                          (snd released))))).
  { unfold out. rewrite init_unfold. cbv zeta. fold engaged. fold b1.
    rewrite (load_stored_record r b1 Hwf) by (now rewrite Hls).
    rewrite (isExpired_depends_on_clock _ b b1 Hclock), Hexp.
    change (JSON.truthy (record_to_json r)) with true. cbn [andb negb].
    rewrite Hupd, stored_categories_record.
    unfold CookieConsent.applyConsent. cbn [fst snd].
    change (CookieConsent.scriptBlocker
              (CookieConsent.set_scriptBlocker (fst engaged) app))
      with (fst engaged).
    fold released. destruct released as [sb b3]. cbn [fst snd].
    change (showWidget (CookieConsent.config
                          (CookieConsent.set_scriptBlocker sb
                             (CookieConsent.set_scriptBlocker (fst engaged) app))))
      with (showWidget (CookieConsent.config app)).
    destruct (showWidget (CookieConsent.config app)); reflexivity. }
  rewrite Eout. cbn [fst snd].
  pose proof (unblock_currentConsent (categories r) (fst engaged, b1)) as Hc.
  fold released in Hc.
  destruct (showWidget (CookieConsent.config app));
    cbn [publish emitted set_emitted heap attached
           CookieConsent.scriptBlocker CookieConsent.set_floatingWidget
           CookieConsent.set_scriptBlocker CookieConsent.banner
           CookieConsent.floatingWidget orb];
    rewrite <- ?app_assoc; repeat split; auto.
Qed.

(** X18: a stored record whose [categories] is [null].  Such a record
    passes the shape check of [load] ([typeof null] is ["object"]); when
    it has not expired and needs no update and the engaged gate holds a
    script with a category, applying it makes [init] throw a TypeError:
    no banner is shown and neither [consent:load] nor [consent:init] is
    published.  (The stored text is in the scope of the parser.) *)
Theorem init_throws_on_null_categories
  (app : CookieConsent.t) (b : Browser) (v : JSON.value) :
  stored_in_scope b ->
  fst (StorageManager.load b) = Ok (Some v) ->
  StorageManager.isExpired v b = false ->
  ConsentManager.needsUpdate (CookieConsent.consentManager app) v = false ->
  CookieConsent.stored_categories v = None ->
  let engaged := ScriptBlocker.init (CookieConsent.scriptBlocker app, b) in
  (exists entry,
      In entry (ScriptBlocker.blockedScripts (fst engaged))
      /\ JS.truthy (ScriptBlocker.category_of (fst engaged) (snd engaged) (snd entry))
         = true) ->
  let out := CookieConsent.init (app, b) in
  fst out = Throw (TypeError "Cannot read properties of null")
  /\ emitted (snd (snd out)) = emitted b
  /\ CookieConsent.banner (fst (snd out)) = CookieConsent.banner app
  /\ CookieConsent.floatingWidget (fst (snd out)) = CookieConsent.floatingWidget app.
Proof.
  intros _ Hload Hexp Hupd Hcat engaged (entry & Hin & Htruthy) out.
  destruct (init_browser (CookieConsent.scriptBlocker app, b)) as (h & n & Eb).
  fold engaged in Eb. cbn [snd] in Eb.
  set (b1 := if CookieConsent.gtmIntegration app
             then GTMConsentMode.setDefaultConsent (snd engaged) else snd engaged).
  assert (H1 : localStorage b1 = localStorage b /\ now b1 = now b
               /\ heap b1 = heap (snd engaged)
               /\ resolveURL b1 = resolveURL (snd engaged)
               /\ emitted b1 = emitted b).
  { unfold b1. rewrite Eb. destruct (CookieConsent.gtmIntegration app);
      now repeat split. }
  destruct H1 as (Hls & Hnow & Hh & Hr & He).
  assert (Hclock : same_clock b b1)
    by (unfold b1; rewrite Eb; apply same_clock_engaged).
  assert (Hv : JSON.truthy v = true).
  { apply validateSchema_truthy. now apply (load_Some_schema b). }
  assert (Eout : exists b2,
             (b2 = b1 \/ b2 = console_log "Failed to load consent:" b1)
             /\ out = (Throw (TypeError "Cannot read properties of null"),
                       (CookieConsent.set_scriptBlocker
                          (ScriptBlocker.set_currentConsent None (fst engaged))
                          (CookieConsent.set_scriptBlocker (fst engaged) app),
                        b2))).
  { unfold out. rewrite init_unfold. cbv zeta. fold engaged. fold b1.
    pose proof (load_depends_on_storage b b1 Hls) as Hl.
    pose proof (load_browser b1) as Hb.
    destruct (StorageManager.load b1) as [loaded b2]. cbn [fst snd] in *.
    exists b2. split; [exact Hb|].
    rewrite Hload in Hl. subst loaded.
    assert (Hx : StorageManager.isExpired v b2 = false).
    { rewrite <- Hexp. apply isExpired_depends_on_clock.
      destruct Hb as [-> | ->]; exact Hclock. }
    rewrite Hv, Hx, Hupd, Hcat. cbn [andb negb].
    unfold ScriptBlocker.unblock_null. cbn [fst snd].
    change (CookieConsent.scriptBlocker
              (CookieConsent.set_scriptBlocker (fst engaged) app))
      with (fst engaged).
    assert (Hex : existsb
                    (fun e => JS.truthy
                                (ScriptBlocker.category_of
                                   (ScriptBlocker.set_currentConsent None (fst engaged))
                                   b2 (snd e)))
                    (ScriptBlocker.blockedScripts
                       (ScriptBlocker.set_currentConsent None (fst engaged)))
                  = true).
    { apply existsb_exists. exists entry. split; [exact Hin|].
      rewrite <- Htruthy. unfold ScriptBlocker.category_of.
      cbn [ScriptBlocker.categoryManager ScriptBlocker.set_currentConsent].
      destruct Hb as [-> | ->]; cbn [heap resolveURL console_log set_console];
        now rewrite Hh, Hr. }
    now rewrite Hex. }
  destruct Eout as (b2 & Hb2 & ->). cbn [fst snd].
  repeat split.
  destruct Hb2 as [-> | ->]; exact He.
Qed.

(** X19: a valid decision is stored and applied.  When the decision
    passes validation and the storage takes the write, [updateConsent]
    returns normally; the record it made is the manager's current
    consent and is what [getConsent] reads back from storage; the gate
    has been given the decision, releases what it allows and remembers
    it for scripts that arrive later; and the widget is scheduled when
    [showWidget] is on. *)
Theorem updateConsent_stores_and_applies
  (app : CookieConsent.t) (b : Browser) (decision : ConsentCategories) :
  ConsentManager.validateConsent (CookieConsent.consentManager app) decision = true ->
  NoDup (JS.keys decision) ->
  let r := ConsentManager.createConsentRecord
             (CookieConsent.consentManager app) decision b in
  forall s,
  Storage.setItem StorageManager.STORAGE_KEY (JSON.stringify (record_to_json r))
    (localStorage b) = Ok s ->
  let out := CookieConsent.updateConsent decision (app, b) in
  let released :=
    ScriptBlocker.unblock decision
      (CookieConsent.scriptBlocker app, set_localStorage s b) in
  fst out = Ok tt
  /\ ConsentManager.getCurrentConsent (CookieConsent.consentManager (fst (snd out)))
     = Some r
  /\ fst (CookieConsent.getConsent (snd (snd out))) = Ok (Some (record_to_json r))
  /\ CookieConsent.scriptBlocker (fst (snd out)) = fst released
  /\ ScriptBlocker.currentConsent (CookieConsent.scriptBlocker (fst (snd out)))
     = Some decision
  /\ heap (snd (snd out)) = heap (snd released)
  /\ attached (snd (snd out)) = attached (snd released)
  /\ emitted (snd (snd out)) = emitted (snd released)
  /\ CookieConsent.widgetTimer (fst (snd out))
     = (showWidget (CookieConsent.config app) || CookieConsent.widgetTimer app)%bool.
Proof.
  intros Hv Hnd r s Hset out released.
  pose proof (unblock_same_outside_page decision
                (CookieConsent.scriptBlocker app, set_localStorage s b)) as Hs.
  fold released in Hs. cbn [snd] in Hs. destruct Hs as (Hls & _).
  pose proof (unblock_currentConsent decision
                (CookieConsent.scriptBlocker app, set_localStorage s b)) as Hc.
  fold released in Hc.
  assert (Eout : exists b',
             localStorage b' = s /\ heap b' = heap (snd released)
             /\ attached b' = attached (snd released)
             /\ emitted b' = emitted (snd released)
             /\ out = (Ok tt,
                       ((if showWidget (CookieConsent.config app)
                         then CookieConsent.set_widgetTimer true else fun x => x)
                          (CookieConsent.set_scriptBlocker (fst released)
                             (CookieConsent.set_consentManager
                                {| ConsentManager.consent := Some r;
                                   ConsentManager.config :=
                                     ConsentManager.config
                                       (CookieConsent.consentManager app) |} app)),
                        b'))).
  { unfold out, CookieConsent.updateConsent, ConsentManager.updateConsent.
    rewrite Hv. cbn [negb]. fold r.
    unfold StorageManager.save, try_catch. rewrite Hset.
    unfold CookieConsent.applyConsent. cbn [fst snd].
    change (CookieConsent.scriptBlocker
              (CookieConsent.set_consentManager _ app))
      with (CookieConsent.scriptBlocker app).
    fold released. destruct released as [sb b3]. cbn [fst snd] in *.
    change (CookieConsent.gtmIntegration
              (CookieConsent.set_scriptBlocker sb
                 (CookieConsent.set_consentManager
                    {| ConsentManager.consent := Some r;
                       ConsentManager.config :=
                         ConsentManager.config (CookieConsent.consentManager app) |}
                    app)))
      with (CookieConsent.gtmIntegration app).
    change (showWidget
              (CookieConsent.config
                 (CookieConsent.set_scriptBlocker sb
                    (CookieConsent.set_consentManager
                       {| ConsentManager.consent := Some r;
                          ConsentManager.config :=
                            ConsentManager.config (CookieConsent.consentManager app) |}
                       app))))
      with (showWidget (CookieConsent.config app)).
    destruct (CookieConsent.gtmIntegration app),
      (showWidget (CookieConsent.config app));
      eexists; (split; [|split; [|split; [|split; [|reflexivity]]]]);
      cbn [localStorage heap attached emitted console_log set_console
             GTMConsentMode.updateConsent GTMConsentMode.push set_dataLayer];
      auto. }
  destruct Eout as (b' & Hl' & Hh' & Ha' & He' & ->). cbn [fst snd].
  assert (Hload : fst (StorageManager.load b') = Ok (Some (record_to_json r))).
  { rewrite (load_stored_record r b'); [reflexivity | exact Hnd |].
    rewrite Hl'. now apply (setItem_getItem _ _ (localStorage b)). }
  unfold CookieConsent.getConsent.
  destruct (showWidget (CookieConsent.config app));
    cbn [CookieConsent.consentManager CookieConsent.set_widgetTimer
           CookieConsent.set_scriptBlocker CookieConsent.set_consentManager
           CookieConsent.scriptBlocker CookieConsent.widgetTimer
           ConsentManager.getCurrentConsent ConsentManager.consent orb];
    repeat split; auto.
Qed.

(** X20: a decision the storage does not take is applied all the same.
    When the write fails (storage full or refusing access),
    [updateConsent] still returns normally: the failure is written to
    the console, the storage is left as it was, so the next page load
    will not find the decision, but the gate is given the decision and
    releases what it allows. *)
Theorem updateConsent_applies_without_storage
  (app : CookieConsent.t) (b : Browser) (decision : ConsentCategories) :
  ConsentManager.validateConsent (CookieConsent.consentManager app) decision = true ->
  let r := ConsentManager.createConsentRecord
             (CookieConsent.consentManager app) decision b in
  forall e,
  Storage.setItem StorageManager.STORAGE_KEY (JSON.stringify (record_to_json r))
    (localStorage b) = Throw e ->
  let out := CookieConsent.updateConsent decision (app, b) in
  let released :=
    ScriptBlocker.unblock decision
      (CookieConsent.scriptBlocker app, console_log "Failed to save consent:" b) in
  fst out = Ok tt
  /\ localStorage (snd (snd out)) = localStorage b
  /\ fst (CookieConsent.getConsent (snd (snd out))) = fst (CookieConsent.getConsent b)
  /\ In "Failed to save consent:" (console (snd (snd out)))
  /\ ConsentManager.getCurrentConsent (CookieConsent.consentManager (fst (snd out)))
     = Some r
  /\ CookieConsent.scriptBlocker (fst (snd out)) = fst released
  /\ ScriptBlocker.currentConsent (CookieConsent.scriptBlocker (fst (snd out)))
     = Some decision
  /\ heap (snd (snd out)) = heap (snd released)
  /\ attached (snd (snd out)) = attached (snd released)
  /\ emitted (snd (snd out)) = emitted (snd released).
Proof.
  intros Hv r e Hset out released.
  pose proof (unblock_same_outside_page decision
                (CookieConsent.scriptBlocker app,
                 console_log "Failed to save consent:" b)) as Hs.
  fold released in Hs. cbn [snd] in Hs. destruct Hs as (Hls & _ & Hco & _).
  pose proof (unblock_currentConsent decision
                (CookieConsent.scriptBlocker app,
                 console_log "Failed to save consent:" b)) as Hc.
  fold released in Hc.
  assert (Eout : exists b' more,
             localStorage b' = localStorage b /\ heap b' = heap (snd released)
             /\ attached b' = attached (snd released)
             /\ emitted b' = emitted (snd released)
             /\ console b' = ((console b ++ ["Failed to save consent:"]) ++ more)%list
             /\ out = (Ok tt,
                       ((if showWidget (CookieConsent.config app)
                         then CookieConsent.set_widgetTimer true else fun x => x)
                          (CookieConsent.set_scriptBlocker (fst released)
                             (CookieConsent.set_consentManager
                                {| ConsentManager.consent := Some r;
                                   ConsentManager.config :=
                                     ConsentManager.config
                                       (CookieConsent.consentManager app) |} app)),
                        b'))).
  { unfold out, CookieConsent.updateConsent, ConsentManager.updateConsent.
    rewrite Hv. cbn [negb]. fold r.
    unfold StorageManager.save, try_catch. rewrite Hset.
    unfold StorageManager.console_error.
    unfold CookieConsent.applyConsent. cbn [fst snd].
    change (CookieConsent.scriptBlocker
              (CookieConsent.set_consentManager _ app))
      with (CookieConsent.scriptBlocker app).
    fold released. destruct released as [sb b3]. cbn [fst snd] in *.
    change (CookieConsent.gtmIntegration
              (CookieConsent.set_scriptBlocker sb
                 (CookieConsent.set_consentManager
                    {| ConsentManager.consent := Some r;
                       ConsentManager.config :=
                         ConsentManager.config (CookieConsent.consentManager app) |}
                    app)))
      with (CookieConsent.gtmIntegration app).
    change (showWidget
              (CookieConsent.config
                 (CookieConsent.set_scriptBlocker sb
                    (CookieConsent.set_consentManager
                       {| ConsentManager.consent := Some r;
                          ConsentManager.config :=
                            ConsentManager.config (CookieConsent.consentManager app) |}
                       app))))
      with (showWidget (CookieConsent.config app)).
    destruct (CookieConsent.gtmIntegration app),
      (showWidget (CookieConsent.config app));
      eexists; eexists;
      (split; [|split; [|split; [|split; [|split; [|reflexivity]]]]]);
      cbn [localStorage heap attached emitted console console_log set_console
             GTMConsentMode.updateConsent GTMConsentMode.push set_dataLayer];
      auto; rewrite Hco; reflexivity. }
  destruct Eout as (b' & more & Hl' & Hh' & Ha' & He' & Hc' & ->). cbn [fst snd].
  unfold CookieConsent.getConsent.
  destruct (showWidget (CookieConsent.config app));
    cbn [CookieConsent.consentManager CookieConsent.set_widgetTimer
           CookieConsent.set_scriptBlocker CookieConsent.set_consentManager
           CookieConsent.scriptBlocker CookieConsent.widgetTimer
           ConsentManager.getCurrentConsent ConsentManager.consent orb];
    repeat split; auto;
    try (now apply load_depends_on_storage);
    rewrite Hc'; apply in_or_app; left; apply in_or_app; right; now left.
Qed.

(** X21: [reset].  With an accessible storage [reset] removes the stored
    record (a following [getConsent] answers [null]), makes the gate
    forget the approval and withhold again every marked script with a
    category, shows the banner and publishes [consent:show]; the
    consent manager keeps its in-memory record.  With a storage that
    refuses access it throws before doing any of this. *)
Theorem reset_forgets_and_asks_again (app : CookieConsent.t) (b : Browser) :
  (Storage.denied (localStorage b) = false ->
   let out := CookieConsent.reset (app, b) in
   fst out = Ok tt
   /\ fst (CookieConsent.getConsent (snd (snd out))) = Ok None
   /\ ScriptBlocker.currentConsent (CookieConsent.scriptBlocker (fst (snd out)))
      = None
   /\ gated (CookieConsent.scriptBlocker (fst (snd out)), snd (snd out))
   /\ CookieConsent.banner (fst (snd out)) = true
   /\ emitted (snd (snd out)) = (emitted b ++ [("consent:show", NoPayload)])%list
   /\ CookieConsent.consentManager (fst (snd out)) = CookieConsent.consentManager app)
  /\ (Storage.denied (localStorage b) = true ->
      CookieConsent.reset (app, b)
      = (Throw (DOMException "SecurityError"), (app, b))).
Proof.
  split; intros D.
  - intros out.
    set (b0 := set_localStorage
                 {| Storage.items :=
                      filter (fun kv => negb (String.eqb (fst kv)
                                                StorageManager.STORAGE_KEY))
                             (Storage.items (localStorage b));
                    Storage.denied := false;
                    Storage.quota := Storage.quota (localStorage b) |} b).
    set (blocked := ScriptBlocker.block (CookieConsent.scriptBlocker app, b0)).
    assert (Eout : out = (Ok tt,
                          (CookieConsent.set_banner true
                             (CookieConsent.set_scriptBlocker (fst blocked) app),
                           publish "consent:show" NoPayload (snd blocked)))).
    { unfold out, CookieConsent.reset, StorageManager.clear, Storage.removeItem.
      cbn [fst snd]. rewrite D. fold b0. fold blocked.
      destruct blocked as [sb b1]. reflexivity. }
    pose proof (block_same_outside_page (CookieConsent.scriptBlocker app, b0)) as Hs.
    fold blocked in Hs. cbn [snd] in Hs. destruct Hs as (Hls & _).
    pose proof (block_gated (CookieConsent.scriptBlocker app, b0)) as Hg.
    fold blocked in Hg.
    assert (Hcc : ScriptBlocker.currentConsent (fst blocked) = None).
    { unfold blocked, ScriptBlocker.block.
      rewrite blockExistingScripts_pass. now rewrite pass_currentConsent. }
    assert (He : emitted (snd blocked) = emitted b).
    { unfold blocked, ScriptBlocker.block. rewrite blockExistingScripts_pass.
      match goal with
      | |- emitted (snd (pass ?l ?s)) = _ =>
          destruct (pass_browser l s) as (h & n & E)
      end.
      rewrite E. reflexivity. }
    rewrite Eout. cbn [fst snd]. repeat split.
    + unfold CookieConsent.getConsent.
      rewrite (load_depends_on_storage b0) by exact Hls.
      unfold StorageManager.load, StorageManager.load_body, try_catch, Storage.getItem.
      unfold b0. cbn [localStorage set_localStorage Storage.denied Storage.items].
      now rewrite get_filter_same.
    + exact Hcc.
    + apply (gated_ext (fst blocked) (snd blocked)); try reflexivity.
      now destruct blocked.
    + cbn [publish emitted set_emitted]. now rewrite He.
  - unfold CookieConsent.reset, StorageManager.clear, Storage.removeItem.
    cbn [fst snd]. rewrite D. now destruct app.
Qed.

(** X16, witness: a visitor comes back to a page with two tracking
    scripts; the stored record was written by hand and lapsed on
    1 January 2020.  [load] answers it, [isExpired] finds it expired,
    and the visitor is asked again. *)
Lemma lapsed_visit_asks :
  let b := set_localStorage Scenarios.lapsed_storage
             (Examples.page [Examples.ga; Examples.pixel]) in
  let out := CookieConsent.init (Scenarios.site, b) in
  stored_in_scope b
  /\ (exists v, fst (StorageManager.load b) = Ok (Some v)
               /\ JSON.get_property "version" v = Some (JSON.JNumber 1)
               /\ StorageManager.isExpired v b = true)
  /\ fst out = Ok tt
  /\ CookieConsent.banner (fst (snd out)) = true
  /\ gated (CookieConsent.scriptBlocker (fst (snd out)), snd (snd out))
  /\ emitted (snd (snd out))
     = [("consent:show"%string, NoPayload); ("consent:init"%string, NoPayload)].
Proof.
  intros b out.
  assert (H0 : stored_in_scope b).
  { intros data Hget. vm_compute in Hget. injection Hget as <-.
    vm_compute. reflexivity. }
  set (v := JSON.JObject
              [ ("version"%string, JSON.JNumber 1);
                ("timestamp"%string, JSON.JString "2018-12-01");
                ("categories"%string,
                 JSON.JObject [("necessary"%string, JSON.JBool true)]);
                ("userAgent"%string, JSON.JString "Mozilla/5.0");
                ("expiresAt"%string, JSON.JString "2020-01-01") ]).
  assert (H1 : fst (StorageManager.load b) = Ok (Some v)) by (vm_compute; reflexivity).
  assert (H2 : StorageManager.isExpired v b = true) by (vm_compute; reflexivity).
  split; [exact H0|].
  split; [exists v; repeat split; assumption|].
  pose proof (init_without_usable_record_asks
                Scenarios.site b H0
                (or_intror (ex_intro _ v (conj H1 H2)))) as T.
  cbv zeta in T. fold out in T.
  destruct T as (T1 & _ & _ & _ & T5 & _ & _ & T7 & _ & T9).
  split; [exact T1|]. split; [exact T7|]. split; [exact T5 | exact T9].
Defined.

(** X17, witness: the second visit under the same policy: the
    stored decision is applied and no banner is shown. *)
Lemma second_visit_is_not_asked :
  let out := CookieConsent.init (Scenarios.site, Examples.second_visit) in
  (stored_in_scope Examples.second_visit
   /\ wf_record Examples.first_record
   /\ revision (ConsentManager.config (CookieConsent.consentManager Scenarios.site))
      <= version Examples.first_record
   /\ Storage.getItem StorageManager.STORAGE_KEY (localStorage Examples.second_visit)
      = Ok (Some (JSON.stringify (record_to_json Examples.first_record)))
   /\ StorageManager.isExpired (record_to_json Examples.first_record)
        Examples.second_visit = false)
  /\ fst out = Ok tt
  /\ CookieConsent.banner (fst (snd out)) = false
  /\ ScriptBlocker.currentConsent (CookieConsent.scriptBlocker (fst (snd out)))
     = Some Examples.analytics_only.
Proof.
  intros out.
  assert (H0 : stored_in_scope Examples.second_visit).
  { intros data Hget. vm_compute in Hget. injection Hget as <-.
    vm_compute. reflexivity. }
  assert (H2 : revision (ConsentManager.config
                           (CookieConsent.consentManager Scenarios.site))
               <= version Examples.first_record) by (vm_compute; discriminate).
  assert (H3 : Storage.getItem StorageManager.STORAGE_KEY
                 (localStorage Examples.second_visit)
               = Ok (Some (JSON.stringify (record_to_json Examples.first_record))))
    by (vm_compute; reflexivity).
  assert (H4 : StorageManager.isExpired (record_to_json Examples.first_record)
                 Examples.second_visit = false)
    by (vm_compute; reflexivity).
  split.
  { split; [exact H0|]. split; [apply first_record_wf|]. split; [exact H2|].
    split; [exact H3 | exact H4]. }
  pose proof (init_applies_a_current_record
                Scenarios.site Examples.second_visit Examples.first_record
                H0 first_record_wf H2 H3 H4) as T.
  cbv zeta in T. fold out in T.
  destruct T as (T1 & _ & T3 & _ & _ & _ & T7 & _).
  split; [exact T1|]. split; [exact T7 | exact T3].
Defined.

(** X18, witness: a stored record with [categories: null] on a
    page with one tracking script. *)
Lemma null_categories_stop_the_start :
  let b := set_localStorage Scenarios.null_categories_storage
             (Examples.page [Examples.ga]) in
  let out := CookieConsent.init (Scenarios.site, b) in
  stored_in_scope b
  /\ (exists v,
      fst (StorageManager.load b) = Ok (Some v)
      /\ StorageManager.isExpired v b = false
      /\ ConsentManager.needsUpdate (CookieConsent.consentManager Scenarios.site) v
         = false
      /\ CookieConsent.stored_categories v = None)
  /\ fst out = Throw (TypeError "Cannot read properties of null")
  /\ emitted (snd (snd out)) = [].
Proof.
  intros b out.
  assert (H0 : stored_in_scope b).
  { intros data Hget. vm_compute in Hget. injection Hget as <-.
    vm_compute. reflexivity. }
  split; [exact H0|].
  set (v := JSON.JObject
              [ ("version"%string, JSON.JNumber 1);
                ("timestamp"%string, JSON.JString "2024-01-31T12:00:00.000Z");
                ("categories"%string, JSON.JNull);
                ("userAgent"%string, JSON.JString "Mozilla/5.0");
                ("expiresAt"%string, JSON.JString "2025-03-03T12:00:00.000Z") ]).
  assert (H1 : fst (StorageManager.load b) = Ok (Some v)) by (vm_compute; reflexivity).
  assert (H2 : StorageManager.isExpired v b = false) by (vm_compute; reflexivity).
  assert (H3 : ConsentManager.needsUpdate
                 (CookieConsent.consentManager Scenarios.site) v = false)
    by (vm_compute; reflexivity).
  assert (H4 : CookieConsent.stored_categories v = None) by reflexivity.
  split; [exists v; auto|].
  pose proof (init_throws_on_null_categories
                Scenarios.site b v H0 H1 H2 H3 H4) as T.
  cbv zeta in T.
  assert (H5 : exists entry,
             In entry
               (ScriptBlocker.blockedScripts
                  (fst (ScriptBlocker.init
                          (CookieConsent.scriptBlocker Scenarios.site, b))))
             /\ JS.truthy
                  (ScriptBlocker.category_of
                     (fst (ScriptBlocker.init
                             (CookieConsent.scriptBlocker Scenarios.site, b)))
                     (snd (ScriptBlocker.init
                             (CookieConsent.scriptBlocker Scenarios.site, b)))
                     (snd entry)) = true).
  { exists ("https://www.google-analytics.com/analytics.js"%string, 0%nat).
    split; [now left | reflexivity]. }
  destruct (T H5) as (T1 & T2 & _).
  split; [exact T1 | exact T2].
Defined.

(** X19, witness: analytics accepted on a page with room in
    its storage. *)
Lemma accepted_analytics_is_stored :
  let b := Examples.page [Examples.ga; Examples.pixel] in
  let out := CookieConsent.updateConsent Examples.analytics_only (Scenarios.site, b) in
  (ConsentManager.validateConsent (CookieConsent.consentManager Scenarios.site)
     Examples.analytics_only = true
   /\ NoDup (JS.keys Examples.analytics_only)
   /\ exists s,
        Storage.setItem StorageManager.STORAGE_KEY
          (JSON.stringify (record_to_json Examples.first_record))
          (localStorage b) = Ok s)
  /\ fst out = Ok tt
  /\ fst (CookieConsent.getConsent (snd (snd out)))
     = Ok (Some (record_to_json Examples.first_record))
  /\ ScriptBlocker.currentConsent (CookieConsent.scriptBlocker (fst (snd out)))
     = Some Examples.analytics_only.
Proof.
  intros b out.
  assert (H1 : ConsentManager.validateConsent
                 (CookieConsent.consentManager Scenarios.site)
                 Examples.analytics_only = true) by reflexivity.
  assert (H2 : NoDup (JS.keys Examples.analytics_only)).
  { repeat constructor; cbn; intuition discriminate. }
  destruct (Storage.setItem StorageManager.STORAGE_KEY
              (JSON.stringify (record_to_json Examples.first_record))
              (localStorage b)) as [s|e] eqn:H3; [|vm_compute in H3; discriminate H3].
  split; [split; [reflexivity|]; split; [exact H2 | now exists s]|].
  pose proof (updateConsent_stores_and_applies
                Scenarios.site b Examples.analytics_only H1 H2 s H3) as T.
  cbv zeta in T. fold out in T.
  destruct T as (T1 & _ & T3 & _ & T5 & _).
  split; [exact T1|]. split; [exact T3 | exact T5].
Defined.

(** X20, witness: analytics accepted on a page whose storage
    is full. *)
Lemma decision_without_room_is_applied :
  let b := set_localStorage Examples.full_storage
             (Examples.page [Examples.ga; Examples.pixel]) in
  let out := CookieConsent.updateConsent Examples.analytics_only (Scenarios.site, b) in
  (ConsentManager.validateConsent (CookieConsent.consentManager Scenarios.site)
     Examples.analytics_only = true
   /\ Storage.setItem StorageManager.STORAGE_KEY
        (JSON.stringify (record_to_json Examples.first_record))
        (localStorage b) = Throw (DOMException "QuotaExceededError"))
  /\ fst out = Ok tt
  /\ fst (CookieConsent.getConsent (snd (snd out))) = Ok None
  /\ ScriptBlocker.currentConsent (CookieConsent.scriptBlocker (fst (snd out)))
     = Some Examples.analytics_only.
Proof.
  intros b out.
  assert (H1 : ConsentManager.validateConsent
                 (CookieConsent.consentManager Scenarios.site)
                 Examples.analytics_only = true) by reflexivity.
  assert (H3 : Storage.setItem StorageManager.STORAGE_KEY
                 (JSON.stringify (record_to_json Examples.first_record))
                 (localStorage b) = Throw (DOMException "QuotaExceededError"))
    by (vm_compute; reflexivity).
  split; [split; assumption|].
  pose proof (updateConsent_applies_without_storage
                Scenarios.site b Examples.analytics_only H1 _ H3) as T.
  cbv zeta in T. fold out in T.
  destruct T as (T1 & _ & T3 & _ & _ & _ & T7 & _).
  split; [exact T1|]. split; [rewrite T3; reflexivity | exact T7].
Defined.

End OrchestratorProperties.

(** ** Signals to Google Consent Mode *)

Module SignalFacts.
Import JSFacts GateProps GateFacts SessionProps SessionFacts.
Import StartupFacts StorageFacts PersistenceFacts SignalProps.
Import CookieConsent.

Lemma load_dataLayer (b : Browser) :
  dataLayer (snd (StorageManager.load b)) = dataLayer b.
Proof. destruct (load_browser b) as [-> | ->]; reflexivity. Qed.

Lemma save_dataLayer (r : ConsentRecord) (b : Browser) :
  dataLayer (snd (StorageManager.save r b)) = dataLayer b.
Proof.
  destruct (save_browser r b) as [(s & _ & ->) | (e & _ & ->)]; reflexivity.
Qed.

Lemma applyConsent_dataLayer (c : ConsentCategories) (st : t * Browser) :
  dataLayer (snd (applyConsent c st)) = dataLayer (snd st).
Proof.
  unfold applyConsent.
  pose proof (unblock_same_outside_page c (scriptBlocker (fst st), snd st)) as H.
  destruct (ScriptBlocker.unblock c _) as [sb b']. cbn [snd] in *.
  now destruct H as (_ & -> & _).
Qed.

Lemma init_dataLayer (app : t) (b : Browser) :
  dataLayer (snd (snd (init (app, b))))
  = (dataLayer b ++ if gtmIntegration app then [default_denied] else [])%list.
Proof.
  rewrite init_unfold. cbv zeta.
  destruct (init_same_outside_page (scriptBlocker app, b)) as (_ & Hd & _).
  cbn [snd] in Hd.
  set (engaged := ScriptBlocker.init (scriptBlocker app, b)) in *.
  set (b1 := if gtmIntegration app
             then GTMConsentMode.setDefaultConsent (snd engaged) else snd engaged).
  assert (H1 : dataLayer b1
               = (dataLayer b ++ if gtmIntegration app then [default_denied] else [])%list).
  { unfold b1. destruct (gtmIntegration app).
    - unfold GTMConsentMode.setDefaultConsent, GTMConsentMode.push.
      cbn [dataLayer set_dataLayer]. now rewrite Hd.
    - now rewrite app_nil_r. }
  rewrite <- H1. pose proof (load_dataLayer b1) as Hl.
  destruct (StorageManager.load b1) as [[[v|]|e] b2]; cbn [snd] in *.
  - destruct (_ && _).
    + destruct (ConsentManager.needsUpdate _ _).
      * destruct (autoShow (config app)); exact Hl.
      * destruct (stored_categories v) as [c|].
        -- pose proof (applyConsent_dataLayer c
                         (set_scriptBlocker (fst engaged) app, b2)) as Ha.
           destruct (applyConsent c _) as [this b3]. cbn [snd] in *.
           destruct (showWidget (config this)); cbn [snd fst dataLayer publish
             set_emitted showFloatingWidget]; congruence.
        -- unfold ScriptBlocker.unblock_null. cbn [fst snd].
           destruct (existsb _ _); cbn [snd]; [exact Hl|].
           destruct (showWidget _); exact Hl.
    + destruct (autoShow (config app)); exact Hl.
  - destruct (autoShow (config app)); exact Hl.
  - exact Hl.
Qed.

Lemma updateConsent_dataLayer (app : t) (b : Browser) (decision : ConsentCategories) :
  dataLayer (snd (snd (updateConsent decision (app, b))))
  = (dataLayer b
     ++ if gtmIntegration app
           && ConsentManager.validateConsent (consentManager app) decision
        then [update_for decision] else [])%list.
Proof.
  unfold updateConsent, ConsentManager.updateConsent.
  destruct (ConsentManager.validateConsent (consentManager app) decision);
    cbn [negb snd].
  2: { now rewrite andb_false_r, app_nil_r. }
  rewrite andb_true_r.
  pose proof (save_dataLayer
                (ConsentManager.createConsentRecord (consentManager app) decision b)
                b) as Hs.
  destruct (StorageManager.save _ b) as [u b1]. cbn [snd] in Hs.
  match goal with
  | |- context [applyConsent decision (?a, b1)] =>
      pose proof (applyConsent_dataLayer decision (a, b1)) as Ha;
      assert (Hg : gtmIntegration (fst (applyConsent decision (a, b1)))
                   = gtmIntegration app)
        by (unfold applyConsent; cbn [fst snd];
            destruct (ScriptBlocker.unblock decision _); reflexivity);
      destruct (applyConsent decision (a, b1)) as [this b2]
  end.
  cbn [fst snd] in *. rewrite Hg.
  destruct (gtmIntegration app), (showWidget (config this));
    cbn [snd dataLayer console_log set_console GTMConsentMode.updateConsent
           GTMConsentMode.push set_dataLayer];
    rewrite ?app_nil_r; unfold update_for; congruence.
Qed.

End SignalFacts.

Module SignalProperties.
Import JSFacts SessionProps SignalProps SignalFacts.

(** X22: [DataLayerManager.push].  On a page without a [gtag] function
    it returns normally and the [dataLayer] array, created when
    missing, is the old one with one object appended: the object holds,
    under [command], an object holding [params] under [action], and,
    unless [command] is itself ["event"], the event name
    [consent_update].  With a [gtag] function the function is called
    after the append, with the three arguments, and [push] returns or
    throws as it does.  The entries the model of the orchestrator
    keeps are these objects. *)
Theorem push_appends_one_object (command action : string) (params : JSON.value)
  (w : DataLayerManager.Window) :
  let before := match DataLayerManager.w_dataLayer w with
                | Some l => l
                | None => []
                end in
  let pushed := (before ++ [DataLayerManager.entry command action params])%list in
  (DataLayerManager.w_gtag w = None ->
   DataLayerManager.push command action params w
   = (Ok tt, {| DataLayerManager.w_dataLayer := Some pushed;
                DataLayerManager.w_gtag := None |}))
  /\ (forall gtag,
         DataLayerManager.w_gtag w = Some gtag ->
         DataLayerManager.push command action params w
         = (fst (gtag command action params pushed),
            {| DataLayerManager.w_dataLayer :=
                 Some (snd (gtag command action params pushed));
               DataLayerManager.w_gtag := Some gtag |}))
  /\ JSON.get_property command (DataLayerManager.entry command action params)
     = Some (JSON.JObject [(action, params)])
  /\ (command <> "event" ->
      JSON.get_property "event" (DataLayerManager.entry command action params)
      = Some (JSON.JString "consent_update"))
  /\ (forall (b : Browser) (settings : JS.object string),
         DataLayerManager.push command action
           (JSON.JObject (map (fun kv => (fst kv, JSON.JString (snd kv))) settings))
           (DataLayerManager.window_of b)
         = (Ok tt,
            DataLayerManager.window_of
              (GTMConsentMode.push command action settings b))).
Proof.
  cbv zeta. repeat split.
  - intros Hg. unfold DataLayerManager.push. now rewrite Hg.
  - intros gtag Hg. unfold DataLayerManager.push. rewrite Hg.
    now destruct (gtag command action params _).
  - unfold DataLayerManager.entry, JSON.get_property. apply get_set_same.
  - intros Hne. unfold DataLayerManager.entry, JSON.get_property.
    rewrite get_set_other by congruence. reflexivity.
  - intros b settings. unfold DataLayerManager.push, DataLayerManager.window_of,
      GTMConsentMode.push.
    cbn [DataLayerManager.w_dataLayer DataLayerManager.w_gtag dataLayer set_dataLayer].
    now rewrite map_app.
Qed.

(** X23: what start-up tells Google Consent Mode.  With the integration
    on, [init] pushes the default state (everything denied except
    [security_storage]) and nothing else, whatever the storage holds:
    also when it finds and applies a stored decision it sends no update.
    With the integration off it pushes nothing. *)
Theorem init_signals_only_the_default (app : CookieConsent.t) (b : Browser) :
  dataLayer (snd (snd (CookieConsent.init (app, b))))
  = (dataLayer b
     ++ if CookieConsent.gtmIntegration app then [default_denied] else [])%list
  /\ GTMConsentMode.setDefaultConsent b
     = GTMConsentMode.push "consent" "default" (dl_params default_denied) b
  /\ (forall key,
         JS.get key (dl_params default_denied) = Some "granted"
         <-> key = "security_storage").
Proof.
  split; [apply init_dataLayer|]. split; [reflexivity|].
  intros key. cbn [default_denied dl_params JS.get]. split.
  - repeat match goal with
      | |- context [String.eqb ?k key] =>
          destruct (String.eqb_spec k key); [subst; first [reflexivity|discriminate]|]
      end.
    discriminate.
  - now intros ->.
Qed.

(** X24: what a decision tells Google Consent Mode.  [updateConsent]
    pushes one update when the integration is on and the decision
    passes validation, and nothing otherwise.  In the update
    [security_storage] is granted always; the three advertising
    signals are granted exactly when the decision has [marketing]
    true, [analytics_storage] exactly with [analytics], and the
    functionality and personalization signals exactly with
    [preferences]. *)
Theorem updateConsent_signals_the_decision
  (app : CookieConsent.t) (b : Browser) (decision : ConsentCategories) :
  dataLayer (snd (snd (CookieConsent.updateConsent decision (app, b))))
  = (dataLayer b
     ++ if CookieConsent.gtmIntegration app
           && ConsentManager.validateConsent
                (CookieConsent.consentManager app) decision
        then [update_for decision] else [])%list
  /\ (forall key,
         JS.get key (dl_params (update_for decision)) = Some "granted"
         <-> key = "security_storage"
             \/ ((key = "ad_storage" \/ key = "ad_user_data"
                  \/ key = "ad_personalization")
                 /\ accepts decision "marketing")
             \/ (key = "analytics_storage" /\ accepts decision "analytics")
             \/ ((key = "functionality_storage"
                  \/ key = "personalization_storage")
                 /\ accepts decision "preferences")).
Proof.
  split; [apply updateConsent_dataLayer|].
  intros key. unfold update_for, GTMConsentMode.mapCategoriesToGTM, accepts,
    GTMConsentMode.grant, ConsentManager.truthy.
  cbn [dl_params JS.get].
  destruct (JS.get "marketing" decision) as [[]|];
    destruct (JS.get "analytics" decision) as [[]|];
    destruct (JS.get "preferences" decision) as [[]|];
    (split;
     [ repeat match goal with
         | |- context [String.eqb ?k key] =>
             destruct (String.eqb_spec k key);
             [subst; first [discriminate | intros _; tauto]|]
         end;
       discriminate
     | intros [-> | [[[-> | [-> | ->]] H] | [[-> H] | [[-> | ->] H]]]];
       first [reflexivity | discriminate H] ]).
Qed.

End SignalProperties.

(** ** The decisions of the banner and the preference centre *)

Module DecisionFacts.
Import JSFacts DecisionProps.

Lemma isAllowed_set (c k : string) (v : bool) (o : ConsentCategories) :
  CategoryManager.isAllowed c (JS.set k v o)
  = if String.eqb k c then v else CategoryManager.isAllowed c o.
Proof.
  unfold CategoryManager.isAllowed. rewrite get_set.
  destruct (String.eqb k c); [now destruct v | reflexivity].
Qed.

Lemma keys_set_absent {V : Type} (k : string) (v : V) (o : JS.object V) :
  JS.get k o = None -> JS.keys (JS.set k v o) = (JS.keys o ++ [k])%list.
Proof.
  intros H. rewrite (set_absent k v o H). unfold JS.keys.
  now rewrite map_app.
Qed.

Lemma find_app_s {A : Type} (f : A -> bool) (l l' : list A) :
  find f (l ++ l') = match find f l with Some x => Some x | None => find f l' end.
Proof.
  induction l as [|x l IH]; cbn [app find]; [reflexivity|].
  now destruct (f x).
Qed.

(** The decision read off the toggles: the state of the last toggle
    for a category that has one, what was there before otherwise. *)
Lemma fold_toggles (checkboxes : list PreferenceCenter.checkbox) :
  forall (acc : ConsentCategories) (name : string),
    name <> EmptyString ->
    name <> "__proto__" ->
    JS.get name
      (fold_left
         (fun categories box =>
            match PreferenceCenter.data_category box with
            | Some category =>
                if negb (String.eqb category EmptyString)
                then PreferenceCenter.assign category
                       (PreferenceCenter.checked box) categories
                else categories
            | None => categories
            end)
         checkboxes acc)
    = match toggle_of name (rev checkboxes) with
      | Some box => Some (PreferenceCenter.checked box)
      | None => JS.get name acc
      end.
Proof.
  induction checkboxes as [|box l IH]; intros acc name Hne Hnp; [reflexivity|].
  cbn [fold_left rev]. rewrite (IH _ name Hne Hnp).
  unfold toggle_of. rewrite find_app_s.
  fold (toggle_of name (rev l)).
  destruct (toggle_of name (rev l)) as [b'|]; [reflexivity|].
  cbn [find].
  destruct (PreferenceCenter.data_category box) as [category|]; [|reflexivity].
  unfold PreferenceCenter.assign.
  destruct (String.eqb_spec category name) as [-> | Hc].
  - destruct (String.eqb_spec name EmptyString); [contradiction|].
    destruct (String.eqb_spec name "__proto__"); [contradiction|].
    cbn [negb]. apply get_set_same.
  - destruct (negb _); [|reflexivity].
    destruct (String.eqb category "__proto__"); [reflexivity|].
    apply get_set_other. congruence.
Qed.

(** No toggle adds an entry under the empty name or under [__proto__]. *)
Lemma fold_toggles_skips (checkboxes : list PreferenceCenter.checkbox) :
  forall (acc : ConsentCategories) (name : string),
    name = EmptyString \/ name = "__proto__" ->
    JS.get name
      (fold_left
         (fun categories box =>
            match PreferenceCenter.data_category box with
            | Some category =>
                if negb (String.eqb category EmptyString)
                then PreferenceCenter.assign category
                       (PreferenceCenter.checked box) categories
                else categories
            | None => categories
            end)
         checkboxes acc)
    = JS.get name acc.
Proof.
  induction checkboxes as [|box l IH]; intros acc name Hn; [reflexivity|].
  cbn [fold_left]. rewrite (IH _ name Hn).
  destruct (PreferenceCenter.data_category box) as [category|]; [|reflexivity].
  destruct (String.eqb_spec category EmptyString) as [E | E]; [reflexivity|].
  cbn [negb]. unfold PreferenceCenter.assign.
  destruct (String.eqb_spec category "__proto__") as [P | P]; [reflexivity|].
  apply get_set_other. destruct Hn; congruence.
Qed.

End DecisionFacts.

Module ButtonFacts.
Import JSFacts DecisionProps DecisionFacts.
Import GateProps GateFacts SessionProps SessionFacts StartupFacts.
Import StorageFacts PersistenceFacts.

Lemma validate_allCategories (config : ConsentConfig) :
  ConsentManager.validateConsent (ConsentManager.new config)
    (Banner.allCategories config)
  = defines_fixed_categories config.
Proof.
  unfold Banner.allCategories, defines_fixed_categories, defines,
    ConsentManager.validateConsent, JS.has_property, Banner.preferences_configured.
  cbn [ConsentManager.new ConsentManager.config].
  destruct (JS.hasOwn "preferences" (config_categories config)) eqn:P.
  - cbn. rewrite P. cbn. now rewrite !orb_false_r, !andb_true_r, andb_assoc.
  - cbn. now rewrite !orb_false_r, !andb_true_r, andb_assoc.
Qed.

Lemma validate_necessaryOnly (config : ConsentConfig) :
  ConsentManager.validateConsent (ConsentManager.new config)
    (Banner.necessaryOnly config)
  = defines_fixed_categories config.
Proof.
  unfold Banner.necessaryOnly, defines_fixed_categories, defines,
    ConsentManager.validateConsent, JS.has_property, Banner.preferences_configured.
  cbn [ConsentManager.new ConsentManager.config].
  destruct (JS.hasOwn "preferences" (config_categories config)) eqn:P.
  - cbn. rewrite P. cbn. now rewrite !orb_false_r, !andb_true_r, andb_assoc.
  - cbn. now rewrite !orb_false_r, !andb_true_r, andb_assoc.
Qed.

(** A decision that passes validation makes [updateConsent] return
    normally, whatever the storage does. *)
Lemma updateConsent_returns (app : CookieConsent.t) (b : Browser)
  (decision : ConsentCategories) :
  ConsentManager.validateConsent (CookieConsent.consentManager app) decision = true ->
  exists st', CookieConsent.updateConsent decision (app, b) = (Ok tt, st').
Proof.
  intros Hv. unfold CookieConsent.updateConsent, ConsentManager.updateConsent.
  rewrite Hv. cbn [negb].
  destruct (StorageManager.save _ b) as [u b1].
  destruct (CookieConsent.applyConsent decision _) as [this b2].
  destruct (showWidget (CookieConsent.config this)); eexists; reflexivity.
Qed.

Lemma updateConsent_throws (app : CookieConsent.t) (b : Browser)
  (decision : ConsentCategories) :
  ConsentManager.validateConsent (CookieConsent.consentManager app) decision = false ->
  CookieConsent.updateConsent decision (app, b)
  = (Throw ConsentManager.InvalidConsentError, (app, b)).
Proof.
  intros Hv. unfold CookieConsent.updateConsent, ConsentManager.updateConsent.
  rewrite Hv. cbn [negb]. now destruct app.
Qed.

(** What submitting a decision through the bus does. *)
Lemma emit_decision_cases (event : string) (decision : ConsentCategories)
  (app : CookieConsent.t) (b : Browser) :
  (ConsentManager.validateConsent (CookieConsent.consentManager app) decision = true ->
   exists st1,
     CookieConsent.updateConsent decision (app, b) = (Ok tt, st1)
     /\ Banner.emit_decision event decision (app, b)
        = (fst st1, publish event (CategoriesPayload decision) (snd st1)))
  /\ (ConsentManager.validateConsent (CookieConsent.consentManager app) decision
      = false ->
      Banner.emit_decision event decision (app, b)
      = (app,
         publish event (CategoriesPayload decision)
           (console_log ("Error in event handler for " ++ event ++ ":") b))).
Proof.
  split; intros Hv; unfold Banner.emit_decision, CookieConsent.on_consent_event,
    try_catch.
  - destruct (updateConsent_returns app b decision Hv) as ([app1 b1] & E).
    exists (app1, b1). now rewrite E.
  - now rewrite (updateConsent_throws app b decision Hv).
Qed.

End ButtonFacts.

Module DecisionProperties.
Import JSFacts DecisionProps DecisionFacts ButtonFacts.

(** X25: the decisions of the banner's buttons.  "Accept all" submits
    [necessary], [analytics] and [marketing] as true, and [preferences]
    as true when the policy configures it; "reject all" submits the
    same keys with only [necessary] true.  Either passes validation
    exactly when the policy defines the three fixed categories.  So
    "accept all" allows those categories and no other: a script of any
    other category stays withheld; "reject all" allows [necessary]
    only. *)
Theorem banner_decisions (config : ConsentConfig) :
  let this := ConsentManager.new config in
  ConsentManager.validateConsent this (Banner.allCategories config)
  = defines_fixed_categories config
  /\ ConsentManager.validateConsent this (Banner.necessaryOnly config)
     = defines_fixed_categories config
  /\ (forall category,
         CategoryManager.isAllowed category (Banner.allCategories config) = true
         <-> category = "necessary" \/ category = "analytics"
             \/ category = "marketing"
             \/ (category = "preferences"
                 /\ Banner.preferences_configured config = true))
  /\ (forall category,
         CategoryManager.isAllowed category (Banner.necessaryOnly config) = true
         <-> category = "necessary").
Proof.
  cbv zeta. unfold Banner.allCategories, Banner.necessaryOnly,
    defines_fixed_categories, defines, ConsentManager.validateConsent,
    JS.has_property, Banner.preferences_configured, CategoryManager.isAllowed.
  cbn [ConsentManager.new ConsentManager.config].
  change (JS.set "preferences" true
            [("necessary", true); ("analytics", true); ("marketing", true)])
    with [("necessary", true); ("analytics", true); ("marketing", true);
          ("preferences", true)].
  change (JS.set "preferences" false
            [("necessary", true); ("analytics", false); ("marketing", false)])
    with [("necessary", true); ("analytics", false); ("marketing", false);
          ("preferences", false)].
  destruct (JS.hasOwn "preferences" (config_categories config)) eqn:P;
    (split; [|split; [|split]]).
  - cbn. rewrite P. cbn. now rewrite !orb_false_r, !andb_true_r, andb_assoc.
  - cbn. rewrite P. cbn. now rewrite !orb_false_r, !andb_true_r, andb_assoc.
  - intros category. split.
    + cbn [JS.get].
      repeat match goal with
        | |- context [String.eqb ?k category] =>
            destruct (String.eqb_spec k category); [subst; auto 6|]
        end.
      discriminate.
    + intros [-> | [-> | [-> | [-> _]]]]; reflexivity.
  - intros category. split.
    + cbn [JS.get].
      repeat match goal with
        | |- context [String.eqb ?k category] =>
            destruct (String.eqb_spec k category);
            [subst; first [reflexivity | discriminate]|]
        end.
      discriminate.
    + now intros ->.
  - cbn. now rewrite !orb_false_r, !andb_true_r, andb_assoc.
  - cbn. now rewrite !orb_false_r, !andb_true_r, andb_assoc.
  - intros category. split.
    + cbn [JS.get].
      repeat match goal with
        | |- context [String.eqb ?k category] =>
            destruct (String.eqb_spec k category); [subst; auto 6|]
        end.
      discriminate.
    + intros [-> | [-> | [-> | [_ H]]]]; try reflexivity. discriminate H.
  - intros category. split.
    + cbn [JS.get].
      repeat match goal with
        | |- context [String.eqb ?k category] =>
            destruct (String.eqb_spec k category);
            [subst; first [reflexivity | discriminate]|]
        end.
      discriminate.
    + now intros ->.
Qed.

(** X26: what "accept all" and "reject all" do.  Under a policy that
    defines the three fixed categories the button's decision goes
    through [updateConsent] (recorded, stored, applied), the banner
    closes and the event reaches outside subscribers.  Under a policy
    that lacks one of them the decision is refused inside the emitter's
    [try]: the banner closes all the same, but nothing is recorded,
    stored or released; only the console shows the failure. *)
Theorem banner_buttons (app : CookieConsent.t) (b : Browser) :
  CookieConsent.consentManager app
  = ConsentManager.new (CookieConsent.config app) ->
  let config := CookieConsent.config app in
  (defines_fixed_categories config = true ->
   (exists st1,
       CookieConsent.updateConsent (Banner.allCategories config) (app, b)
       = (Ok tt, st1)
       /\ Banner.handleAcceptAll (app, b)
          = (CookieConsent.set_banner false (fst st1),
             publish "consent:accept"
               (CategoriesPayload (Banner.allCategories config)) (snd st1)))
   /\ (exists st1,
          CookieConsent.updateConsent (Banner.necessaryOnly config) (app, b)
          = (Ok tt, st1)
          /\ Banner.handleRejectAll (app, b)
             = (CookieConsent.set_banner false (fst st1),
                publish "consent:reject"
                  (CategoriesPayload (Banner.necessaryOnly config)) (snd st1))))
  /\ (defines_fixed_categories config = false ->
      Banner.handleAcceptAll (app, b)
      = (CookieConsent.set_banner false app,
         publish "consent:accept" (CategoriesPayload (Banner.allCategories config))
           (console_log "Error in event handler for consent:accept:" b))
      /\ Banner.handleRejectAll (app, b)
         = (CookieConsent.set_banner false app,
            publish "consent:reject"
              (CategoriesPayload (Banner.necessaryOnly config))
              (console_log "Error in event handler for consent:reject:" b))).
Proof.
  intros Hcm config. subst config.
  pose proof (validate_allCategories (CookieConsent.config app)) as Va.
  pose proof (validate_necessaryOnly (CookieConsent.config app)) as Vr.
  rewrite <- Hcm in Va, Vr.
  set (config := CookieConsent.config app) in *.
  unfold Banner.handleAcceptAll, Banner.handleRejectAll, Banner.hide.
  cbn [fst]. fold config.
  split; intros Hd; rewrite Hd in Va, Vr; split.
  - destruct (proj1 (emit_decision_cases "consent:accept"
                       (Banner.allCategories config) app b) Va) as (st1 & E & ->).
    exists st1. now split.
  - destruct (proj1 (emit_decision_cases "consent:reject"
                       (Banner.necessaryOnly config) app b) Vr) as (st1 & E & ->).
    exists st1. now split.
  - now rewrite (proj2 (emit_decision_cases "consent:accept"
                          (Banner.allCategories config) app b) Va).
  - now rewrite (proj2 (emit_decision_cases "consent:reject"
                          (Banner.necessaryOnly config) app b) Vr).
Qed.

(** X27: the decision the preference centre saves.  For every category
    name, the saved decision has the state of the last toggle that
    carries the name, and the default ([necessary] true, [analytics] and
    [marketing] false, nothing else) when no toggle does; a toggle
    without a name, or named [__proto__], adds nothing.  A saved
    decision that the policy accepts goes through [updateConsent] and
    is then published as [consent:update]; one that it refuses is
    dropped inside the emitter's [try], with a line on the console. *)
Theorem preference_centre_saves_the_toggles
  (checkboxes : list PreferenceCenter.checkbox)
  (app : CookieConsent.t) (b : Browser) :
  let decision := PreferenceCenter.handleSave_categories checkboxes in
  (forall name,
      name <> EmptyString ->
      name <> "__proto__" ->
      JS.get name decision
      = match toggle_of name (rev checkboxes) with
        | Some box => Some (PreferenceCenter.checked box)
        | None => JS.get name save_defaults
        end)
  /\ JS.get EmptyString decision = None
  /\ JS.get "__proto__" decision = None
  /\ (ConsentManager.validateConsent (CookieConsent.consentManager app) decision
      = true ->
      exists st1,
        CookieConsent.updateConsent decision (app, b) = (Ok tt, st1)
        /\ PreferenceCenter.handleSave checkboxes (app, b)
           = (fst st1,
              publish "consent:update" (CategoriesPayload decision) (snd st1)))
  /\ (ConsentManager.validateConsent (CookieConsent.consentManager app) decision
      = false ->
      PreferenceCenter.handleSave checkboxes (app, b)
      = (app,
         publish "consent:update" (CategoriesPayload decision)
           (console_log "Error in event handler for consent:update:" b))).
Proof.
  intros decision. subst decision.
  split; [|split; [|split; [|split]]].
  - intros name Hne Hnp. unfold PreferenceCenter.handleSave_categories.
    now apply fold_toggles.
  - unfold PreferenceCenter.handleSave_categories.
    rewrite fold_toggles_skips by now left. reflexivity.
  - unfold PreferenceCenter.handleSave_categories.
    rewrite fold_toggles_skips by now right. reflexivity.
  - intros Hv. unfold PreferenceCenter.handleSave.
    exact (proj1 (emit_decision_cases "consent:update" _ app b) Hv).
  - intros Hv. unfold PreferenceCenter.handleSave.
    exact (proj2 (emit_decision_cases "consent:update" _ app b) Hv).
Qed.

(** X26, witness: "accept all" under the usual policy, and
    under a policy without a marketing category, where it leaves the
    storage and the page as they were. *)
Lemma accept_all_without_marketing_is_dropped :
  let app := CookieConsent.new Scenarios.analytics_policy in
  let b := Examples.page [Examples.ga] in
  (CookieConsent.consentManager Scenarios.site
   = ConsentManager.new (CookieConsent.config Scenarios.site)
   /\ defines_fixed_categories (CookieConsent.config Scenarios.site) = true
   /\ CookieConsent.consentManager app
      = ConsentManager.new (CookieConsent.config app)
   /\ defines_fixed_categories (CookieConsent.config app) = false)
  /\ (exists st1,
         CookieConsent.updateConsent Examples.accept_all (Scenarios.site, b)
         = (Ok tt, st1)
         /\ Banner.handleAcceptAll (Scenarios.site, b)
            = (CookieConsent.set_banner false (fst st1),
               publish "consent:accept" (CategoriesPayload Examples.accept_all)
                 (snd st1)))
  /\ localStorage (snd (Banner.handleAcceptAll (app, b))) = localStorage b
  /\ heap (snd (Banner.handleAcceptAll (app, b))) = heap b.
Proof.
  intros app b.
  split; [repeat split|].
  pose proof (banner_buttons Scenarios.site b eq_refl) as T.
  cbv zeta in T. destruct T as (T & _).
  destruct (T eq_refl) as (T1 & _).
  pose proof (banner_buttons app b eq_refl) as U.
  cbv zeta in U. destruct U as (_ & U). destruct (U eq_refl) as (U1 & _).
  split; [exact T1|]. rewrite U1. split; reflexivity.
Defined.

End DecisionProperties.

(** ** The hover colour *)

Module ColourFacts.
Import PreferenceCenter ColourProps.
Open Scope Z_scope.

Lemma hex_val_bound (c : ascii) (a : nat) :
  JSON.hex_val c = Some a -> (a < 16)%nat.
Proof.
  destruct c as [[] [] [] [] [] [] [] []]; vm_compute; intros E;
    try discriminate E; injection E as <-; repeat constructor.
Qed.

(** [parseInt] of two hexadecimal digits, and of one. *)
Lemma parseInt16_two (h1 h2 : ascii) :
  match JSON.hex_val h1, JSON.hex_val h2 with
  | Some a, Some b =>
      parseInt16 (String h1 (String h2 EmptyString))
      = Some (16 * Z.of_nat a + Z.of_nat b)
  | _, _ => True
  end.
Proof.
  destruct h1 as [[] [] [] [] [] [] [] []]; try exact I;
    destruct h2 as [[] [] [] [] [] [] [] []]; try exact I; reflexivity.
Qed.

Lemma parseInt16_one (h : ascii) :
  match JSON.hex_val h with
  | Some a => parseInt16 (String h EmptyString) = Some (Z.of_nat a)
  | None => True
  end.
Proof. destruct h as [[] [] [] [] [] [] [] []]; try exact I; reflexivity. Qed.

Lemma hex_val_hex_digit (n : nat) :
  (n < 16)%nat -> JSON.hex_val (JSON.hex_digit n) = Some n.
Proof.
  intros H. do 16 (destruct n as [|n]; [reflexivity|]). lia.
Qed.

Lemma adjust_Some (percent v : Z) :
  adjust percent (Some v) = Some (brighter percent v).
Proof.
  unfold adjust, brighter. do 3 f_equal. lia.
Qed.

Lemma brighter_bounds (percent v : Z) : 0 <= brighter percent v <= 255.
Proof. unfold brighter. lia. Qed.

Lemma toHex_byte (v : Z) : 0 <= v <= 255 -> toHex (Some v) = hex2 v.
Proof.
  intros Hv. unfold toHex, toString16, hex2.
  destruct (Z.ltb_spec v 0) as [|_]; [lia|].
  cbn [toString16_digits].
  destruct (Z.eqb_spec (v / 16) 0) as [E | E].
  - cbn [String.length Nat.eqb]. rewrite E.
    replace (v mod 16) with v by lia. reflexivity.
  - destruct (Z.to_nat v) as [|fuel] eqn:F; [lia|].
    cbn [toString16_digits].
    replace (v / 16 / 16) with 0 by lia. cbn [Z.eqb String.length Nat.eqb].
    replace ((v / 16) mod 16) with (v / 16) by lia. reflexivity.
Qed.

Lemma replace_first_hash (s : string) :
  replace_first "#" (String "#" s) = s.
Proof. reflexivity. Qed.

End ColourFacts.

Module ColourProperties.
Import PreferenceCenter ColourProps ColourFacts.
Open Scope Z_scope.

(** X28: [adjustColorBrightness] on a six-digit colour.  For a colour
    [#rrggbb] (digits of either case) the result is again of that form,
    in lower case: each channel is the channel [percent] per cent
    brighter, rounded to the nearest integer and kept within 0..255,
    written as two digits that read back as that value.  So a negative
    percentage never raises a channel, a positive one never lowers it,
    0 keeps every channel and -100 or less gives black. *)
Theorem adjustColorBrightness_six_digits
  (h1 h2 h3 h4 h5 h6 : ascii) (a1 a2 a3 a4 a5 a6 : nat) (percent : Z) :
  JSON.hex_val h1 = Some a1 -> JSON.hex_val h2 = Some a2 ->
  JSON.hex_val h3 = Some a3 -> JSON.hex_val h4 = Some a4 ->
  JSON.hex_val h5 = Some a5 -> JSON.hex_val h6 = Some a6 ->
  let color :=
    String "#" (String h1 (String h2 (String h3 (String h4 (String h5
      (String h6 EmptyString)))))) in
  let r := 16 * Z.of_nat a1 + Z.of_nat a2 in
  let g := 16 * Z.of_nat a3 + Z.of_nat a4 in
  let b := 16 * Z.of_nat a5 + Z.of_nat a6 in
  adjustColorBrightness color percent
  = String "#" (hex2 (brighter percent r) ++ hex2 (brighter percent g)
                ++ hex2 (brighter percent b))
  /\ (forall v, 0 <= v <= 255 -> parseInt16 (hex2 v) = Some v)
  /\ (forall v, 0 <= v <= 255 ->
        0 <= brighter percent v <= 255
        /\ (percent <= 0 -> brighter percent v <= v)
        /\ (0 <= percent -> v <= brighter percent v)
        /\ (percent = 0 -> brighter percent v = v)
        /\ (percent <= -100 -> brighter percent v = 0))
  /\ 0 <= r <= 255 /\ 0 <= g <= 255 /\ 0 <= b <= 255.
Proof.
  intros H1 H2 H3 H4 H5 H6 color r g b.
  pose proof (hex_val_bound _ _ H1). pose proof (hex_val_bound _ _ H2).
  pose proof (hex_val_bound _ _ H3). pose proof (hex_val_bound _ _ H4).
  pose proof (hex_val_bound _ _ H5). pose proof (hex_val_bound _ _ H6).
  split; [|split; [|split; [|unfold r, g, b; lia]]].
  - unfold adjustColorBrightness, color. cbv zeta. rewrite replace_first_hash.
    unfold substring. cbn [Nat.sub String.substring].
    pose proof (parseInt16_two h1 h2) as P1. rewrite H1, H2 in P1.
    pose proof (parseInt16_two h3 h4) as P2. rewrite H3, H4 in P2.
    pose proof (parseInt16_two h5 h6) as P3. rewrite H5, H6 in P3.
    rewrite P1, P2, P3, !adjust_Some.
    rewrite !toHex_byte by apply brighter_bounds. reflexivity.
  - intros v Hv. unfold hex2.
    pose proof (parseInt16_two (JSON.hex_digit (Z.to_nat (v / 16)))
                  (JSON.hex_digit (Z.to_nat (v mod 16)))) as P.
    rewrite !hex_val_hex_digit in P by lia. rewrite P. f_equal. lia.
  - intros v Hv. unfold brighter. clear - Hv.
    split; [lia|]. split; [|split; [|split]]; intros Hp.
    + assert (v * percent <= 0) by nia.
      assert ((v * (100 + percent) + 50) / 100 <= v) by lia. lia.
    + assert (0 <= v * percent) by nia.
      assert (v <= (v * (100 + percent) + 50) / 100) by lia. lia.
    + subst percent. replace ((v * (100 + 0) + 50) / 100) with v by lia. lia.
    + assert (v * (100 + percent) <= 0) by nia.
      assert ((v * (100 + percent) + 50) / 100 <= 0) by lia. lia.
Qed.

(** X29: [adjustColorBrightness] on other spellings.  It reads exactly
    six digits after the [#]: for a three-digit colour [#rgb] the red
    channel is taken from the first two digits, the green one from the
    third, and the blue one is missing, so the result ends in [NaN] and
    is no colour. *)
Theorem adjustColorBrightness_three_digits
  (h1 h2 h3 : ascii) (a1 a2 a3 : nat) (percent : Z) :
  JSON.hex_val h1 = Some a1 -> JSON.hex_val h2 = Some a2 ->
  JSON.hex_val h3 = Some a3 ->
  adjustColorBrightness
    (String "#" (String h1 (String h2 (String h3 EmptyString)))) percent
  = String "#" (hex2 (brighter percent (16 * Z.of_nat a1 + Z.of_nat a2))
                ++ hex2 (brighter percent (Z.of_nat a3)) ++ "NaN").
Proof.
  intros H1 H2 H3.
  unfold adjustColorBrightness. cbv zeta. rewrite replace_first_hash.
  unfold substring. cbn [Nat.sub String.substring].
  pose proof (parseInt16_two h1 h2) as P1. rewrite H1, H2 in P1.
  pose proof (parseInt16_one h3) as P2. rewrite H3 in P2.
  rewrite P1, P2, !adjust_Some.
  rewrite !toHex_byte by apply brighter_bounds. reflexivity.
Qed.

(** X28, witness: [#3B82F6] darkened by 15 per cent. *)
Lemma brand_blue_is_darkened :
  (JSON.hex_val "3" = Some 3%nat /\ JSON.hex_val "B" = Some 11%nat
   /\ JSON.hex_val "8" = Some 8%nat /\ JSON.hex_val "2" = Some 2%nat
   /\ JSON.hex_val "F" = Some 15%nat /\ JSON.hex_val "6" = Some 6%nat)
  /\ PreferenceCenter.adjustColorBrightness "#3B82F6" (-15) = "#326fd1"%string.
Proof.
  split; [repeat split|].
  rewrite (proj1 (adjustColorBrightness_six_digits
                    "3" "B" "8" "2" "F" "6" 3 11 8 2 15 6 (-15)
                    eq_refl eq_refl eq_refl eq_refl eq_refl eq_refl)).
  reflexivity.
Defined.

(** X29, witness: [#abc] darkened by 15 per cent. *)
Lemma short_colour_is_no_colour :
  (JSON.hex_val "a" = Some 10%nat /\ JSON.hex_val "b" = Some 11%nat
   /\ JSON.hex_val "c" = Some 12%nat)
  /\ PreferenceCenter.adjustColorBrightness "#abc" (-15) = "#910aNaN"%string.
Proof.
  split; [repeat split|].
  rewrite (adjustColorBrightness_three_digits
             "a" "b" "c" 10 11 12 (-15) eq_refl eq_refl eq_refl).
  reflexivity.
Defined.

End ColourProperties.
